(** * Dewab: Supabase Realtime (Phoenix channels) client for ESP32 boards

    A shallow embedding of [src/dewab_cpp/Dewab.h] and [src/dewab_cpp/Dewab.cpp]
    and the properties of the protocol engine stated in the specification:
    message references, channel bindings, heartbeats, broadcasts and the
    command dispatcher.

    The C++ classes keep their state in private members and talk to three
    collaborators: the ArduinoJson library, the WebSocketsClient transport
    and the application callbacks.  Here the members are record fields, every
    member function is a computation in a state monad over [World], and each
    call that leaves the engine is appended to a trace. *)

From Stdlib Require Import ZArith String List Lia DecimalString Sorted.
From stdpp Require Import gmap strings list.

Set Default Proof Using "Type".
#[local] Set Warnings "-register-all".

(** * ArduinoJson values *)

(** A [JsonDocument] holds a JSON value.  Objects keep their members in
    insertion order with distinct keys, as the library's slot list does. *)
Inductive Json : Type :=
| JNull
| JBool (b : bool)
| JInt (z : Z)
| JFloat (mantissa exponent : Z)
| JStr (s : string)
| JArr (items : list Json)
| JObj (members : list (string * Json)).

(** The members of a [JsonObject]. *)
Abbreviation JsonObject := (list (string * Json)).

(** A [JsonObjectConst] handle is null ([None]) or points to an object. *)
Abbreviation JsonObjectConst := (option (list (string * Json))).

(** A [JsonVariantConst] is unbound ([None]) or points to a value. *)
Abbreviation JsonVariantConst := (option Json).

Module Json.

(** [obj[key]] read access: the first member with that key. *)
Fixpoint get (key : string) (o : JsonObject) : JsonVariantConst :=
  match o with
  | [] => None
  | (k, v) :: rest => if String.eqb k key then Some v else get key rest
  end.

(** [obj[key] = value]: replaces the member when the key exists, appends
    a new member otherwise. *)
Fixpoint set (key : string) (value : Json) (o : JsonObject) : JsonObject :=
  match o with
  | [] => [(key, value)]
  | (k, v) :: rest =>
      if String.eqb k key then (k, value) :: rest
      else (k, v) :: set key value rest
  end.

(** [variant.as<JsonObjectConst>()]. *)
Definition as_object (v : JsonVariantConst) : JsonObjectConst :=
  match v with
  | Some (JObj members) => Some members
  | _ => None
  end.

(** [objConst[key]]: a null handle yields an unbound variant. *)
Definition member (o : JsonObjectConst) (key : string) : JsonVariantConst :=
  match o with
  | Some members => get key members
  | None => None
  end.

(** [variant[key]] on a variant: bound only under an object. *)
Definition at_key (v : JsonVariantConst) (key : string) : JsonVariantConst :=
  member (as_object v) key.

(** [doc[key]] read access on a document. *)
Definition doc_get (doc : Json) (key : string) : JsonVariantConst :=
  at_key (Some doc) key.

(** [doc[key] = value] on a document: a null document becomes an object,
    an object is updated, any other value is left alone. *)
Definition doc_set (key : string) (value : Json) (doc : Json) : Json :=
  match doc with
  | JNull => JObj [(key, value)]
  | JObj members => JObj (set key value members)
  | other => other
  end.

(** [member.is<JsonVariant>()] on a member of a [JsonDocument] or a
    [JsonObject], that is, through a handle that can write: true exactly
    when the member is there, whatever its value (lines 505, 552 and
    555). *)
Definition is_variant (v : JsonVariantConst) : bool :=
  match v with Some _ => true | None => false end.

(** [member.is<JsonVariant>()] on a member of a [JsonObjectConst] (lines
    278, 315 and 464).  The member is a [JsonVariantConst]; a read-only
    variant does not convert to a [JsonVariant], and for a conversion it
    does not support the library answers false, whether the member is
    there or not. *)
Definition is_variant_const (v : JsonVariantConst) : bool := false.

(** [variant.is<const char*>()]. *)
Definition is_cstr (v : JsonVariantConst) : bool :=
  match v with Some (JStr _) => true | _ => false end.

(** [variant.is<JsonObjectConst>()]. *)
Definition is_object (v : JsonVariantConst) : bool :=
  match v with Some (JObj _) => true | _ => false end.

(** [variant.as<const char*>()]: [None] is the null pointer. *)
Definition as_cstr (v : JsonVariantConst) : option string :=
  match v with Some (JStr s) => Some s | _ => None end.

(** [variant == "literal"]: only a string value can be equal to it. *)
Definition eq_str (v : JsonVariantConst) (lit : string) : bool :=
  match v with Some (JStr s) => String.eqb s lit | _ => false end.

(** [objConst] used as a condition: true unless the handle is null. *)
Definition truthy (o : JsonObjectConst) : bool :=
  match o with Some _ => true | None => false end.

(** [doc.isNull()]. *)
Definition isNull (doc : Json) : bool :=
  match doc with JNull => true | _ => false end.

(** [payload.as<JsonObjectConst>()] stored as a member value: the object
    itself, or null when the document holds no object. *)
Definition object_or_null (doc : Json) : Json :=
  match doc with JObj members => JObj members | _ => JNull end.

End Json.

(** * Integer types of the target *)

(** [unsigned int] and [unsigned long] are both 32 bits wide on the ESP32;
    their arithmetic wraps modulo [2^32]. *)
Definition UINT_MODULUS : Z := 2 ^ 32.

Definition wrap32 (z : Z) : Z := z mod UINT_MODULUS.

(** [String(n)] for an unsigned number: its decimal digits. *)
Definition String_of_uint (n : Z) : string :=
  NilZero.string_of_uint (N.to_uint (Z.to_N n)).

(** [strncmp(topic, "realtime:", 9) == 0]. *)
Definition has_realtime_prefix (topic : string) : bool :=
  String.prefix "realtime:" topic.

(** * The engine's state and its collaborators *)

(** Private members of [SupabaseRealtimeClient].  The five callback slots
    are not stored here: they are passed to the member functions that use
    them, see [Callbacks] below. *)
Record Client : Type := mkClient {
  _apiKey : string;
  _wsHost : string;
  _wsPath : string;
  _connected : bool;
  _lastHeartbeatSent : Z;
  _messageRefCounter : Z;
  _topicJoinRefs : gmap string string
}.

Definition _wsPort : Z := 443.
Definition _heartbeatInterval : Z := 25000.

(** Calls of the application callbacks registered on the client. *)
Inductive CallbackCall : Type :=
| OnConnected
| OnDisconnected
| OnError (message : string)
| OnBroadcast (topic event : string) (payload : JsonObjectConst)
| OnChannelJoined (topic joinRef : string).

(** What the engine does to the outside, in the order it does it.  A frame
    is shown as the document it was serialized from. *)
Inductive Event : Type :=
| EvBeginSSL (host : string) (port : Z) (path : string)
| EvSerialize (doc : Json) (written : bool)
| EvSendTXT (doc : Json) (accepted : bool)
| EvCallback (call : CallbackCall)
| EvCommandHandler (commandType : string) (payload : JsonObjectConst)
| EvStateProvider.

(** Answers of the collaborators the engine cannot compute itself: the
    board's clock, whether the k-th [serializeJson] call wrote any bytes,
    whether the k-th [sendTXT] call was accepted by the transport, the
    JSON parser, and the text [as<String>()] gives for a value that is
    not a string. *)
Record Extern : Type := mkExtern {
  millis_reading : nat -> Z;
  serializeJson_written : nat -> bool;
  sendTXT_accepted : nat -> bool;
  deserializeJson : string -> string + Json;
  variant_text : Json -> string
}.

Record World : Type := mkWorld {
  client : Client;
  ext : Extern;
  millis_calls : nat;
  serializeJson_calls : nat;
  sendTXT_calls : nat;
  trace : list Event
}.

(** * The state monad of member functions *)

Definition M (A : Type) : Type := World -> A * World.

Definition ret {A} (a : A) : M A := fun w => (a, w).

Definition bind {A B} (m : M A) (f : A -> M B) : M B :=
  fun w => f (fst (m w)) (snd (m w)).

Declare Scope M_scope.
Delimit Scope M_scope with M.
Bind Scope M_scope with M.
Notation "x <- m ;; k" := (bind m (fun x => k))
  (at level 100, m at next level, right associativity) : M_scope.
Notation "m ;; k" := (bind m (fun _ => k))
  (at level 100, right associativity) : M_scope.
Local Open Scope M_scope.

Definition exec {A} (m : M A) (w : World) : World := snd (m w).
Definition result {A} (m : M A) (w : World) : A := fst (m w).

Definition gets {A} (f : World -> A) : M A := fun w => (f w, w).

Definition modify_client (f : Client -> Client) : M unit :=
  fun w => (tt, mkWorld (f (client w)) (ext w) (millis_calls w)
                        (serializeJson_calls w) (sendTXT_calls w) (trace w)).

Definition emit (e : Event) : M unit :=
  fun w => (tt, mkWorld (client w) (ext w) (millis_calls w)
                        (serializeJson_calls w) (sendTXT_calls w)
                        (trace w ++ [e])).

(** [millis()], as an [unsigned long]. *)
Definition millis : M Z :=
  fun w => (wrap32 (millis_reading (ext w) (millis_calls w)),
            mkWorld (client w) (ext w) (S (millis_calls w))
                    (serializeJson_calls w) (sendTXT_calls w) (trace w)).

(** [serializeJson(doc, msg)]; the result says whether [written] is not 0. *)
Definition serializeJson (doc : Json) : M bool :=
  fun w =>
    let written := serializeJson_written (ext w) (serializeJson_calls w) in
    (written, mkWorld (client w) (ext w) (millis_calls w)
                      (S (serializeJson_calls w)) (sendTXT_calls w)
                      (trace w ++ [EvSerialize doc written])).

(** [webSocket.sendTXT(msg)] where [msg] is the serialization of [doc]. *)
Definition sendTXT (doc : Json) : M bool :=
  fun w =>
    let accepted := sendTXT_accepted (ext w) (sendTXT_calls w) in
    (accepted, mkWorld (client w) (ext w) (millis_calls w)
                       (serializeJson_calls w) (S (sendTXT_calls w))
                       (trace w ++ [EvSendTXT doc accepted])).

(** [variant.as<String>()]: the characters of a string value, the
    library's rendering of anything else (an unbound variant renders as
    null). *)
Definition as_String (v : JsonVariantConst) : M string :=
  gets (fun w => match v with
                 | Some (JStr s) => s
                 | Some other => variant_text (ext w) other
                 | None => variant_text (ext w) JNull
                 end).

(** Member updates. *)
Definition set_connected (b : bool) (c : Client) : Client :=
  mkClient (_apiKey c) (_wsHost c) (_wsPath c) b (_lastHeartbeatSent c)
           (_messageRefCounter c) (_topicJoinRefs c).

Definition set_lastHeartbeatSent (t : Z) (c : Client) : Client :=
  mkClient (_apiKey c) (_wsHost c) (_wsPath c) (_connected c) t
           (_messageRefCounter c) (_topicJoinRefs c).

Definition set_messageRefCounter (n : Z) (c : Client) : Client :=
  mkClient (_apiKey c) (_wsHost c) (_wsPath c) (_connected c)
           (_lastHeartbeatSent c) n (_topicJoinRefs c).

Definition set_topicJoinRef (topic ref : string) (c : Client) : Client :=
  mkClient (_apiKey c) (_wsHost c) (_wsPath c) (_connected c)
           (_lastHeartbeatSent c) (_messageRefCounter c)
           (<[topic := ref]> (_topicJoinRefs c)).

(** * SupabaseRealtimeClient *)

(** The constructor: members take their in-class initial values and
    [buildWebSocketUrl] fills in host and path. *)
Definition SupabaseRealtimeClient (projectRef apiKey : string) : Client :=
  mkClient apiKey
           (projectRef +:+ ".supabase.co")
           ("/realtime/v1/websocket?apikey=" +:+ apiKey +:+ "&vsn=1.0.0")
           false 0 1 ∅.

Definition isConnected : M bool := gets (fun w => _connected (client w)).

(** [String(_messageRefCounter++)]. *)
Definition getNextMessageRef : M string :=
  n <- gets (fun w => _messageRefCounter (client w)) ;;
  modify_client (set_messageRefCounter (wrap32 (n + 1)));;
  ret (String_of_uint n).

Section ErrorSlot.

(** The content of the [_errorCallback] slot; [None] is [nullptr]. *)
Context (_errorCallback : option (string -> M unit)).

(** [if (_errorCallback) _errorCallback(message);] *)
Definition report_error (message : string) : M unit :=
  match _errorCallback with
  | Some callback => emit (EvCallback (OnError message));; callback message
  | None => ret tt
  end.

Definition connect : M unit :=
  connected <- isConnected ;;
  if connected then report_error "Already connected or connecting."
  else
    host <- gets (fun w => _wsHost (client w)) ;;
    path <- gets (fun w => _wsPath (client w)) ;;
    emit (EvBeginSSL host _wsPort path).

Definition heartbeat_doc (ref : string) : Json :=
  JObj [("topic", JStr "phoenix"); ("event", JStr "heartbeat");
        ("payload", JObj []); ("ref", JStr ref)].

Definition sendHeartbeat : M unit :=
  connected <- isConnected ;;
  if negb connected then ret tt
  else
    ref <- getNextMessageRef ;;
    let doc := heartbeat_doc ref in
    written <- serializeJson doc ;;
    if negb written then report_error "Failed to serialize heartbeat JSON."
    else
      accepted <- sendTXT doc ;;
      if accepted then
        now <- millis ;;
        modify_client (set_lastHeartbeatSent now)
      else report_error "WebSocket sendTXT failed for heartbeat.".

Definition join_doc (channelTopic ref apiKey : string) : Json :=
  JObj [("topic", JStr channelTopic); ("event", JStr "phx_join");
        ("ref", JStr ref); ("join_ref", JStr ref);
        ("payload",
          JObj [("access_token", JStr apiKey);
                ("config",
                  JObj [("broadcast", JObj [("self", JBool false)]);
                        ("presence", JObj [("key", JStr EmptyString)]);
                        ("private", JBool false)])])].

Definition _joinChannel (channelTopic : string) : M unit :=
  connected <- isConnected ;;
  if negb connected then ret tt
  else
    ref <- getNextMessageRef ;;
    apiKey <- gets (fun w => _apiKey (client w)) ;;
    let doc := join_doc channelTopic ref apiKey in
    written <- serializeJson doc ;;
    if negb written then
      report_error ("Failed to serialize join JSON for topic: " +:+ channelTopic)
    else
      accepted <- sendTXT doc ;;
      if negb accepted then
        report_error ("WebSocket sendTXT failed for join: " +:+ channelTopic)
      else ret tt.

Definition joinChannel (topic : string) : M unit :=
  connected <- isConnected ;;
  if negb connected then report_error "Cannot join channel: Not connected."
  else _joinChannel topic.

Definition broadcast_doc (topic event : string) (payload : Json)
    (messageRef joinRef : string) : Json :=
  JObj [("topic", JStr topic); ("event", JStr "broadcast");
        ("payload",
          JObj [("type", JStr "broadcast"); ("event", JStr event);
                ("payload", Json.object_or_null payload)]);
        ("ref", JStr messageRef); ("join_ref", JStr joinRef)].

Definition broadcast (topic event : string) (payload : Json) : M bool :=
  connected <- isConnected ;;
  if negb connected then
    report_error "Cannot broadcast: Not connected.";; ret false
  else
    it <- gets (fun w => _topicJoinRefs (client w) !! topic) ;;
    match it with
    | None =>
        report_error ("Cannot broadcast: Not joined to topic " +:+ topic);;
        ret false
    | Some joinRef =>
        messageRef <- getNextMessageRef ;;
        let doc := broadcast_doc topic event payload messageRef joinRef in
        written <- serializeJson doc ;;
        if negb written then
          report_error ("Failed to serialize broadcast JSON for event: " +:+ event);;
          ret false
        else
          accepted <- sendTXT doc ;;
          if accepted then ret true
          else
            report_error ("WebSocket sendTXT failed for broadcast: " +:+ event);;
            ret false
    end.

End ErrorSlot.

(** The five [std::function] slots of the client; [None] is [nullptr].
    The setters [onConnected], [onDisconnected], [onError], [onBroadcast]
    and [onChannelJoined] only assign them. *)
Record Callbacks : Type := mkCallbacks {
  _connectedCallback : option (M unit);
  _disconnectedCallback : option (M unit);
  _errorCallback : option (string -> M unit);
  _broadcastCallback : option (string -> string -> JsonObjectConst -> M unit);
  _channelJoinedCallback : option (string -> string -> M unit)
}.

(** [WStype_t] of the WebSockets library. *)
Inductive WStype_t : Type :=
| WStype_ERROR
| WStype_DISCONNECTED
| WStype_CONNECTED
| WStype_TEXT
| WStype_BIN
| WStype_FRAGMENT_TEXT_START
| WStype_FRAGMENT_BIN_START
| WStype_FRAGMENT
| WStype_FRAGMENT_FIN
| WStype_PING
| WStype_PONG.

(** [event && strcmp(event, name) == 0] *)
Definition cstr_is (s : option string) (name : string) : bool :=
  match s with Some e => String.eqb e name | None => false end.

Section EventSlots.

Context (cbs : Callbacks).

(** [if (_connectedCallback) _connectedCallback();] *)
Definition notify_connected : M unit :=
  match _connectedCallback cbs with
  | Some callback => emit (EvCallback OnConnected);; callback
  | None => ret tt
  end.

(** [if (_disconnectedCallback) _disconnectedCallback();] *)
Definition notify_disconnected : M unit :=
  match _disconnectedCallback cbs with
  | Some callback => emit (EvCallback OnDisconnected);; callback
  | None => ret tt
  end.

(** [if (_channelJoinedCallback) _channelJoinedCallback(topic, joinRef);] *)
Definition notify_channelJoined (topic joinRef : string) : M unit :=
  match _channelJoinedCallback cbs with
  | Some callback =>
      emit (EvCallback (OnChannelJoined topic joinRef));; callback topic joinRef
  | None => ret tt
  end.

(** [_topicJoinRefs[topic] = String(msgRef);] *)
Definition bind_topic (topic msgRef : string) : M unit :=
  modify_client (set_topicJoinRef topic msgRef).

(** Lines 277-296: the first pass over a frame, written for any payload
    with a [status].  The test for that member, at line 278, is made on
    the read-only payload. *)
Definition status_branch (topic event : option string)
    (jsonPayload : JsonObjectConst) (msgRef : option string) : M unit :=
  if Json.truthy jsonPayload then
    if Json.is_variant_const (Json.member jsonPayload "status") then
      match topic with
      | Some t =>
          if has_realtime_prefix t && cstr_is event "phx_reply" then
            if Json.eq_str (Json.member jsonPayload "status") "ok" then
              match msgRef with
              | Some r => bind_topic t r;; notify_channelJoined t r
              | None => notify_channelJoined t EmptyString
              end
            else ret tt
          else ret tt
      | None => ret tt
      end
    else ret tt
  else ret tt.

(** Line 315: the reason given in a rejected join reply.  Both tests
    are made on members of the read-only payload. *)
Definition join_failure_reason (jsonPayload : JsonObjectConst) : M string :=
  let response := Json.member jsonPayload "response" in
  if Json.is_variant_const response
     && Json.is_variant_const (Json.at_key response "reason")
  then as_String (Json.at_key response "reason")
  else ret "unknown reason".

(** Lines 321-339: an inbound broadcast, handed to [_broadcastCallback]. *)
Definition broadcast_branch
    (callback : string -> string -> JsonObjectConst -> M unit)
    (topic event : string) (jsonPayload : JsonObjectConst) : M unit :=
  type <- as_String (Json.member jsonPayload "type") ;;
  if Json.truthy jsonPayload && String.eqb type "broadcast"
     && Json.is_cstr (Json.member jsonPayload "event")
     && Json.is_object (Json.member jsonPayload "payload")
  then
    userEvent <- as_String (Json.member jsonPayload "event") ;;
    let userPayload := Json.as_object (Json.member jsonPayload "payload") in
    emit (EvCallback (OnBroadcast topic userEvent userPayload));;
    callback topic userEvent userPayload
  else
    emit (EvCallback (OnBroadcast topic event jsonPayload));;
    callback topic event jsonPayload.

(** Lines 298-343: the chain of [if]/[else if] on topic and event. *)
Definition dispatch_branch (topic event : option string)
    (jsonPayload : JsonObjectConst) (msgRef : option string) : M unit :=
  match topic with
  | None => ret tt
  | Some t =>
      if String.eqb t "phoenix" && cstr_is event "phx_reply" then
        if Json.truthy jsonPayload
           && Json.eq_str (Json.member jsonPayload "status") "ok"
        then ret tt
        else report_error (_errorCallback cbs) "Phoenix reply not OK."
      else if has_realtime_prefix t && cstr_is event "phx_reply" then
        if Json.truthy jsonPayload
           && Json.eq_str (Json.member jsonPayload "status") "ok"
        then
          match msgRef with
          | Some r => bind_topic t r;; notify_channelJoined t r
          | None => ret tt
          end
        else
          reason <- join_failure_reason jsonPayload ;;
          report_error (_errorCallback cbs)
            ((("Join failed for " +:+ t) +:+ ": ") +:+ reason)
      else
        match event, _broadcastCallback cbs with
        | Some e, Some callback =>
            if String.eqb e "broadcast"
            then broadcast_branch callback t e jsonPayload
            else ret tt
        | _, _ => ret tt
        end
  end.

(** [case WStype_TEXT] *)
Definition on_text (payloadArg : string) : M unit :=
  parsed <- gets (fun w => deserializeJson (ext w) payloadArg) ;;
  match parsed with
  | inl error =>
      report_error (_errorCallback cbs)
        ("JSON Deserialization failed: " +:+ error)
  | inr doc =>
      let topic := Json.as_cstr (Json.doc_get doc "topic") in
      let event := Json.as_cstr (Json.doc_get doc "event") in
      let jsonPayload := Json.as_object (Json.doc_get doc "payload") in
      let msgRef := Json.as_cstr (Json.doc_get doc "ref") in
      status_branch topic event jsonPayload msgRef;;
      dispatch_branch topic event jsonPayload msgRef
  end.

Definition webSocketEvent (type : WStype_t) (payloadArg : string) : M unit :=
  match type with
  | WStype_DISCONNECTED =>
      modify_client (set_connected false);;
      notify_disconnected
  | WStype_CONNECTED =>
      modify_client (set_connected true);;
      now <- millis ;;
      modify_client (set_lastHeartbeatSent now);;
      modify_client (set_messageRefCounter 1);;
      sendHeartbeat (_errorCallback cbs);;
      notify_connected
  | WStype_TEXT => on_text payloadArg
  | WStype_ERROR =>
      report_error (_errorCallback cbs) ("WebSocket Error: " +:+ payloadArg)
  | _ => ret tt
  end.

(** [webSocket.loop()]: the transport hands over the events that arrived
    since the last call, one [webSocketEvent] call each. *)
Fixpoint webSocket_loop (delivered : list (WStype_t * string)) : M unit :=
  match delivered with
  | [] => ret tt
  | (type, payloadArg) :: rest =>
      webSocketEvent type payloadArg;; webSocket_loop rest
  end.

(** Lines 79-84: the keep-alive check at the end of [loop]. *)
Definition heartbeat_check : M unit :=
  connected <- isConnected ;;
  if connected then
    currentTime <- millis ;;
    last <- gets (fun w => _lastHeartbeatSent (client w)) ;;
    if (_heartbeatInterval <=? wrap32 (currentTime - last))%Z
    then sendHeartbeat (_errorCallback cbs)
    else ret tt
  else ret tt.

Definition loop (delivered : list (WStype_t * string)) : M unit :=
  webSocket_loop delivered;;
  heartbeat_check.

End EventSlots.

(** * Dewab *)

(** [bool(const JsonObjectConst& payload, JsonDocument& customReplyData)]:
    the handler receives the payload and the empty reply document and gives
    back its success flag and the document as it left it. *)
Definition SpecificCommandHandler : Type :=
  JsonObjectConst -> Json -> M (bool * Json).

(** [void(JsonDocument& docToPopulate)] *)
Definition StateProviderCallback : Type := Json -> M Json.

(** Private members of [Dewab].  The client it owns lives in [World], next
    to the trace, so that handlers can be computations over it. *)
Record Dewab : Type := mkDewab {
  _deviceName : string;
  _stateProvider : option StateProviderCallback;
  _registeredCommands : gmap string SpecificCommandHandler
}.

Definition deviceChannel : string := "realtime:arduino-commands".

Definition onStateUpdateRequest (callback : option StateProviderCallback)
    (d : Dewab) : Dewab :=
  mkDewab (_deviceName d) callback (_registeredCommands d).

Definition registerCommand (commandType : string)
    (handler : option SpecificCommandHandler) (d : Dewab) : Dewab :=
  match handler with
  | Some h =>
      if String.eqb commandType EmptyString then d
      else mkDewab (_deviceName d) (_stateProvider d)
                   (<[commandType := h]> (_registeredCommands d))
  | None => d
  end.

(** [handleSupabaseError] and [handleSupabaseDisconnected] only print. *)
Definition handleSupabaseError (errorMsg : string) : M unit := ret tt.
Definition handleSupabaseDisconnected : M unit := ret tt.

(** The error slot as [Dewab::begin] fills it. *)
Definition dewab_onError : option (string -> M unit) := Some handleSupabaseError.

Definition handleSupabaseConnected (d : Dewab) : M unit :=
  joinChannel dewab_onError deviceChannel.

Definition broadcastCurrentState (d : Dewab) (reason : string) : M unit :=
  connected <- isConnected ;;
  if negb connected then ret tt
  else
    match _stateProvider d with
    | None => ret tt
    | Some provider =>
        emit EvStateProvider;;
        stateDoc <- provider JNull ;;
        let stateDoc :=
          if negb (Json.is_variant (Json.doc_get stateDoc "device_name"))
          then Json.doc_set "device_name" (JStr (_deviceName d)) stateDoc
          else stateDoc in
        let stateDoc :=
          if negb (Json.is_variant (Json.doc_get stateDoc "reason"))
          then Json.doc_set "reason" (JStr reason) stateDoc
          else stateDoc in
        broadcast dewab_onError deviceChannel "ARDUINO_STATE_UPDATE" stateDoc;;
        ret tt
    end.

Definition handleSupabaseChannelJoined (d : Dewab) (topic joinRef : string)
    : M unit :=
  if String.eqb topic deviceChannel then
    match _stateProvider d with
    | Some _ => broadcastCurrentState d "dewab_channel_joined"
    | None => ret tt
    end
  else ret tt.

(** Lines 463-464: the test for a payload that is itself a broadcast
    envelope.  The tests for its [event] and [payload] members are made
    on the read-only payload. *)
Definition is_nested_broadcast (payload : JsonObjectConst) : bool :=
  Json.truthy payload
  && Json.eq_str (Json.member payload "type") "broadcast"
  && Json.is_variant_const (Json.member payload "event")
  && Json.is_variant_const (Json.member payload "payload").

(** Lines 459-468: the command type the dispatcher goes on with. *)
Definition actualCommandType (event : string) (payload : JsonObjectConst)
    : M string :=
  if is_nested_broadcast payload
  then as_String (Json.member payload "event")
  else ret event.

(** Lines 460-468: the payload the dispatcher goes on with. *)
Definition actualPayload (payload : JsonObjectConst) : JsonObjectConst :=
  if is_nested_broadcast payload
  then Json.as_object (Json.member payload "payload")
  else payload.

(** Lines 473-478: the command names another device. *)
Definition targets_other_device (d : Dewab) (payload : JsonObjectConst) : bool :=
  Json.truthy payload
  && Json.is_cstr (Json.member payload "target_device_name")
  && match Json.as_cstr (Json.member payload "target_device_name") with
     | Some targetDevice => negb (String.eqb targetDevice (_deviceName d))
     | None => false
     end.

(** Lines 493-497: the handler's fields are copied into the reply. *)
Definition copy_custom_fields (customHandlerDataDoc : Json)
    (replyData : JsonObject) : JsonObject :=
  if negb (Json.isNull customHandlerDataDoc) then
    match Json.as_object (Some customHandlerDataDoc) with
    | Some members =>
        fold_left (fun reply kvp => Json.set (fst kvp) (snd kvp) reply)
                  members replyData
    | None => replyData
    end
  else replyData.

(** Lines 492-508: event and payload of the reply once a handler ran. *)
Definition handler_reply (commandType : string) (success : bool)
    (customHandlerDataDoc : Json) : string * JsonObject :=
  let replyData := Json.set "original_command" (JStr commandType) [] in
  let replyData := copy_custom_fields customHandlerDataDoc replyData in
  if success then
    (commandType +:+ "_ACK", Json.set "status" (JStr "success") replyData)
  else
    let replyData := Json.set "status" (JStr "error") replyData in
    (commandType +:+ "_ERROR",
     if negb (Json.is_variant (Json.get "message" replyData))
     then Json.set "message" (JStr "Command execution failed on device.") replyData
     else replyData).

(** Lines 510-514: event and payload of the reply without a handler. *)
Definition unknown_command_reply (commandType : string) : string * JsonObject :=
  let replyData := Json.set "status" (JStr "error") [] in
  let replyData :=
    Json.set "message"
      (JStr "Unknown command type or no handler registered on device.")
      replyData in
  let replyData := Json.set "original_command" (JStr commandType) replyData in
  (commandType +:+ "_ERROR", replyData).

(** Lines 517-527: the reply goes out on the topic the command came on. *)
Definition send_reply (topic : string) (reply : string * JsonObject) : M unit :=
  if negb (String.eqb (fst reply) EmptyString) then
    broadcast dewab_onError topic (fst reply) (JObj (snd reply));;
    ret tt
  else ret tt.

(** Lines 483-527: look the handler up, run it, reply. *)
Definition execute_command (d : Dewab) (topic commandType : string)
    (commandPayload : JsonObjectConst) : M unit :=
  match _registeredCommands d !! commandType with
  | Some handler =>
      emit (EvCommandHandler commandType commandPayload);;
      outcome <- handler commandPayload JNull ;;
      send_reply topic (handler_reply commandType (fst outcome) (snd outcome))
  | None =>
      send_reply topic (unknown_command_reply commandType)
  end.

Definition handleBroadcastCommand (d : Dewab) (topic event : string)
    (payload : JsonObjectConst) : M unit :=
  if negb (String.eqb topic deviceChannel) then ret tt
  else
    commandType <- actualCommandType event payload ;;
    let commandPayload := actualPayload payload in
    if targets_other_device d commandPayload then ret tt
    else execute_command d topic commandType commandPayload.

(** The slots as [Dewab::begin] fills them. *)
Definition dewab_callbacks (d : Dewab) : Callbacks :=
  mkCallbacks (Some (handleSupabaseConnected d))
              (Some handleSupabaseDisconnected)
              dewab_onError
              (Some (handleBroadcastCommand d))
              (Some (handleSupabaseChannelJoined d)).

(** [Dewab::begin], given whether [WifiManager] got the board attached. *)
Definition begin (d : Dewab) (wifiConnected : bool) : M unit :=
  if wifiConnected then connect (_errorCallback (dewab_callbacks d))
  else ret tt.

(** [Dewab::loop], given whether the board is attached on this tick. *)
Definition Dewab_loop (d : Dewab) (wifiConnected : bool)
    (delivered : list (WStype_t * string)) : M unit :=
  if wifiConnected then loop (dewab_callbacks d) delivered else ret tt.

(** * Observations on worlds *)

(** The frames handed to the transport so far and accepted by it. *)
Fixpoint transmitted (tr : list Event) : list Json :=
  match tr with
  | [] => []
  | EvSendTXT doc true :: rest => doc :: transmitted rest
  | _ :: rest => transmitted rest
  end.

(** The frames handed to [sendTXT] so far, accepted or not. *)
Fixpoint handed_over (tr : list Event) : list Json :=
  match tr with
  | [] => []
  | EvSendTXT doc _ :: rest => doc :: handed_over rest
  | _ :: rest => handed_over rest
  end.

(** The envelopes built by send operations so far: each operation draws
    its reference, builds the envelope and serializes it once. *)
Fixpoint envelopes (tr : list Event) : list Json :=
  match tr with
  | [] => []
  | EvSerialize doc _ :: rest => doc :: envelopes rest
  | _ :: rest => envelopes rest
  end.

(** The calls of the channel-joined callback so far. *)
Fixpoint joined_calls (tr : list Event) : list (string * string) :=
  match tr with
  | [] => []
  | EvCallback (OnChannelJoined topic joinRef) :: rest =>
      (topic, joinRef) :: joined_calls rest
  | _ :: rest => joined_calls rest
  end.

(** The [ref] member of an envelope. *)
Definition ref_of (doc : Json) : option string :=
  Json.as_cstr (Json.doc_get doc "ref").

(** References of the envelopes built, and of those the transport took. *)
Definition drawn_refs (tr : list Event) : list (option string) :=
  map ref_of (envelopes tr).

Definition transmitted_refs (tr : list Event) : list (option string) :=
  map ref_of (transmitted tr).

(** What a computation appended to the trace. *)
Definition events_since (w w' : World) : list Event :=
  drop (length (trace w)) (trace w').

Definition counter (w : World) : Z := _messageRefCounter (client w).

(** The counter holds an [unsigned int]. *)
Definition in_range (w : World) : Prop := (0 <= counter w < UINT_MODULUS)%Z.

(** The [n] references the counter yields from value [c] on. *)
Definition counting (c : Z) (n : nat) : list (option string) :=
  map (fun k => Some (String_of_uint (wrap32 (c + Z.of_nat k)))) (seq 0 n).

(** The message [broadcast] reports when it refuses to send. *)
Definition broadcast_refusal (w : World) (topic : string) : string :=
  if _connected (client w)
  then "Cannot broadcast: Not joined to topic " +:+ topic
  else "Cannot broadcast: Not connected.".

(** The world once a send operation has drawn its reference and made
    [ser] calls of [serializeJson] and [tx] calls of [sendTXT], leaving
    [events] on the trace. *)
Definition after_draw (w : World) (events : list Event) (ser tx : nat) : World :=
  mkWorld (set_messageRefCounter (wrap32 (counter w + 1)) (client w))
          (ext w) (millis_calls w)
          (ser + serializeJson_calls w) (tx + sendTXT_calls w)
          (trace w ++ events).

(** ** The reference discipline *)

(** [w'] continues [w]: the trace grew, the envelopes built meanwhile
    carry the counter's successive values, the counter moved on by their
    number, and what the transport took is part of what was built. *)
Definition advances_by (n : nat) (w w' : World) : Prop :=
  exists delta,
    trace w' = trace w ++ delta
    /\ drawn_refs delta = counting (counter w) n
    /\ counter w' = wrap32 (counter w + Z.of_nat n)
    /\ transmitted_refs delta `sublist_of` drawn_refs delta.

Definition advances (w w' : World) : Prop := exists n, advances_by n w w'.

(** A computation that draws references only through send operations.
    The counter is a private member of the client, so application code,
    which reaches the client through its public member functions only,
    cannot move it in any other way. *)
Definition disciplined {A} (m : M A) : Prop :=
  forall w, in_range w -> advances w (exec m w).

Definition callbacks_disciplined (cbs : Callbacks) : Prop :=
  (forall f, _connectedCallback cbs = Some f -> disciplined f)
  /\ (forall f, _disconnectedCallback cbs = Some f -> disciplined f)
  /\ (forall f, _errorCallback cbs = Some f -> forall m, disciplined (f m))
  /\ (forall f, _broadcastCallback cbs = Some f ->
        forall t e p, disciplined (f t e p))
  /\ (forall f, _channelJoinedCallback cbs = Some f ->
        forall t r, disciplined (f t r)).

(** The application's handlers keep the discipline. *)
Definition well_behaved (d : Dewab) : Prop :=
  (forall commandType handler,
      _registeredCommands d !! commandType = Some handler ->
      forall payload doc, disciplined (handler payload doc))
  /\ (forall provider, _stateProvider d = Some provider ->
        forall doc, disciplined (provider doc)).

(** ** Runs of the engine *)

(** What can happen to a client between two connection events. *)
Inductive Step : Type :=
| StepEvent (type : WStype_t) (payloadArg : string)
| StepHeartbeatCheck
| StepConnect
| StepJoinChannel (topic : string)
| StepBroadcast (topic event : string) (payload : Json)
| StepApplication (code : M unit).

Definition perform (cbs : Callbacks) (s : Step) : M unit :=
  match s with
  | StepEvent type payloadArg => webSocketEvent cbs type payloadArg
  | StepHeartbeatCheck => heartbeat_check cbs
  | StepConnect => connect (_errorCallback cbs)
  | StepJoinChannel topic => joinChannel (_errorCallback cbs) topic
  | StepBroadcast topic event payload =>
      broadcast (_errorCallback cbs) topic event payload;; ret tt
  | StepApplication code => code
  end.

Fixpoint perform_all (cbs : Callbacks) (steps : list Step) : M unit :=
  match steps with
  | [] => ret tt
  | s :: rest => perform cbs s;; perform_all cbs rest
  end.

(** A step that stays in the current connection epoch. *)
Definition within_epoch (s : Step) : Prop :=
  match s with
  | StepEvent type _ => type <> WStype_CONNECTED
  | StepApplication code => disciplined code
  | _ => True
  end.

(** Callbacks that only take note of the call. *)
Definition observers : Callbacks :=
  mkCallbacks (Some (ret tt)) (Some (ret tt)) (Some (fun _ => ret tt))
              (Some (fun _ _ _ => ret tt)) (Some (fun _ _ => ret tt)).

(** The answers the collaborators will give to the next call. *)
Definition serialize_next (w : World) : bool :=
  serializeJson_written (ext w) (serializeJson_calls w).

Definition accept_next (w : World) : bool :=
  sendTXT_accepted (ext w) (sendTXT_calls w).

(** An event that is neither a serialization nor a transport send. *)
Definition quiet (e : Event) : Prop :=
  match e with
  | EvSerialize _ _ | EvSendTXT _ _ => False
  | _ => True
  end.

Definition error_slot_disciplined (onError : option (string -> M unit)) : Prop :=
  forall f, onError = Some f -> forall m, disciplined (f m).

(** A board that has just been constructed, with collaborators that
    always succeed and a parser that knows no frame. *)
Definition easy_ext : Extern :=
  mkExtern (fun _ => 0%Z) (fun _ => true) (fun _ => true)
           (fun _ => inl "InvalidInput") (fun _ => "null").

Definition fresh_world : World :=
  mkWorld (SupabaseRealtimeClient "project" "key") easy_ext 0 0 0 [].

(** Collaborators that succeed, on a board whose clock gives the listed
    readings, one per call of [millis()], and 0 afterwards. *)
Definition ticking (readings : list Z) : Extern :=
  mkExtern (fun k => nth k readings 0%Z) (fun _ => true) (fun _ => true)
           (fun _ => inl "InvalidInput") (fun _ => "null").

(** A send operation fails before the transport is tried ([handed] is
    false: [serializeJson] wrote nothing) or at the transport ([handed] is
    true: [sendTXT] refused the frame). *)
Definition send_fails (w : World) (handed : bool) : Prop :=
  if handed then serialize_next w = true /\ accept_next w = false
  else serialize_next w = false.

(** The world in which a send operation gave up on the envelope [doc]:
    the reference is consumed and the transport has taken nothing. *)
Definition gave_up (w : World) (doc : Json) (handed : bool) : World :=
  if handed
  then after_draw w [EvSerialize doc true; EvSendTXT doc false] 1 1
  else after_draw w [EvSerialize doc false] 1 0.

(** Collaborators that succeed except for the second serialization. *)
Definition second_serialization_fails : Extern :=
  mkExtern (fun _ => 0%Z) (fun k => negb (Nat.eqb k 1)) (fun _ => true)
           (fun _ => inl "InvalidInput") (fun _ => "null").

(** Collaborators that succeed, with a parser that knows the listed
    frames and what document each of them holds. *)
Definition parsing (frames : list (string * Json)) : Extern :=
  mkExtern (fun _ => 0%Z) (fun _ => true) (fun _ => true)
           (fun raw => match Json.get raw frames with
                       | Some doc => inr doc
                       | None => inl "InvalidInput"
                       end)
           (fun _ => "null").

(** A connected client that reads the frame [raw] as [doc]. *)
Definition receiving (raw : string) (doc : Json) : World :=
  mkWorld (set_connected true (SupabaseRealtimeClient "project" "key"))
          (parsing [(raw, doc)]) 0 0 0 [].

(** [doc] is a reply to a join on [topic] with status "ok". *)
Definition is_join_ok_reply (doc : Json) (topic : string) : Prop :=
  Json.as_cstr (Json.doc_get doc "topic") = Some topic
  /\ has_realtime_prefix topic = true
  /\ Json.as_cstr (Json.doc_get doc "event") = Some "phx_reply"
  /\ Json.eq_str (Json.member (Json.as_object (Json.doc_get doc "payload")) "status")
                 "ok" = true.

(** The channel-joined callback does not touch the bindings itself. *)
Definition callback_keeps_bindings (cbs : Callbacks) : Prop :=
  forall f, _channelJoinedCallback cbs = Some f ->
  forall t r w, _topicJoinRefs (client (exec (f t r) w)) = _topicJoinRefs (client w).

(** The channel-joined callback does not call itself. *)
Definition callback_not_reentrant (cbs : Callbacks) : Prop :=
  forall f, _channelJoinedCallback cbs = Some f ->
  forall t r w, joined_calls (trace (exec (f t r) w)) = joined_calls (trace w).

(** The replies of the specification's examples. *)
Definition join_reply_with_ref_7 : Json :=
  JObj [("topic", JStr "realtime:cmds"); ("event", JStr "phx_reply");
        ("payload", JObj [("status", JStr "ok")]); ("ref", JStr "7")].

Definition join_reply_without_ref : Json :=
  JObj [("topic", JStr "realtime:cmds"); ("event", JStr "phx_reply");
        ("payload", JObj [("status", JStr "ok")])].

(** ** The command dispatcher *)

(** What lines 463-464 look for: a payload that is a broadcast envelope
    once more, with type "broadcast", an [event] and a [payload]. *)
Definition wrapped_again (payload : JsonObjectConst) : bool :=
  Json.truthy payload
  && Json.eq_str (Json.member payload "type") "broadcast"
  && Json.is_variant (Json.member payload "event")
  && Json.is_variant (Json.member payload "payload").

(** The command type [handleBroadcastCommand] works with. *)
Definition command_type_of (w : World) (event : string)
    (payload : JsonObjectConst) : string :=
  result (actualCommandType event payload) w.

(** The members a handler left in its reply document. *)
Definition custom_fields (customHandlerDataDoc : Json) : JsonObject :=
  match customHandlerDataDoc with
  | JObj members => members
  | _ => []
  end.

(** An object built through [obj[key] = value] has one member per key. *)
Definition distinct_keys (o : JsonObject) : Prop := NoDup (map fst o).

(** The frame that carries a reply, built from the world in which
    [broadcast] is called. *)
Definition reply_frame (w : World) (topic replyEvent : string)
    (replyData : JsonObject) (joinRef : string) : Json :=
  broadcast_doc topic replyEvent (JObj replyData)
                (String_of_uint (counter w)) joinRef.

(** The board of the specification's examples: named "esp32-1", with a
    handler for "SET_LED" that succeeds and adds the field [led]. *)
Definition led_handler : SpecificCommandHandler :=
  fun payload customReplyData =>
    ret (true, Json.doc_set "led" (JStr "on") customReplyData).

Definition esp32_1 : Dewab :=
  registerCommand "SET_LED" (Some led_handler) (mkDewab "esp32-1" None ∅).

Definition esp32_2 : Dewab :=
  registerCommand "SET_LED" (Some led_handler) (mkDewab "esp32-2" None ∅).

(** A connected client that has joined the device channel with join
    reference "5". *)
Definition joined_world : World :=
  mkWorld (set_topicJoinRef deviceChannel "5"
             (set_connected true (SupabaseRealtimeClient "project" "key")))
          easy_ext 0 0 0 [].

(** The payload of the inbound broadcast of the specification's
    examples, and the command in it. *)
Definition set_led_command : JsonObjectConst :=
  Some [("type", JStr "broadcast"); ("event", JStr "SET_LED");
        ("payload", JObj [("target_device_name", JStr "esp32-1");
                          ("on", JBool true)])].

Definition set_led_payload : JsonObjectConst :=
  Some [("target_device_name", JStr "esp32-1"); ("on", JBool true)].

(** The inbound frame that carries [payload] on the device channel. *)
Definition broadcast_frame (payload : JsonObjectConst) : Json :=
  JObj [("topic", JStr deviceChannel); ("event", JStr "broadcast");
        ("payload", match payload with Some members => JObj members | None => JNull end);
        ("ref", JNull)].

(** A connected client, joined to the device channel with join
    reference "5", that reads the frame [raw] as [doc]. *)
Definition joined_receiving (raw : string) (doc : Json) : World :=
  mkWorld (client joined_world) (parsing [(raw, doc)]) 0 0 0 [].

(** A "PING" command inside a second broadcast envelope. *)
Definition wrapped_ping : JsonObjectConst :=
  Some [("type", JStr "broadcast"); ("event", JStr "PING"); ("payload", JObj [])].

(** A handler that succeeds and writes [original_command] and [status]
    itself, and a board named "esp32-1" that has it for "SET_LED". *)
Definition own_fields_handler : SpecificCommandHandler :=
  fun payload customReplyData =>
    ret (true, Json.doc_set "status" (JStr "busy")
                 (Json.doc_set "original_command" (JStr "LED") customReplyData)).

Definition esp32_own_fields : Dewab :=
  registerCommand "SET_LED" (Some own_fields_handler) (mkDewab "esp32-1" None ∅).

(** A session of the board "esp32-1": the server's reply to the join and
    the frame that carries a "SET_LED" command, as the parser reads
    them. *)
Definition session_frames : list (string * Json) :=
  [("join-reply",
     JObj [("topic", JStr deviceChannel); ("event", JStr "phx_reply");
           ("payload", JObj [("status", JStr "ok"); ("response", JObj [])]);
           ("ref", JStr "2")]);
   ("command",
     JObj [("topic", JStr deviceChannel); ("event", JStr "broadcast");
           ("payload",
             JObj [("type", JStr "broadcast"); ("event", JStr "SET_LED");
                   ("payload", JObj [("target_device_name", JStr "esp32-1");
                                     ("on", JBool true)])]);
           ("ref", JNull)])].

Definition session_start : World :=
  mkWorld (SupabaseRealtimeClient "project" "key") (parsing session_frames)
          0 0 0 [].

(** ** Nothing leaves a client that is not connected *)

(** A computation that, started on a client that is not connected, leaves
    it so, builds no envelope and hands nothing to the transport. *)
Definition silent_when_disconnected {A} (m : M A) : Prop :=
  forall w, _connected (client w) = false ->
    _connected (client (exec m w)) = false
    /\ envelopes (trace (exec m w)) = envelopes (trace w)
    /\ handed_over (trace (exec m w)) = handed_over (trace w).

Definition callbacks_silent (cbs : Callbacks) : Prop :=
  (forall f, _connectedCallback cbs = Some f -> silent_when_disconnected f)
  /\ (forall f, _disconnectedCallback cbs = Some f -> silent_when_disconnected f)
  /\ (forall f, _errorCallback cbs = Some f ->
        forall m, silent_when_disconnected (f m))
  /\ (forall f, _broadcastCallback cbs = Some f ->
        forall t e p, silent_when_disconnected (f t e p))
  /\ (forall f, _channelJoinedCallback cbs = Some f ->
        forall t r, silent_when_disconnected (f t r)).

(** A step other than the connection event, with application code that
    sends through the client only. *)
Definition keeps_disconnected (s : Step) : Prop :=
  match s with
  | StepEvent type _ => type <> WStype_CONNECTED
  | StepApplication code => silent_when_disconnected code
  | _ => True
  end.

(** The application's handlers send through the library only. *)
Definition handlers_silent (d : Dewab) : Prop :=
  (forall commandType handler,
      _registeredCommands d !! commandType = Some handler ->
      forall payload doc, silent_when_disconnected (handler payload doc))
  /\ (forall provider, _stateProvider d = Some provider ->
        forall doc, silent_when_disconnected (provider doc)).

(** * More of the library *)

(** ** State construction helpers *)

(** Lines 573-574 and their copies in each helper:
    [doc[category].is<JsonObject>() ? doc[category].as<JsonObject>()
                                    : doc[category].to<JsonObject>()]
    followed by [cat[name] = value].  A null document becomes an object;
    a category that is not an object yet is created, or reset to an
    empty object; a document that holds anything but an object gives a
    null category, and the assignment is lost. *)
Definition state_add (category name : string) (value : Json) (doc : Json) : Json :=
  match doc with
  | JNull => JObj [(category, JObj [(name, value)])]
  | JObj members =>
      match Json.get category members with
      | Some (JObj cat) =>
          JObj (Json.set category (JObj (Json.set name value cat)) members)
      | _ => JObj (Json.set category (JObj [(name, value)]) members)
      end
  | other => other
  end.

Definition stateAddInt (doc : Json) (category name : string) (value : Z) : Json :=
  state_add category name (JInt value) doc.

Definition stateAddBool (doc : Json) (category name : string) (value : bool) : Json :=
  state_add category name (JBool value) doc.

(** Both overloads, for a value that is not the null pointer. *)
Definition stateAddString (doc : Json) (category name value : string) : Json :=
  state_add category name (JStr value) doc.

(** [analogRead] is the board's; it is passed in. *)
Definition stateAddAnalogPin (analogRead : Z -> Z) (doc : Json)
    (category name : string) (pin : Z) : Json :=
  state_add category name (JInt (analogRead pin)) doc.

(** [bool pinState = digitalRead(pin)]: any level but 0 is true. *)
Definition stateAddDigitalPin (digitalRead : Z -> Z) (doc : Json)
    (category name : string) (pin : Z) (activeLow : bool) : Json :=
  let pinState := negb (Z.eqb (digitalRead pin) 0) in
  state_add category name (JBool (if activeLow then negb pinState else pinState)) doc.

(** [doc[category][name]] read access. *)
Definition state_get (doc : Json) (category name : string) : JsonVariantConst :=
  Json.at_key (Json.doc_get doc category) name.

(** The document [broadcastCurrentState] sends for what the provider
    left in it (lines 552-557). *)
Definition state_with_defaults (d : Dewab) (reason : string) (stateDoc : Json) : Json :=
  let stateDoc :=
    if negb (Json.is_variant (Json.doc_get stateDoc "device_name"))
    then Json.doc_set "device_name" (JStr (_deviceName d)) stateDoc
    else stateDoc in
  if negb (Json.is_variant (Json.doc_get stateDoc "reason"))
  then Json.doc_set "reason" (JStr reason) stateDoc
  else stateDoc.

(** ** What a computation leaves alone *)

(** [m] moves the member [p] of the client only along [R]. *)
Definition keeps {A X} (R : relation X) (p : Client -> X) (m : M A) : Prop :=
  forall w, R (p (client w)) (p (client (exec m w))).

Definition callbacks_keep {X} (R : relation X) (p : Client -> X)
    (cbs : Callbacks) : Prop :=
  (forall f, _connectedCallback cbs = Some f -> keeps R p f)
  /\ (forall f, _disconnectedCallback cbs = Some f -> keeps R p f)
  /\ (forall f, _errorCallback cbs = Some f -> forall m, keeps R p (f m))
  /\ (forall f, _broadcastCallback cbs = Some f -> forall t e q, keeps R p (f t e q))
  /\ (forall f, _channelJoinedCallback cbs = Some f -> forall t r, keeps R p (f t r)).

(** The state provider and the command handlers of [d] keep [p]. *)
Definition handlers_keep {X} (R : relation X) (p : Client -> X) (d : Dewab) : Prop :=
  (forall provider, _stateProvider d = Some provider ->
     forall doc, keeps R p (provider doc))
  /\ (forall commandType handler,
        _registeredCommands d !! commandType = Some handler ->
        forall payload doc, keeps R p (handler payload doc)).

(** No topic loses its join reference. *)
Definition never_unbinds (before after : gmap string string) : Prop :=
  forall topic, is_Some (before !! topic) -> is_Some (after !! topic).

(** A step that is not an inbound text frame. *)
Definition no_text_frame {X} (R : relation X) (p : Client -> X) (s : Step) : Prop :=
  match s with
  | StepEvent WStype_TEXT _ => False
  | StepApplication code => keeps R p code
  | _ => True
  end.

(** A step that is neither of the transport's connection events. *)
Definition no_connection_event {X} (R : relation X) (p : Client -> X)
    (s : Step) : Prop :=
  match s with
  | StepEvent WStype_CONNECTED _ | StepEvent WStype_DISCONNECTED _ => False
  | StepApplication code => keeps R p code
  | _ => True
  end.

(** Any step, with application code that keeps [p]. *)
Definition any_step {X} (R : relation X) (p : Client -> X) (s : Step) : Prop :=
  match s with
  | StepApplication code => keeps R p code
  | _ => True
  end.

(** The collaborators accept the next [n] serializations and sends. *)
Definition next_sends_succeed (n : nat) (w : World) : Prop :=
  forall k, (k < n)%nat ->
    serializeJson_written (ext w) (k + serializeJson_calls w) = true
    /\ sendTXT_accepted (ext w) (k + sendTXT_calls w) = true.

(** ** WifiManager *)

(** Private members of [WifiManager]. *)
Record WifiManager : Type := mkWifiManager {
  _ssid : string;
  _password : string;
  _lastReconnectAttempt : Z
}.

Definition _reconnectInterval : Z := 30000.

(** Calls of the WiFi driver and of [delay]. *)
Inductive WifiEvent : Type :=
| EvWiFiBegin (ssid password : string)
| EvDelay (ms : Z).

(** What the k-th call of [WiFi.status()] and of [millis()] answers. *)
Record WifiExtern : Type := mkWifiExtern {
  status_is_connected : nat -> bool;
  wifi_millis_reading : nat -> Z
}.

Record WifiWorld : Type := mkWifiWorld {
  wifi : WifiManager;
  wifi_ext : WifiExtern;
  status_calls : nat;
  wifi_millis_calls : nat;
  wifi_trace : list WifiEvent
}.

(** The constructor. *)
Definition WifiManager_new (ssid password : string) : WifiManager :=
  mkWifiManager ssid password 0.

(** [WiFi.status() == WL_CONNECTED] *)
Definition WiFi_status_connected (w : WifiWorld) : bool * WifiWorld :=
  (status_is_connected (wifi_ext w) (status_calls w),
   mkWifiWorld (wifi w) (wifi_ext w) (S (status_calls w)) (wifi_millis_calls w)
               (wifi_trace w)).

Definition wifi_millis (w : WifiWorld) : Z * WifiWorld :=
  (wrap32 (wifi_millis_reading (wifi_ext w) (wifi_millis_calls w)),
   mkWifiWorld (wifi w) (wifi_ext w) (status_calls w) (S (wifi_millis_calls w))
               (wifi_trace w)).

Definition wifi_emit (e : WifiEvent) (w : WifiWorld) : WifiWorld :=
  mkWifiWorld (wifi w) (wifi_ext w) (status_calls w) (wifi_millis_calls w)
              (wifi_trace w ++ [e]).

(** Lines 18-24: the wait loop of [connect].  Each round polls the
    status; [None] means the rounds allowed by [fuel] were not enough. *)
Fixpoint connect_wait (fuel : nat) (startTime : Z) (w : WifiWorld)
    : option WifiWorld :=
  match fuel with
  | O => None
  | S fuel' =>
      let polled := WiFi_status_connected w in
      if fst polled then Some (snd polled)
      else
        let read := wifi_millis (wifi_emit (EvDelay 500) (snd polled)) in
        if (10000 <? wrap32 (fst read - startTime))%Z then Some (snd read)
        else connect_wait fuel' startTime (snd read)
  end.

Definition WifiManager_connect (fuel : nat) (w : WifiWorld) : option WifiWorld :=
  let begun := wifi_emit (EvWiFiBegin (_ssid (wifi w)) (_password (wifi w))) w in
  let read := wifi_millis begun in
  connect_wait fuel (fst read) (snd read).

Definition WifiManager_isConnected (w : WifiWorld) : bool * WifiWorld :=
  WiFi_status_connected w.

Definition set_lastReconnectAttempt (t : Z) (w : WifiWorld) : WifiWorld :=
  mkWifiWorld (mkWifiManager (_ssid (wifi w)) (_password (wifi w)) t)
              (wifi_ext w) (status_calls w) (wifi_millis_calls w) (wifi_trace w).

Definition WifiManager_loop (fuel : nat) (w : WifiWorld) : option WifiWorld :=
  let polled := WifiManager_isConnected w in
  if negb (fst polled) then
    let read := wifi_millis (snd polled) in
    let currentTime := fst read in
    if (_reconnectInterval
        <? wrap32 (currentTime - _lastReconnectAttempt (wifi (snd read))))%Z
    then
      match WifiManager_connect fuel (snd read) with
      | Some connected => Some (set_lastReconnectAttempt currentTime connected)
      | None => None
      end
    else Some (snd read)
  else Some (snd polled).

(** The number of [delay] calls on a trace. *)
Fixpoint delays (tr : list WifiEvent) : nat :=
  match tr with
  | [] => 0
  | EvDelay _ :: rest => S (delays rest)
  | _ :: rest => delays rest
  end.

(** The number of [WiFi.begin] calls on a trace. *)
Fixpoint begins (tr : list WifiEvent) : nat :=
  match tr with
  | [] => 0
  | EvWiFiBegin _ _ :: rest => S (begins rest)
  | _ :: rest => begins rest
  end.


(** A clock on which every [delay(500)] round of the wait loop, from one
    reading to the next, lasts at least its 500 ms and at most a
    minute. *)
Definition clock_advances (e : WifiExtern) : Prop :=
  forall k, (500 <= wifi_millis_reading e (S k) - wifi_millis_reading e k <= 60000)%Z.

(** The same from the reading of index [first] on; earlier readings
    may follow one another at once. *)
Definition clock_advances_from (first : nat) (e : WifiExtern) : Prop :=
  forall k, (first <= k)%nat ->
    (500 <= wifi_millis_reading e (S k) - wifi_millis_reading e k <= 60000)%Z.

(** Whether [loop] attempts to reconnect: the board is not attached and
    more than [_reconnectInterval] has passed since the last attempt. *)
Definition reconnect_due (w : WifiWorld) : bool :=
  negb (status_is_connected (wifi_ext w) (status_calls w))
  && (_reconnectInterval
      <? wrap32 (wrap32 (wifi_millis_reading (wifi_ext w) (wifi_millis_calls w))
                 - _lastReconnectAttempt (wifi w)))%Z.
(** * Properties *)

(** ** Running computations *)

Lemma bind_run {A B} (m : M A) (f : A -> M B) (w : World) :
  bind m f w = f (fst (m w)) (snd (m w)).
Proof. reflexivity. Qed.

Lemma exec_bind {A B} (m : M A) (f : A -> M B) (w : World) :
  exec (bind m f) w = exec (f (result m w)) (exec m w).
Proof. reflexivity. Qed.

(** ** Observations distribute over the trace *)

Lemma envelopes_app tr1 tr2 : envelopes (tr1 ++ tr2) = envelopes tr1 ++ envelopes tr2.
Proof.
  induction tr1 as [| e tr1 IH]; [reflexivity |].
  destruct e; simpl; rewrite IH; reflexivity.
Qed.

Lemma transmitted_app tr1 tr2 :
  transmitted (tr1 ++ tr2) = transmitted tr1 ++ transmitted tr2.
Proof.
  induction tr1 as [| e tr1 IH]; [reflexivity |].
  destruct e as [| | doc [] | | |]; simpl; rewrite IH; reflexivity.
Qed.

Lemma handed_over_app tr1 tr2 :
  handed_over (tr1 ++ tr2) = handed_over tr1 ++ handed_over tr2.
Proof.
  induction tr1 as [| e tr1 IH]; [reflexivity |].
  destruct e; simpl; rewrite IH; reflexivity.
Qed.

Lemma joined_calls_app tr1 tr2 :
  joined_calls (tr1 ++ tr2) = joined_calls tr1 ++ joined_calls tr2.
Proof.
  induction tr1 as [| e tr1 IH]; [reflexivity |].
  destruct e as [| | | [] | |]; simpl; rewrite IH; reflexivity.
Qed.

Lemma drawn_refs_app tr1 tr2 : drawn_refs (tr1 ++ tr2) = drawn_refs tr1 ++ drawn_refs tr2.
Proof. unfold drawn_refs. rewrite envelopes_app. apply map_app. Qed.

Lemma transmitted_refs_app tr1 tr2 :
  transmitted_refs (tr1 ++ tr2) = transmitted_refs tr1 ++ transmitted_refs tr2.
Proof. unfold transmitted_refs. rewrite transmitted_app. apply map_app. Qed.

Lemma events_since_app w w' delta :
  trace w' = trace w ++ delta -> events_since w w' = delta.
Proof. unfold events_since. intros ->. apply drop_app_length. Qed.

(** ** Arithmetic of the reference counter *)

Lemma wrap32_range z : (0 <= wrap32 z < UINT_MODULUS)%Z.
Proof. unfold wrap32, UINT_MODULUS. apply Z.mod_pos_bound. lia. Qed.

Lemma wrap32_small z : (0 <= z < UINT_MODULUS)%Z -> wrap32 z = z.
Proof. unfold wrap32, UINT_MODULUS. intros. apply Z.mod_small. assumption. Qed.

Lemma wrap32_add_l a b : wrap32 (wrap32 a + b) = wrap32 (a + b).
Proof. unfold wrap32, UINT_MODULUS. apply Zplus_mod_idemp_l. Qed.

Lemma map_seq_from {A} (f : nat -> A) a n :
  map f (seq a n) = map (fun k => f (a + k)%nat) (seq 0 n).
Proof.
  revert a f. induction n as [| n IH]; intros a f; [reflexivity |].
  simpl. f_equal; [f_equal; lia |].
  rewrite (IH (S a)), (IH 1%nat). apply map_ext. intros k. f_equal. lia.
Qed.

Lemma counting_app c n1 n2 :
  counting c (n1 + n2) = counting c n1 ++ counting (wrap32 (c + Z.of_nat n1)) n2.
Proof.
  unfold counting. rewrite seq_app, map_app. f_equal.
  rewrite map_seq_from. apply map_ext. intros k.
  rewrite wrap32_add_l. do 3 f_equal. lia.
Qed.

Lemma counting_lookup c n k :
  (k < n)%nat ->
  counting c n !! k = Some (Some (String_of_uint (wrap32 (c + Z.of_nat k)))).
Proof.
  intros Hk. unfold counting.
  change (map ?f ?l) with (f <$> l).
  rewrite list_lookup_fmap, lookup_seq_lt by assumption. reflexivity.
Qed.

(** ** The discipline is kept by composition *)

Lemma advances_refl w : in_range w -> advances w w.
Proof.
  intros Hw. exists 0%nat, []. rewrite app_nil_r. repeat split.
  - simpl. rewrite Z.add_0_r. symmetry. apply wrap32_small, Hw.
  - reflexivity.
Qed.

Lemma advances_by_trans n1 n2 w1 w2 w3 :
  advances_by n1 w1 w2 -> advances_by n2 w2 w3 -> advances_by (n1 + n2) w1 w3.
Proof.
  intros (d1 & Ht1 & Hd1 & Hc1 & Hs1) (d2 & Ht2 & Hd2 & Hc2 & Hs2).
  exists (d1 ++ d2). repeat split.
  - rewrite Ht2, Ht1, app_assoc. reflexivity.
  - rewrite drawn_refs_app, counting_app, Hd1, Hd2, Hc1. reflexivity.
  - rewrite Hc2, Hc1, wrap32_add_l. f_equal. lia.
  - rewrite drawn_refs_app, transmitted_refs_app. apply sublist_app; assumption.
Qed.

Lemma advances_trans w1 w2 w3 : advances w1 w2 -> advances w2 w3 -> advances w1 w3.
Proof.
  intros [n1 H1] [n2 H2]. exists (n1 + n2)%nat.
  eapply advances_by_trans; eassumption.
Qed.

Lemma advances_in_range w w' : advances w w' -> in_range w'.
Proof.
  intros (n & d & _ & _ & Hc & _). unfold in_range. rewrite Hc.
  apply wrap32_range.
Qed.

Lemma disciplined_ret {A} (a : A) : disciplined (ret a).
Proof. intros w Hw. apply advances_refl, Hw. Qed.

Lemma disciplined_bind {A B} (m : M A) (f : A -> M B) :
  disciplined m -> (forall a, disciplined (f a)) -> disciplined (bind m f).
Proof.
  intros Hm Hf w Hw. rewrite exec_bind.
  eapply advances_trans; [apply Hm, Hw |].
  apply Hf. eapply advances_in_range, Hm, Hw.
Qed.

Lemma disciplined_gets {A} (f : World -> A) : disciplined (gets f).
Proof. intros w Hw. apply advances_refl, Hw. Qed.

Lemma disciplined_emit e : quiet e -> disciplined (emit e).
Proof.
  intros He w Hw. exists 0%nat, [e]. repeat split.
  - destruct e; simpl in He; try contradiction; reflexivity.
  - simpl. rewrite Z.add_0_r. symmetry. apply wrap32_small, Hw.
  - destruct e; simpl in He; try contradiction; reflexivity.
Qed.

Lemma disciplined_millis : disciplined millis.
Proof.
  intros w Hw. exists 0%nat, []. repeat split.
  - simpl. rewrite app_nil_r. reflexivity.
  - simpl. rewrite Z.add_0_r. symmetry. apply wrap32_small, Hw.
  - reflexivity.
Qed.

Lemma disciplined_modify_client f :
  (forall c, _messageRefCounter (f c) = _messageRefCounter c) ->
  disciplined (modify_client f).
Proof.
  intros Hf w Hw. exists 0%nat, []. repeat split.
  - simpl. rewrite app_nil_r. reflexivity.
  - unfold counter. simpl. rewrite Hf, Z.add_0_r. symmetry. apply wrap32_small, Hw.
  - reflexivity.
Qed.

Lemma report_error_disciplined onError message :
  error_slot_disciplined onError -> disciplined (report_error onError message).
Proof.
  intros H. unfold report_error. destruct onError as [f |].
  - apply disciplined_bind; [apply disciplined_emit; exact I |].
    intros _. apply H. reflexivity.
  - apply disciplined_ret.
Qed.

(** ** Send operations, outcome by outcome *)

Ltac run_monad :=
  cbv beta iota delta [bind ret gets modify_client emit millis serializeJson
                       sendTXT isConnected getNextMessageRef exec result];
  cbn [fst snd negb].

Ltac project :=
  cbn [fst snd negb client ext millis_calls serializeJson_calls sendTXT_calls
       trace _apiKey _wsHost _wsPath _connected _lastHeartbeatSent
       _messageRefCounter _topicJoinRefs set_messageRefCounter set_connected
       set_lastHeartbeatSent set_topicJoinRef].

Lemma sendHeartbeat_not_connected onError w :
  _connected (client w) = false -> sendHeartbeat onError w = (tt, w).
Proof.
  intros Hc. unfold sendHeartbeat. run_monad. rewrite Hc. reflexivity.
Qed.

Lemma sendHeartbeat_serialize_fails onError w :
  _connected (client w) = true -> serialize_next w = false ->
  sendHeartbeat onError w =
    report_error onError "Failed to serialize heartbeat JSON."
      (after_draw w [EvSerialize (heartbeat_doc (String_of_uint (counter w))) false] 1 0).
Proof.
  intros Hc Hs. unfold sendHeartbeat, serialize_next in *. run_monad.
  rewrite Hc. project. rewrite Hs. cbn [negb].
  reflexivity.
Qed.

Lemma sendHeartbeat_send_fails onError w :
  _connected (client w) = true -> serialize_next w = true -> accept_next w = false ->
  let doc := heartbeat_doc (String_of_uint (counter w)) in
  sendHeartbeat onError w =
    report_error onError "WebSocket sendTXT failed for heartbeat."
      (after_draw w [EvSerialize doc true; EvSendTXT doc false] 1 1).
Proof.
  intros Hc Hs Ha. unfold sendHeartbeat, serialize_next, accept_next in *. run_monad.
  rewrite Hc. project. rewrite Hs.
  project. rewrite Ha. unfold after_draw. rewrite <- app_assoc. reflexivity.
Qed.

Lemma sendHeartbeat_sent onError w :
  _connected (client w) = true -> serialize_next w = true -> accept_next w = true ->
  let doc := heartbeat_doc (String_of_uint (counter w)) in
  sendHeartbeat onError w =
    (now <- millis ;; modify_client (set_lastHeartbeatSent now))
      (after_draw w [EvSerialize doc true; EvSendTXT doc true] 1 1).
Proof.
  intros Hc Hs Ha. unfold sendHeartbeat, serialize_next, accept_next in *. run_monad.
  rewrite Hc. project. rewrite Hs.
  project. rewrite Ha. unfold after_draw. rewrite <- app_assoc. reflexivity.
Qed.

Lemma _joinChannel_not_connected onError topic w :
  _connected (client w) = false -> _joinChannel onError topic w = (tt, w).
Proof.
  intros Hc. unfold _joinChannel. run_monad. rewrite Hc. reflexivity.
Qed.

Lemma _joinChannel_serialize_fails onError topic w :
  _connected (client w) = true -> serialize_next w = false ->
  let doc := join_doc topic (String_of_uint (counter w)) (_apiKey (client w)) in
  _joinChannel onError topic w =
    report_error onError ("Failed to serialize join JSON for topic: " +:+ topic)
      (after_draw w [EvSerialize doc false] 1 0).
Proof.
  intros Hc Hs. unfold _joinChannel, serialize_next in *. run_monad.
  rewrite Hc. project.
  rewrite Hs. reflexivity.
Qed.

Lemma _joinChannel_send_fails onError topic w :
  _connected (client w) = true -> serialize_next w = true -> accept_next w = false ->
  let doc := join_doc topic (String_of_uint (counter w)) (_apiKey (client w)) in
  _joinChannel onError topic w =
    report_error onError ("WebSocket sendTXT failed for join: " +:+ topic)
      (after_draw w [EvSerialize doc true; EvSendTXT doc false] 1 1).
Proof.
  intros Hc Hs Ha. unfold _joinChannel, serialize_next, accept_next in *. run_monad.
  rewrite Hc.
  project.
  rewrite Hs. project. rewrite Ha. unfold after_draw. rewrite <- app_assoc.
  reflexivity.
Qed.

Lemma _joinChannel_sent onError topic w :
  _connected (client w) = true -> serialize_next w = true -> accept_next w = true ->
  let doc := join_doc topic (String_of_uint (counter w)) (_apiKey (client w)) in
  _joinChannel onError topic w =
    (tt, after_draw w [EvSerialize doc true; EvSendTXT doc true] 1 1).
Proof.
  intros Hc Hs Ha. unfold _joinChannel, serialize_next, accept_next in *. run_monad.
  rewrite Hc.
  project.
  rewrite Hs. project. rewrite Ha. unfold after_draw. rewrite <- app_assoc.
  reflexivity.
Qed.

Lemma joinChannel_connected onError topic w :
  _connected (client w) = true ->
  joinChannel onError topic w = _joinChannel onError topic w.
Proof.
  intros Hc. unfold joinChannel. rewrite bind_run. unfold isConnected.
  cbn [gets fst snd]. rewrite Hc. reflexivity.
Qed.

Lemma joinChannel_not_connected onError topic w :
  _connected (client w) = false ->
  joinChannel onError topic w =
    report_error onError "Cannot join channel: Not connected." w.
Proof.
  intros Hc. unfold joinChannel. rewrite bind_run. unfold isConnected.
  cbn [gets fst snd]. rewrite Hc. reflexivity.
Qed.

Lemma broadcast_serialize_fails onError topic event payload joinRef w :
  _connected (client w) = true ->
  _topicJoinRefs (client w) !! topic = Some joinRef ->
  serialize_next w = false ->
  let doc := broadcast_doc topic event payload (String_of_uint (counter w)) joinRef in
  broadcast onError topic event payload w =
    (report_error onError ("Failed to serialize broadcast JSON for event: " +:+ event);;
     ret false)
      (after_draw w [EvSerialize doc false] 1 0).
Proof.
  intros Hc Hj Hs. unfold broadcast, serialize_next in *. run_monad.
  rewrite Hc. project. rewrite Hj.
  project.
  rewrite Hs. reflexivity.
Qed.

Lemma broadcast_send_fails onError topic event payload joinRef w :
  _connected (client w) = true ->
  _topicJoinRefs (client w) !! topic = Some joinRef ->
  serialize_next w = true -> accept_next w = false ->
  let doc := broadcast_doc topic event payload (String_of_uint (counter w)) joinRef in
  broadcast onError topic event payload w =
    (report_error onError ("WebSocket sendTXT failed for broadcast: " +:+ event);;
     ret false)
      (after_draw w [EvSerialize doc true; EvSendTXT doc false] 1 1).
Proof.
  intros Hc Hj Hs Ha. unfold broadcast, serialize_next, accept_next in *. run_monad.
  rewrite Hc. project. rewrite Hj.
  project.
  rewrite Hs. project. rewrite Ha. unfold after_draw. rewrite <- app_assoc.
  reflexivity.
Qed.

Lemma broadcast_sent onError topic event payload joinRef w :
  _connected (client w) = true ->
  _topicJoinRefs (client w) !! topic = Some joinRef ->
  serialize_next w = true -> accept_next w = true ->
  let doc := broadcast_doc topic event payload (String_of_uint (counter w)) joinRef in
  broadcast onError topic event payload w =
    (true, after_draw w [EvSerialize doc true; EvSendTXT doc true] 1 1).
Proof.
  intros Hc Hj Hs Ha. unfold broadcast, serialize_next, accept_next in *. run_monad.
  rewrite Hc. project. rewrite Hj.
  project.
  rewrite Hs. project. rewrite Ha. unfold after_draw. rewrite <- app_assoc.
  reflexivity.
Qed.

Lemma broadcast_not_connected onError topic event payload w :
  _connected (client w) = false ->
  broadcast onError topic event payload w =
    (report_error onError "Cannot broadcast: Not connected.";; ret false) w.
Proof.
  intros Hc. unfold broadcast. rewrite bind_run. unfold isConnected.
  cbn [gets fst snd]. rewrite Hc. reflexivity.
Qed.

Lemma broadcast_not_joined onError topic event payload w :
  _connected (client w) = true ->
  _topicJoinRefs (client w) !! topic = None ->
  broadcast onError topic event payload w =
    (report_error onError ("Cannot broadcast: Not joined to topic " +:+ topic);;
     ret false) w.
Proof.
  intros Hc Hj. unfold broadcast. rewrite bind_run. unfold isConnected.
  cbn [gets fst snd]. rewrite Hc. cbn [negb]. rewrite bind_run.
  cbn [gets fst snd]. rewrite Hj. reflexivity.
Qed.

(** ** Send operations keep the discipline *)

Lemma after_draw_advances_by w events ser tx :
  in_range w ->
  drawn_refs events = [Some (String_of_uint (counter w))] ->
  transmitted_refs events `sublist_of` drawn_refs events ->
  advances_by 1 w (after_draw w events ser tx).
Proof.
  intros Hw Hd Hs. exists events. repeat split.
  - rewrite Hd. unfold counting. simpl. rewrite Z.add_0_r, wrap32_small by exact Hw.
    reflexivity.
  - assumption.
Qed.

Lemma attempt_advances_by w doc written ser tx :
  in_range w -> ref_of doc = Some (String_of_uint (counter w)) ->
  advances_by 1 w (after_draw w [EvSerialize doc written] ser tx).
Proof.
  intros Hw Hr. apply after_draw_advances_by; [assumption | |].
  - unfold drawn_refs. simpl. rewrite Hr. reflexivity.
  - apply sublist_nil_l.
Qed.

Lemma handover_advances_by w doc accepted ser tx :
  in_range w -> ref_of doc = Some (String_of_uint (counter w)) ->
  advances_by 1 w (after_draw w [EvSerialize doc true; EvSendTXT doc accepted] ser tx).
Proof.
  intros Hw Hr. apply after_draw_advances_by; [assumption | |].
  - unfold drawn_refs. simpl. rewrite Hr. reflexivity.
  - destruct accepted; unfold transmitted_refs, drawn_refs; simpl.
    + reflexivity.
    + apply sublist_nil_l.
Qed.

Lemma attempt_advances w doc written ser tx :
  in_range w -> ref_of doc = Some (String_of_uint (counter w)) ->
  advances w (after_draw w [EvSerialize doc written] ser tx).
Proof. intros. exists 1%nat. apply attempt_advances_by; assumption. Qed.

Lemma handover_advances w doc accepted ser tx :
  in_range w -> ref_of doc = Some (String_of_uint (counter w)) ->
  advances w (after_draw w [EvSerialize doc true; EvSendTXT doc accepted] ser tx).
Proof. intros. exists 1%nat. apply handover_advances_by; assumption. Qed.

Lemma exec_eq {A} (m : M A) w p : m w = p -> exec m w = snd p.
Proof. intros <-. reflexivity. Qed.

Lemma advances_then {A} (m : M A) w w1 :
  advances w w1 -> disciplined m -> advances w (snd (m w1)).
Proof.
  intros H1 Hm. eapply advances_trans; [exact H1 |].
  apply Hm. eapply advances_in_range, H1.
Qed.

Lemma sendHeartbeat_disciplined onError :
  error_slot_disciplined onError -> disciplined (sendHeartbeat onError).
Proof.
  intros H w Hw.
  destruct (_connected (client w)) eqn:Hc.
  2: { rewrite (exec_eq _ _ _ (sendHeartbeat_not_connected onError w Hc)).
       apply advances_refl, Hw. }
  destruct (serialize_next w) eqn:Hs.
  2: { rewrite (exec_eq _ _ _ (sendHeartbeat_serialize_fails onError w Hc Hs)).
       apply advances_then; [apply attempt_advances; [exact Hw | reflexivity] |].
       apply report_error_disciplined, H. }
  destruct (accept_next w) eqn:Ha.
  - rewrite (exec_eq _ _ _ (sendHeartbeat_sent onError w Hc Hs Ha)).
    apply advances_then; [apply handover_advances; [exact Hw | reflexivity] |].
    apply disciplined_bind; [apply disciplined_millis |].
    intros now. apply disciplined_modify_client. reflexivity.
  - rewrite (exec_eq _ _ _ (sendHeartbeat_send_fails onError w Hc Hs Ha)).
    apply advances_then; [apply handover_advances; [exact Hw | reflexivity] |].
    apply report_error_disciplined, H.
Qed.

Lemma _joinChannel_disciplined onError topic :
  error_slot_disciplined onError -> disciplined (_joinChannel onError topic).
Proof.
  intros H w Hw.
  destruct (_connected (client w)) eqn:Hc.
  2: { rewrite (exec_eq _ _ _ (_joinChannel_not_connected onError topic w Hc)).
       apply advances_refl, Hw. }
  destruct (serialize_next w) eqn:Hs.
  2: { rewrite (exec_eq _ _ _ (_joinChannel_serialize_fails onError topic w Hc Hs)).
       apply advances_then; [apply attempt_advances; [exact Hw | reflexivity] |].
       apply report_error_disciplined, H. }
  destruct (accept_next w) eqn:Ha.
  - rewrite (exec_eq _ _ _ (_joinChannel_sent onError topic w Hc Hs Ha)).
    apply handover_advances; [exact Hw | reflexivity].
  - rewrite (exec_eq _ _ _ (_joinChannel_send_fails onError topic w Hc Hs Ha)).
    apply advances_then; [apply handover_advances; [exact Hw | reflexivity] |].
    apply report_error_disciplined, H.
Qed.

Lemma joinChannel_disciplined onError topic :
  error_slot_disciplined onError -> disciplined (joinChannel onError topic).
Proof.
  intros H w Hw.
  destruct (_connected (client w)) eqn:Hc.
  - unfold exec. rewrite joinChannel_connected by exact Hc.
    apply _joinChannel_disciplined; assumption.
  - unfold exec. rewrite joinChannel_not_connected by exact Hc.
    apply report_error_disciplined; assumption.
Qed.

Lemma broadcast_disciplined onError topic event payload :
  error_slot_disciplined onError ->
  disciplined (broadcast onError topic event payload).
Proof.
  intros H w Hw.
  assert (Hfail : forall message,
             disciplined (report_error onError message;; ret false)).
  { intros message. apply disciplined_bind;
      [apply report_error_disciplined, H | intros; apply disciplined_ret]. }
  destruct (_connected (client w)) eqn:Hc.
  2: { unfold exec. rewrite broadcast_not_connected by exact Hc. apply Hfail, Hw. }
  destruct (_topicJoinRefs (client w) !! topic) as [joinRef |] eqn:Hj.
  2: { unfold exec. rewrite broadcast_not_joined by assumption. apply Hfail, Hw. }
  destruct (serialize_next w) eqn:Hs.
  2: { unfold exec.
       rewrite (broadcast_serialize_fails onError topic event payload joinRef w Hc Hj Hs).
       apply advances_then; [apply attempt_advances; [exact Hw | reflexivity] |].
       apply Hfail. }
  destruct (accept_next w) eqn:Ha.
  - unfold exec.
    rewrite (broadcast_sent onError topic event payload joinRef w Hc Hj Hs Ha).
    apply handover_advances; [exact Hw | reflexivity].
  - unfold exec.
    rewrite (broadcast_send_fails onError topic event payload joinRef w Hc Hj Hs Ha).
    apply advances_then; [apply handover_advances; [exact Hw | reflexivity] |].
    apply Hfail.
Qed.

Lemma advances_by_then {A} (m : M A) n w w1 :
  advances_by n w w1 -> disciplined m ->
  exists n', advances_by (n + n') w (snd (m w1)).
Proof.
  intros H1 Hm.
  destruct (Hm w1) as [n' H2]; [eapply advances_in_range; exists n; exact H1 |].
  exists n'. eapply advances_by_trans; eassumption.
Qed.

(** A heartbeat on an open connection always draws a reference. *)
Lemma sendHeartbeat_draws onError w :
  error_slot_disciplined onError -> in_range w ->
  _connected (client w) = true ->
  exists n, advances_by (S n) w (exec (sendHeartbeat onError) w).
Proof.
  intros H Hw Hc. unfold exec.
  destruct (serialize_next w) eqn:Hs.
  2: { rewrite (sendHeartbeat_serialize_fails onError w Hc Hs).
       apply (advances_by_then _ 1);
         [apply attempt_advances_by; [exact Hw | reflexivity] |].
       apply report_error_disciplined, H. }
  destruct (accept_next w) eqn:Ha.
  - rewrite (sendHeartbeat_sent onError w Hc Hs Ha).
    apply (advances_by_then _ 1);
      [apply handover_advances_by; [exact Hw | reflexivity] |].
    apply disciplined_bind; [apply disciplined_millis |].
    intros now. apply disciplined_modify_client. reflexivity.
  - rewrite (sendHeartbeat_send_fails onError w Hc Hs Ha).
    apply (advances_by_then _ 1);
      [apply handover_advances_by; [exact Hw | reflexivity] |].
    apply report_error_disciplined, H.
Qed.

(** ** Event handling keeps the discipline *)

Create HintDb discipline.

#[local] Hint Resolve disciplined_ret disciplined_gets disciplined_millis
  report_error_disciplined sendHeartbeat_disciplined _joinChannel_disciplined
  joinChannel_disciplined broadcast_disciplined : discipline.

Ltac discipline_step :=
  first
    [ solve [eauto with discipline]
    | apply disciplined_emit; exact I
    | apply disciplined_modify_client; reflexivity
    | match goal with
      | |- disciplined (bind _ _) => apply disciplined_bind; [| intros ?]
      | |- disciplined (if ?b then _ else _) => destruct b
      | |- disciplined (match ?x with _ => _ end) => destruct x eqn:?
      end ].

Ltac discipline := repeat discipline_step.

Section DisciplinedCallbacks.

Context (cbs : Callbacks) (Hcbs : callbacks_disciplined cbs).

Lemma error_slot_of_callbacks : error_slot_disciplined (_errorCallback cbs).
Proof using Hcbs. intros f Hf m. destruct Hcbs as (_ & _ & He & _). eapply He, Hf. Qed.

Hint Resolve error_slot_of_callbacks : discipline.

Lemma notify_connected_disciplined : disciplined (notify_connected cbs).
Proof using Hcbs.
  unfold notify_connected. destruct Hcbs as (H & _).
  destruct (_connectedCallback cbs) as [f |]; discipline.
Qed.

Lemma notify_disconnected_disciplined : disciplined (notify_disconnected cbs).
Proof using Hcbs.
  unfold notify_disconnected. destruct Hcbs as (_ & H & _).
  destruct (_disconnectedCallback cbs) as [f |]; discipline.
Qed.

Lemma notify_channelJoined_disciplined topic joinRef :
  disciplined (notify_channelJoined cbs topic joinRef).
Proof using Hcbs.
  unfold notify_channelJoined. destruct Hcbs as (_ & _ & _ & _ & H).
  destruct (_channelJoinedCallback cbs) as [f |]; discipline.
Qed.

Lemma bind_topic_disciplined topic msgRef : disciplined (bind_topic topic msgRef).
Proof. unfold bind_topic. discipline. Qed.

Hint Resolve notify_connected_disciplined notify_disconnected_disciplined
  notify_channelJoined_disciplined bind_topic_disciplined : discipline.

Lemma status_branch_disciplined topic event jsonPayload msgRef :
  disciplined (status_branch cbs topic event jsonPayload msgRef).
Proof using Hcbs. unfold status_branch. discipline. Qed.

Lemma broadcast_branch_disciplined callback topic event jsonPayload :
  (forall t e p, disciplined (callback t e p)) ->
  disciplined (broadcast_branch callback topic event jsonPayload).
Proof. intros H. unfold broadcast_branch, as_String. discipline. Qed.

Lemma dispatch_branch_disciplined topic event jsonPayload msgRef :
  disciplined (dispatch_branch cbs topic event jsonPayload msgRef).
Proof using Hcbs.
  unfold dispatch_branch, join_failure_reason, as_String.
  destruct Hcbs as (_ & _ & _ & Hb & _).
  discipline. apply broadcast_branch_disciplined. eauto.
Qed.

Hint Resolve status_branch_disciplined dispatch_branch_disciplined : discipline.

Lemma on_text_disciplined payloadArg : disciplined (on_text cbs payloadArg).
Proof using Hcbs. unfold on_text. discipline. Qed.

Lemma webSocketEvent_disciplined type payloadArg :
  type <> WStype_CONNECTED -> disciplined (webSocketEvent cbs type payloadArg).
Proof using Hcbs.
  intros Ht. destruct type; try contradiction; cbn [webSocketEvent]; discipline.
  apply on_text_disciplined.
Qed.

Lemma heartbeat_check_disciplined : disciplined (heartbeat_check cbs).
Proof using Hcbs. unfold heartbeat_check, isConnected. discipline. Qed.

Lemma connect_disciplined : disciplined (connect (_errorCallback cbs)).
Proof using Hcbs. unfold connect, isConnected. discipline. Qed.

Lemma perform_disciplined s : within_epoch s -> disciplined (perform cbs s).
Proof using Hcbs.
  destruct s; cbn [within_epoch perform]; intros Hs.
  - apply webSocketEvent_disciplined, Hs.
  - apply heartbeat_check_disciplined.
  - apply connect_disciplined.
  - discipline.
  - discipline.
  - exact Hs.
Qed.

Lemma perform_all_disciplined steps :
  Forall within_epoch steps -> disciplined (perform_all cbs steps).
Proof using Hcbs.
  induction 1 as [| s steps Hs _ IH]; cbn [perform_all].
  - apply disciplined_ret.
  - apply disciplined_bind; [apply perform_disciplined, Hs | intros _; exact IH].
Qed.

(** The connection event starts the count at 1 and sends a heartbeat. *)
Lemma connected_event_opens_epoch payloadArg w :
  exists n delta,
    let w1 := exec (webSocketEvent cbs WStype_CONNECTED payloadArg) w in
    trace w1 = trace w ++ delta
    /\ drawn_refs delta = counting 1 (S n)
    /\ counter w1 = wrap32 (1 + Z.of_nat (S n))
    /\ transmitted_refs delta `sublist_of` drawn_refs delta.
Proof using Hcbs.
  set (w0 := exec (modify_client (set_connected true);;
                   now <- millis ;;
                   modify_client (set_lastHeartbeatSent now);;
                   modify_client (set_messageRefCounter 1)) w).
  assert (Hw0 : in_range w0) by (unfold in_range, UINT_MODULUS; cbn; lia).
  destruct (sendHeartbeat_draws (_errorCallback cbs) w0) as [n1 H1];
    [apply error_slot_of_callbacks | exact Hw0 | reflexivity |].
  destruct (advances_by_then (notify_connected cbs) _ _ _ H1) as [n2 H2];
    [apply notify_connected_disciplined |].
  destruct H2 as (delta & Ht & Hd & Hc & Hs).
  exists (n1 + n2)%nat, delta. cbv zeta. repeat split; assumption.
Qed.

End DisciplinedCallbacks.

(** ** Dewab's handlers keep the discipline *)

Lemma dewab_onError_disciplined : error_slot_disciplined dewab_onError.
Proof.
  intros f Hf m. injection Hf as <-. apply disciplined_ret.
Qed.

#[local] Hint Resolve dewab_onError_disciplined : discipline.

Lemma broadcastCurrentState_disciplined d reason :
  well_behaved d -> disciplined (broadcastCurrentState d reason).
Proof.
  intros [_ Hp]. unfold broadcastCurrentState, isConnected.
  destruct (_stateProvider d) as [provider |] eqn:Hsp; discipline.
Qed.

Lemma handleSupabaseChannelJoined_disciplined d topic joinRef :
  well_behaved d -> disciplined (handleSupabaseChannelJoined d topic joinRef).
Proof.
  intros Hd. unfold handleSupabaseChannelJoined. discipline.
  apply broadcastCurrentState_disciplined, Hd.
Qed.

Lemma send_reply_disciplined topic reply : disciplined (send_reply topic reply).
Proof. unfold send_reply. discipline. Qed.

Lemma execute_command_disciplined d topic commandType commandPayload :
  well_behaved d -> disciplined (execute_command d topic commandType commandPayload).
Proof.
  intros [Hh _]. unfold execute_command.
  pose proof send_reply_disciplined. discipline.
Qed.

Lemma handleBroadcastCommand_disciplined d topic event payload :
  well_behaved d -> disciplined (handleBroadcastCommand d topic event payload).
Proof.
  intros Hd. unfold handleBroadcastCommand, actualCommandType, as_String.
  discipline; apply execute_command_disciplined, Hd.
Qed.

Lemma dewab_callbacks_disciplined d :
  well_behaved d -> callbacks_disciplined (dewab_callbacks d).
Proof.
  intros Hd. repeat split; cbn; intros f Hf; injection Hf as <-; intros.
  - unfold handleSupabaseConnected. discipline.
  - apply disciplined_ret.
  - apply disciplined_ret.
  - apply handleBroadcastCommand_disciplined, Hd.
  - apply handleSupabaseChannelJoined_disciplined, Hd.
Qed.

Lemma esp32_1_well_behaved : well_behaved esp32_1.
Proof.
  split.
  - intros commandType handler H payload doc.
    unfold esp32_1, registerCommand in H. cbn in H.
    apply lookup_insert_Some in H.
    destruct H as [[_ <-] | [_ H]]; [apply disciplined_ret |].
    rewrite lookup_empty in H. discriminate.
  - intros provider H. discriminate.
Qed.

(** ** References within one connection epoch *)

Lemma epoch_advances cbs steps payloadArg w :
  callbacks_disciplined cbs -> Forall within_epoch steps ->
  let w1 := exec (webSocketEvent cbs WStype_CONNECTED payloadArg) w in
  let w2 := exec (perform_all cbs steps) w1 in
  exists n,
    drawn_refs (events_since w w2) = counting 1 (S n)
    /\ transmitted_refs (events_since w w2) `sublist_of` drawn_refs (events_since w w2).
Proof.
  intros Hcbs Hsteps w1 w2.
  destruct (connected_event_opens_epoch cbs Hcbs payloadArg w)
    as (n1 & d1 & Ht1 & Hd1 & Hc1 & Hs1).
  fold w1 in Ht1, Hc1.
  assert (Hw1 : in_range w1) by (unfold in_range; rewrite Hc1; apply wrap32_range).
  destruct (perform_all_disciplined cbs Hcbs steps Hsteps w1 Hw1)
    as (n2 & d2 & Ht2 & Hd2 & Hc2 & Hs2).
  fold w2 in Ht2.
  assert (Ht : trace w2 = trace w ++ (d1 ++ d2))
    by (rewrite Ht2, Ht1, app_assoc; reflexivity).
  rewrite (events_since_app _ _ _ Ht).
  exists (n1 + n2)%nat. split.
  - rewrite drawn_refs_app, Hd1, Hd2, Hc1.
    change (S (n1 + n2)) with (S n1 + n2)%nat. rewrite counting_app. reflexivity.
  - rewrite drawn_refs_app, transmitted_refs_app. apply sublist_app; assumption.
Qed.

(** Claim C1, as the code has it.  Within a connection epoch (the
    [WStype_CONNECTED] event resets the counter to 1 and sends a heartbeat,
    then any events, keep-alive checks and calls follow), the k-th send
    operation, whatever its message type (heartbeat, join, broadcast,
    reply) and whether or not its envelope reaches the transport, builds
    its envelope with reference [(1 + k) mod 2^32].  So the first carries
    "1" and each later one carries one more than the one before, as long
    as the [unsigned int] counter has not wrapped. *)
Theorem epoch_refs_count_from_one cbs steps payloadArg w :
  callbacks_disciplined cbs -> Forall within_epoch steps ->
  let w1 := exec (webSocketEvent cbs WStype_CONNECTED payloadArg) w in
  let w2 := exec (perform_all cbs steps) w1 in
  let refs := drawn_refs (events_since w w2) in
  exists n,
    length refs = S n
    /\ refs !! 0%nat = Some (Some "1")
    /\ (forall k, (k < S n)%nat ->
          refs !! k = Some (Some (String_of_uint (wrap32 (1 + Z.of_nat k)))))
    /\ (forall k, (k < S n)%nat -> (1 + Z.of_nat k < UINT_MODULUS)%Z ->
          refs !! k = Some (Some (String_of_uint (1 + Z.of_nat k)))).
Proof.
  intros Hcbs Hsteps w1 w2 refs.
  destruct (epoch_advances cbs steps payloadArg w Hcbs Hsteps) as (n & Hd & _).
  fold w1 w2 refs in Hd. exists n. rewrite Hd. repeat split.
  - unfold counting. rewrite length_map, length_seq. reflexivity.
  - intros k Hk. apply counting_lookup, Hk.
  - intros k Hk Hlt. rewrite counting_lookup by exact Hk.
    rewrite wrap32_small by lia. reflexivity.
Qed.

Lemma epoch_refs_count_from_one_witness :
  let cbs := dewab_callbacks esp32_1 in
  let steps := [StepEvent WStype_TEXT "join-reply";
                StepEvent WStype_TEXT "command"; StepHeartbeatCheck] in
  let w1 := exec (webSocketEvent cbs WStype_CONNECTED "/") session_start in
  let w2 := exec (perform_all cbs steps) w1 in
  let refs := drawn_refs (events_since session_start w2) in
  exists n,
    length refs = S n
    /\ refs !! 0%nat = Some (Some "1")
    /\ (forall k, (k < S n)%nat ->
          refs !! k = Some (Some (String_of_uint (wrap32 (1 + Z.of_nat k)))))
    /\ (forall k, (k < S n)%nat -> (1 + Z.of_nat k < UINT_MODULUS)%Z ->
          refs !! k = Some (Some (String_of_uint (1 + Z.of_nat k)))).
Proof.
  apply (epoch_refs_count_from_one (dewab_callbacks esp32_1)
           [StepEvent WStype_TEXT "join-reply";
            StepEvent WStype_TEXT "command"; StepHeartbeatCheck]
           "/" session_start).
  - apply dewab_callbacks_disciplined, esp32_1_well_behaved.
  - repeat constructor; discriminate.
Defined.

Example epoch_refs_on_fresh_board :
  let w1 := exec (webSocketEvent observers WStype_CONNECTED "/") fresh_world in
  let w2 := exec (perform_all observers
                    [StepJoinChannel "realtime:arduino-commands"; StepHeartbeatCheck]) w1 in
  drawn_refs (events_since fresh_world w2) = [Some "1"; Some "2"].
Proof. vm_compute. reflexivity. Qed.

(** ** The counter wraps *)

Lemma joinChannel_alone_step topic w :
  _connected (client w) = true ->
  exists events ser tx,
    exec (joinChannel None topic) w = after_draw w events ser tx
    /\ drawn_refs events = [Some (String_of_uint (counter w))]
    /\ transmitted_refs events
       = if serialize_next w && accept_next w
         then [Some (String_of_uint (counter w))] else [].
Proof.
  intros Hc. unfold exec. rewrite joinChannel_connected by exact Hc.
  destruct (serialize_next w) eqn:Hs; [destruct (accept_next w) eqn:Ha |].
  - rewrite (_joinChannel_sent None topic w Hc Hs Ha).
    eexists _, 1%nat, 1%nat. repeat split.
  - rewrite (_joinChannel_send_fails None topic w Hc Hs Ha).
    eexists _, 1%nat, 1%nat. repeat split.
  - rewrite (_joinChannel_serialize_fails None topic w Hc Hs).
    eexists _, 1%nat, 0%nat. repeat split.
Qed.

Lemma after_draw_connected w events ser tx :
  _connected (client (after_draw w events ser tx)) = _connected (client w).
Proof. reflexivity. Qed.

Lemma after_draw_counter w events ser tx :
  counter (after_draw w events ser tx) = wrap32 (counter w + 1).
Proof. reflexivity. Qed.

Lemma after_draw_ext w events ser tx : ext (after_draw w events ser tx) = ext w.
Proof. reflexivity. Qed.

Lemma joinChannel_alone_iter topic n w :
  _connected (client w) = true -> in_range w ->
  let w' := N.iter n (exec (joinChannel None topic)) w in
  _connected (client w') = true
  /\ counter w' = wrap32 (counter w + Z.of_N n)
  /\ ext w' = ext w.
Proof.
  intros Hc Hw. induction n as [| n IH] using N.peano_ind.
  - cbn. repeat split; [exact Hc |].
    rewrite Z.add_0_r. symmetry. apply wrap32_small, Hw.
  - rewrite N.iter_succ. cbv zeta in *. destruct IH as (IHc & IHn & IHe).
    destruct (joinChannel_alone_step topic _ IHc) as (events & ser & tx & -> & _).
    rewrite after_draw_connected, after_draw_counter, after_draw_ext, IHn.
    repeat split; [exact IHc | | exact IHe].
    rewrite wrap32_add_l. f_equal. lia.
Qed.

Lemma joinChannel_alone_twice topic w :
  _connected (client w) = true ->
  let w' := exec (joinChannel None topic;; joinChannel None topic) w in
  drawn_refs (events_since w w')
  = [Some (String_of_uint (counter w));
     Some (String_of_uint (wrap32 (counter w + 1)))]
  /\ (serializeJson_written (ext w) = (fun _ => true) ->
      sendTXT_accepted (ext w) = (fun _ => true) ->
      transmitted_refs (events_since w w') = drawn_refs (events_since w w')).
Proof.
  intros Hc w'. subst w'. rewrite exec_bind.
  destruct (joinChannel_alone_step topic w Hc) as (ev1 & ser1 & tx1 & E1 & D1 & T1).
  rewrite E1.
  destruct (joinChannel_alone_step topic (after_draw w ev1 ser1 tx1) Hc)
    as (ev2 & ser2 & tx2 & E2 & D2 & T2).
  rewrite E2.
  rewrite (events_since_app w _ (ev1 ++ ev2))
    by (cbn [after_draw trace]; rewrite app_assoc; reflexivity).
  rewrite drawn_refs_app, transmitted_refs_app, D1, D2, T1, T2, after_draw_counter.
  split; [reflexivity |].
  intros Hser Hacc. unfold serialize_next, accept_next.
  rewrite !after_draw_ext, Hser, Hacc. reflexivity.
Qed.

(** Claim C1 fails where the counter wraps.  On a board whose connection
    opened with reference "1", after 4294967293 further joins the next two
    sends of the same epoch carry "4294967295" and then "0". *)
Lemma refs_wrap_to_zero :
  let w1 := exec (webSocketEvent observers WStype_CONNECTED "/") fresh_world in
  let w2 := N.iter 4294967293 (exec (joinChannel None "realtime:room")) w1 in
  let w3 := exec (joinChannel None "realtime:room";;
                  joinChannel None "realtime:room") w2 in
  drawn_refs (events_since fresh_world w1) = [Some "1"]
  /\ drawn_refs (events_since w2 w3) = [Some "4294967295"; Some "0"].
Proof.
  intros w1 w2 w3. split; [vm_compute; reflexivity |].
  assert (Hc1 : _connected (client w1) = true) by (vm_compute; reflexivity).
  assert (Hn1 : counter w1 = 2%Z) by (vm_compute; reflexivity).
  assert (Hw1 : in_range w1) by (unfold in_range, UINT_MODULUS; rewrite Hn1; lia).
  destruct (joinChannel_alone_iter "realtime:room" 4294967293 w1 Hc1 Hw1)
    as (Hc2 & Hn2 & _).
  fold w2 in Hc2, Hn2. rewrite Hn1 in Hn2.
  change (wrap32 (2 + Z.of_N 4294967293)) with 4294967295%Z in Hn2.
  clearbody w2. clear Hc1 Hn1 Hw1. subst w3.
  destruct (joinChannel_alone_twice "realtime:room" w2 Hc2) as [-> _].
  rewrite Hn2. vm_compute. reflexivity.
Qed.

(** ** References of the frames the transport took *)

Lemma sublist_map_inv {A B} (f : A -> B) (l : list B) (xs : list A) :
  l `sublist_of` map f xs -> exists ys, l = map f ys /\ ys `sublist_of` xs.
Proof.
  revert l. induction xs as [| x xs IH]; intros l H; cbn in H.
  - apply sublist_nil_r in H. subst l. exists []. split; [reflexivity | constructor].
  - inversion H as [| y l1 l2 H1 | y l1 l2 H1]; subst.
    + destruct (IH _ H1) as (ys & -> & Hys).
      exists (x :: ys). split; [reflexivity | constructor; exact Hys].
    + destruct (IH _ H1) as (ys & -> & Hys).
      exists ys. split; [reflexivity | constructor; exact Hys].
Qed.

Lemma sublist_Forall {A} (P : A -> Prop) (l k : list A) :
  l `sublist_of` k -> Forall P k -> Forall P l.
Proof.
  induction 1 as [| x l k _ IH | x l k _ IH]; intros Hk.
  - constructor.
  - inversion Hk; subst. constructor; auto.
  - inversion Hk; subst. auto.
Qed.

Lemma sublist_StronglySorted {A} (R : relation A) (l k : list A) :
  l `sublist_of` k -> StronglySorted R k -> StronglySorted R l.
Proof.
  induction 1 as [| x l k Hlk IH | x l k Hlk IH]; intros Hk.
  - constructor.
  - inversion Hk; subst. constructor; [auto |].
    eapply sublist_Forall; eassumption.
  - inversion Hk; subst. auto.
Qed.

Lemma numbers_from_sorted a n :
  StronglySorted Z.lt (map (fun k => (a + Z.of_nat k)%Z) (seq 0 n))
  /\ Forall (fun z => (a <= z < a + Z.of_nat n)%Z)
            (map (fun k => (a + Z.of_nat k)%Z) (seq 0 n)).
Proof.
  revert a. induction n as [| n IH]; intros a; cbn [seq map].
  - split; constructor.
  - rewrite <- seq_shift, map_map.
    destruct (IH (a + 1)%Z) as [Hs Hf].
    assert (E : map (fun k => (a + Z.of_nat (S k))%Z) (seq 0 n)
                = map (fun k => (a + 1 + Z.of_nat k)%Z) (seq 0 n))
      by (apply map_ext; intros; lia).
    rewrite E. split.
    + constructor; [exact Hs |].
      eapply Forall_impl; [exact Hf |]. cbn. intros; lia.
    + constructor; [lia |].
      eapply Forall_impl; [exact Hf |]. cbn. intros; lia.
Qed.

Lemma counting_unwrapped n :
  (Z.of_nat n < UINT_MODULUS)%Z ->
  counting 1 n
  = map (fun z => Some (String_of_uint z))
        (map (fun k => (1 + Z.of_nat k)%Z) (seq 0 n)).
Proof.
  intros Hn. unfold counting. rewrite map_map. apply map_ext_in.
  intros k Hk. apply in_seq in Hk. rewrite wrap32_small by lia. reflexivity.
Qed.

Lemma epoch_transmitted_increasing cbs steps payloadArg w :
  callbacks_disciplined cbs -> Forall within_epoch steps ->
  let w1 := exec (webSocketEvent cbs WStype_CONNECTED payloadArg) w in
  let w2 := exec (perform_all cbs steps) w1 in
  let delta := events_since w w2 in
  transmitted_refs delta `sublist_of` drawn_refs delta
  /\ ((Z.of_nat (length (drawn_refs delta)) < UINT_MODULUS)%Z ->
      exists numbers,
        transmitted_refs delta = map (fun z => Some (String_of_uint z)) numbers
        /\ StronglySorted Z.lt numbers
        /\ Forall (fun z => (1 <= z <= Z.of_nat (length (drawn_refs delta)))%Z)
                  numbers).
Proof.
  intros Hcbs Hsteps w1 w2 delta.
  destruct (epoch_advances cbs steps payloadArg w Hcbs Hsteps) as (n & Hd & Hs).
  fold w1 w2 delta in Hd, Hs. split; [exact Hs |].
  intros Hlen. rewrite Hd in Hs, Hlen.
  assert (Hn : length (counting 1 (S n)) = S n)
    by (unfold counting; rewrite length_map, length_seq; reflexivity).
  rewrite Hn in Hlen. rewrite counting_unwrapped in Hs by exact Hlen.
  apply sublist_map_inv in Hs. destruct Hs as (numbers & Ht & Hsub).
  exists numbers. rewrite Hd, Hn.
  destruct (numbers_from_sorted 1 (S n)) as [Hsorted Hbounds].
  repeat split.
  - exact Ht.
  - eapply sublist_StronglySorted; eassumption.
  - eapply sublist_Forall; [exact Hsub |].
    eapply Forall_impl; [exact Hbounds |]. cbn. intros; lia.
Qed.

Lemma gave_up_counter w doc handed :
  counter (gave_up w doc handed) = wrap32 (counter w + 1).
Proof. destruct handed; reflexivity. Qed.

Lemma gave_up_transmitted w doc handed :
  transmitted (events_since w (gave_up w doc handed)) = []
  /\ envelopes (events_since w (gave_up w doc handed)) = [doc].
Proof.
  destruct handed; cbn [gave_up];
    (erewrite events_since_app; [| reflexivity]); split; reflexivity.
Qed.

Lemma send_operations_give_up onError topic event payload w handed :
  _connected (client w) = true -> send_fails w handed ->
  let r := String_of_uint (counter w) in
  sendHeartbeat onError w
  = report_error onError
      (if handed then "WebSocket sendTXT failed for heartbeat."
       else "Failed to serialize heartbeat JSON.")
      (gave_up w (heartbeat_doc r) handed)
  /\ _joinChannel onError topic w
     = report_error onError
         (if handed then "WebSocket sendTXT failed for join: " +:+ topic
          else "Failed to serialize join JSON for topic: " +:+ topic)
         (gave_up w (join_doc topic r (_apiKey (client w))) handed)
  /\ (forall joinRef, _topicJoinRefs (client w) !! topic = Some joinRef ->
        broadcast onError topic event payload w
        = (report_error onError
             (if handed then "WebSocket sendTXT failed for broadcast: " +:+ event
              else "Failed to serialize broadcast JSON for event: " +:+ event);;
           ret false)
            (gave_up w (broadcast_doc topic event payload r joinRef) handed)).
Proof.
  intros Hc Hf r. destruct handed; cbn [send_fails gave_up] in *.
  - destruct Hf as [Hs Ha]. repeat split.
    + apply sendHeartbeat_send_fails; assumption.
    + apply _joinChannel_send_fails; assumption.
    + intros joinRef Hj. apply broadcast_send_fails; assumption.
  - repeat split.
    + apply sendHeartbeat_serialize_fails; assumption.
    + apply _joinChannel_serialize_fails; assumption.
    + intros joinRef Hj. apply broadcast_serialize_fails; assumption.
Qed.

(** Claim C10, as the code has it.  Heartbeat, join and broadcast draw the
    next reference before they serialize and send.  When [serializeJson]
    writes nothing or [sendTXT] refuses the frame, the operation goes on,
    with nothing but the error report left to do, from a world in which
    the counter has moved on by one and the transport has taken no frame.
    In an epoch the references of the frames the transport took are
    therefore a sub-sequence of the references drawn: they can skip
    values (1 then 3 in the run shown), and they are strictly increasing
    as long as the epoch draws fewer than [2^32] references, that is, as
    long as the [unsigned int] counter has not wrapped. *)
Theorem reference_drawn_before_sending :
  (forall onError topic event payload w handed,
      _connected (client w) = true -> send_fails w handed ->
      let r := String_of_uint (counter w) in
      (sendHeartbeat onError w
       = report_error onError
           (if handed then "WebSocket sendTXT failed for heartbeat."
            else "Failed to serialize heartbeat JSON.")
           (gave_up w (heartbeat_doc r) handed)
       /\ _joinChannel onError topic w
          = report_error onError
              (if handed then "WebSocket sendTXT failed for join: " +:+ topic
               else "Failed to serialize join JSON for topic: " +:+ topic)
              (gave_up w (join_doc topic r (_apiKey (client w))) handed)
       /\ (forall joinRef, _topicJoinRefs (client w) !! topic = Some joinRef ->
             broadcast onError topic event payload w
             = (report_error onError
                  (if handed
                   then "WebSocket sendTXT failed for broadcast: " +:+ event
                   else "Failed to serialize broadcast JSON for event: " +:+ event);;
                ret false)
                 (gave_up w (broadcast_doc topic event payload r joinRef) handed)))
      /\ (forall doc,
            counter (gave_up w doc handed) = wrap32 (counter w + 1)
            /\ transmitted (events_since w (gave_up w doc handed)) = []
            /\ envelopes (events_since w (gave_up w doc handed)) = [doc]))
  /\ (forall cbs steps payloadArg w,
        callbacks_disciplined cbs -> Forall within_epoch steps ->
        let w1 := exec (webSocketEvent cbs WStype_CONNECTED payloadArg) w in
        let w2 := exec (perform_all cbs steps) w1 in
        let delta := events_since w w2 in
        transmitted_refs delta `sublist_of` drawn_refs delta
        /\ ((Z.of_nat (length (drawn_refs delta)) < UINT_MODULUS)%Z ->
            exists numbers,
              transmitted_refs delta
              = map (fun z => Some (String_of_uint z)) numbers
              /\ StronglySorted Z.lt numbers
              /\ Forall (fun z =>
                           (1 <= z <= Z.of_nat (length (drawn_refs delta)))%Z)
                        numbers))
  /\ (let w0 := mkWorld (SupabaseRealtimeClient "project" "key")
                        second_serialization_fails 0 0 0 [] in
      let w1 := exec (webSocketEvent observers WStype_CONNECTED "/") w0 in
      let w2 := exec (perform_all observers
                        [StepJoinChannel "realtime:room";
                         StepJoinChannel "realtime:room"]) w1 in
      drawn_refs (events_since w0 w2) = [Some "1"; Some "2"; Some "3"]
      /\ transmitted_refs (events_since w0 w2) = [Some "1"; Some "3"]).
Proof.
  split; [| split].
  - intros onError topic event payload w handed Hc Hf r. split.
    + apply send_operations_give_up; assumption.
    + intros doc. split; [apply gave_up_counter | apply gave_up_transmitted].
  - intros cbs steps payloadArg w Hcbs Hsteps.
    apply epoch_transmitted_increasing; assumption.
  - vm_compute. split; reflexivity.
Qed.

Lemma reference_drawn_before_sending_witness :
  let w := mkWorld (set_connected true (SupabaseRealtimeClient "project" "key"))
                   (mkExtern (fun _ => 0%Z) (fun _ => false) (fun _ => true)
                             (fun _ => inl "InvalidInput") (fun _ => "null"))
                   0 0 0 [] in
  _connected (client w) = true /\ send_fails w false
  /\ sendHeartbeat None w
     = report_error None "Failed to serialize heartbeat JSON."
         (gave_up w (heartbeat_doc "1") false)
  /\ counter (gave_up w (heartbeat_doc "1") false) = 2%Z
  /\ transmitted (events_since w (gave_up w (heartbeat_doc "1") false)) = [].
Proof.
  intros w.
  assert (Hc : _connected (client w) = true) by reflexivity.
  assert (Hf : send_fails w false) by reflexivity.
  destruct (proj1 reference_drawn_before_sending None "realtime:room" "e" JNull
              w false Hc Hf) as [(Hhb & _) Hdoc].
  destruct (Hdoc (heartbeat_doc "1")) as (Hn & Ht & _).
  split; [exact Hc |]. split; [exact Hf |]. split; [exact Hhb |].
  split; [exact Hn | exact Ht].
Defined.

(** Claim C10 fails where the counter wraps: with a transport that takes
    every frame, the frames sent after 4294967293 joins of one epoch
    carry "4294967295" and then "0". *)
Lemma transmitted_refs_wrap_to_zero :
  let w1 := exec (webSocketEvent observers WStype_CONNECTED "/") fresh_world in
  let w2 := N.iter 4294967293 (exec (joinChannel None "realtime:room")) w1 in
  let w3 := exec (joinChannel None "realtime:room";;
                  joinChannel None "realtime:room") w2 in
  transmitted_refs (events_since fresh_world w1) = [Some "1"]
  /\ transmitted_refs (events_since w2 w3) = [Some "4294967295"; Some "0"].
Proof.
  intros w1 w2 w3. split; [vm_compute; reflexivity |].
  assert (Hc1 : _connected (client w1) = true) by (vm_compute; reflexivity).
  assert (Hn1 : counter w1 = 2%Z) by (vm_compute; reflexivity).
  assert (He1 : ext w1 = easy_ext) by reflexivity.
  assert (Hw1 : in_range w1) by (unfold in_range, UINT_MODULUS; rewrite Hn1; lia).
  destruct (joinChannel_alone_iter "realtime:room" 4294967293 w1 Hc1 Hw1)
    as (Hc2 & Hn2 & He2).
  fold w2 in Hc2, Hn2, He2. rewrite Hn1 in Hn2. rewrite He1 in He2.
  change (wrap32 (2 + Z.of_N 4294967293)) with 4294967295%Z in Hn2.
  clearbody w2. clear Hc1 Hn1 Hw1 He1. subst w3.
  destruct (joinChannel_alone_twice "realtime:room" w2 Hc2) as [Hd Ht].
  rewrite Ht, Hd by (rewrite He2; reflexivity).
  rewrite Hn2. vm_compute. reflexivity.
Qed.

(** ** Broadcasts that are refused *)

(** Claim C2.  When the client is not connected, or the topic has no
    entry in [_topicJoinRefs], [broadcast] returns [false] and does
    nothing but report the refusal through the error callback: with an
    empty slot the world is unchanged, with a callback the world is what
    the callback makes of it, and unless the callback itself sends, no
    frame is handed to the transport and no envelope is even built. *)
Theorem broadcast_refused onError topic event payload w :
  _connected (client w) = false \/ _topicJoinRefs (client w) !! topic = None ->
  let message := broadcast_refusal w topic in
  let w' := exec (broadcast onError topic event payload) w in
  result (broadcast onError topic event payload) w = false
  /\ w' = exec (report_error onError message) w
  /\ (onError = None -> w' = w)
  /\ (forall callback, onError = Some callback ->
        w' = exec (callback message)
                  (exec (emit (EvCallback (OnError message))) w)
        /\ ((forall m w0, handed_over (trace (exec (callback m) w0))
                          = handed_over (trace w0)) ->
            handed_over (trace w') = handed_over (trace w))
        /\ ((forall m w0, envelopes (trace (exec (callback m) w0))
                          = envelopes (trace w0)) ->
            envelopes (trace w') = envelopes (trace w))).
Proof.
  intros H message w'.
  assert (E : broadcast onError topic event payload w
              = (report_error onError message;; ret false) w).
  { subst message. unfold broadcast_refusal.
    destruct (_connected (client w)) eqn:Hc.
    - destruct H as [H | H]; [discriminate |].
      apply broadcast_not_joined; assumption.
    - apply broadcast_not_connected; assumption. }
  subst w'. unfold exec, result. rewrite E. clear E.
  split; [reflexivity |]. split; [reflexivity |]. split.
  - intros ->. reflexivity.
  - intros callback ->. split; [reflexivity |].
    change (((report_error (Some callback) message;; ret false) w).2)
      with (exec (callback message) (exec (emit (EvCallback (OnError message))) w)).
    unfold exec. split; intros Hq; rewrite Hq; cbn [emit snd trace].
    + rewrite handed_over_app, app_nil_r. reflexivity.
    + rewrite envelopes_app, app_nil_r. reflexivity.
Qed.

Lemma broadcast_refused_witness :
  let w := mkWorld (set_connected true (SupabaseRealtimeClient "project" "key"))
                   easy_ext 0 0 0 [] in
  let run := broadcast (Some (fun _ => ret tt)) "realtime:arduino-commands"
                       "SET_LED_ACK" (JObj []) in
  _topicJoinRefs (client w) !! "realtime:arduino-commands" = None
  /\ result run w = false
  /\ trace (exec run w)
     = [EvCallback
          (OnError "Cannot broadcast: Not joined to topic realtime:arduino-commands")]
  /\ handed_over (trace (exec run w)) = [].
Proof.
  intros w run.
  assert (Hj : _topicJoinRefs (client w) !! "realtime:arduino-commands" = None)
    by reflexivity.
  destruct (broadcast_refused (Some (fun _ => ret tt)) "realtime:arduino-commands"
              "SET_LED_ACK" (JObj []) w (or_intror Hj))
    as (Hr & _ & _ & Hcb).
  destruct (Hcb _ eq_refl) as (Hw & Hh & _).
  split; [exact Hj |]. split; [exact Hr |]. split.
  - fold run in Hw. rewrite Hw. reflexivity.
  - apply Hh. reflexivity.
Defined.

(** ** Connecting *)

Lemma connect_when_connected onError w :
  _connected (client w) = true ->
  connect onError w = report_error onError "Already connected or connecting." w.
Proof.
  intros Hc. unfold connect. rewrite bind_run. unfold isConnected.
  cbn [gets fst snd]. rewrite Hc. reflexivity.
Qed.

Lemma connect_when_not_connected onError w :
  _connected (client w) = false ->
  connect onError w
  = emit (EvBeginSSL (_wsHost (client w)) _wsPort (_wsPath (client w))) w.
Proof.
  intros Hc. unfold connect. rewrite bind_run. unfold isConnected.
  cbn [gets fst snd]. rewrite Hc. reflexivity.
Qed.

(** Claim C7 on the code.  [connect] tests [_connected] only, and that
    member is still false while the transport is opening the connection.
    A second [connect] before the [WStype_CONNECTED] event therefore calls
    [beginSSL] once more and reports nothing, although the message of the
    guard reads "Already connected or connecting.". *)
Theorem connect_twice_opens_twice :
  let onError := Some (fun _ : string => ret tt) in
  let w1 := exec (connect onError) fresh_world in
  let w2 := exec (connect onError) w1 in
  trace w1 = [EvBeginSSL "project.supabase.co" 443
                         "/realtime/v1/websocket?apikey=key&vsn=1.0.0"]
  /\ _connected (client w1) = false
  /\ trace w2 = trace w1 ++ [EvBeginSSL "project.supabase.co" 443
                               "/realtime/v1/websocket?apikey=key&vsn=1.0.0"]
  /\ client w2 = client w1.
Proof. vm_compute. repeat split; reflexivity. Qed.

(** ** Nothing is sent while the client is not connected *)

Lemma silent_ret {A} (a : A) : silent_when_disconnected (ret a).
Proof. intros w Hc. repeat split; assumption. Qed.

Lemma silent_gets {A} (f : World -> A) : silent_when_disconnected (gets f).
Proof. intros w Hc. repeat split; assumption. Qed.

Lemma silent_millis : silent_when_disconnected millis.
Proof. intros w Hc. repeat split; assumption. Qed.

Lemma silent_bind {A B} (m : M A) (f : A -> M B) :
  silent_when_disconnected m -> (forall a, silent_when_disconnected (f a)) ->
  silent_when_disconnected (bind m f).
Proof.
  intros Hm Hf w Hc. rewrite exec_bind.
  destruct (Hm w Hc) as (Hc1 & He1 & Hh1).
  destruct (Hf (result m w) _ Hc1) as (Hc2 & He2 & Hh2).
  repeat split; congruence.
Qed.

Lemma silent_emit e : quiet e -> silent_when_disconnected (emit e).
Proof.
  intros He w Hc. cbn [exec emit snd client trace].
  rewrite envelopes_app, handed_over_app.
  destruct e; cbn in He; try contradiction; cbn; rewrite !app_nil_r;
    repeat split; assumption.
Qed.

Lemma silent_modify_client f :
  (forall c, _connected c = false -> _connected (f c) = false) ->
  silent_when_disconnected (modify_client f).
Proof. intros Hf w Hc. repeat split. apply Hf, Hc. Qed.

Lemma silent_report_error onError message :
  (forall f, onError = Some f -> forall m, silent_when_disconnected (f m)) ->
  silent_when_disconnected (report_error onError message).
Proof.
  intros H. unfold report_error. destruct onError as [f |].
  - apply silent_bind; [apply silent_emit; exact I |].
    intros _. apply H. reflexivity.
  - apply silent_ret.
Qed.

Lemma silent_sendHeartbeat onError : silent_when_disconnected (sendHeartbeat onError).
Proof.
  intros w Hc. unfold exec. rewrite sendHeartbeat_not_connected by exact Hc.
  repeat split; assumption.
Qed.

Lemma silent__joinChannel onError topic :
  silent_when_disconnected (_joinChannel onError topic).
Proof.
  intros w Hc. unfold exec. rewrite _joinChannel_not_connected by exact Hc.
  repeat split; assumption.
Qed.

Lemma silent_joinChannel onError topic :
  (forall f, onError = Some f -> forall m, silent_when_disconnected (f m)) ->
  silent_when_disconnected (joinChannel onError topic).
Proof.
  intros H w Hc. unfold exec. rewrite joinChannel_not_connected by exact Hc.
  apply silent_report_error; assumption.
Qed.

Lemma silent_broadcast onError topic event payload :
  (forall f, onError = Some f -> forall m, silent_when_disconnected (f m)) ->
  silent_when_disconnected (broadcast onError topic event payload).
Proof.
  intros H w Hc. unfold exec. rewrite broadcast_not_connected by exact Hc.
  apply (silent_bind (report_error onError _) (fun _ => ret false));
    [apply silent_report_error, H | intros; apply silent_ret | exact Hc].
Qed.

Create HintDb silence.

#[local] Hint Resolve silent_ret silent_gets silent_millis silent_report_error
  silent_sendHeartbeat silent__joinChannel silent_joinChannel silent_broadcast
  : silence.

Ltac silence_step :=
  first
    [ solve [eauto with silence]
    | apply silent_emit; exact I
    | apply silent_modify_client; intros ? ?; assumption
    | apply silent_modify_client; reflexivity
    | match goal with
      | |- silent_when_disconnected (bind _ _) => apply silent_bind; [| intros ?]
      | |- silent_when_disconnected (if ?b then _ else _) => destruct b
      | |- silent_when_disconnected (match ?x with _ => _ end) => destruct x eqn:?
      end ].

Ltac silence := repeat silence_step.

Section SilentCallbacks.

Context (cbs : Callbacks) (Hcbs : callbacks_silent cbs).

Lemma error_slot_silent :
  forall f, _errorCallback cbs = Some f -> forall m, silent_when_disconnected (f m).
Proof using Hcbs. destruct Hcbs as (_ & _ & He & _). exact He. Qed.

Hint Resolve error_slot_silent : silence.

Lemma silent_notify_disconnected : silent_when_disconnected (notify_disconnected cbs).
Proof using Hcbs.
  unfold notify_disconnected. destruct Hcbs as (_ & H & _).
  destruct (_disconnectedCallback cbs) as [f |]; silence.
Qed.

Lemma silent_notify_channelJoined topic joinRef :
  silent_when_disconnected (notify_channelJoined cbs topic joinRef).
Proof using Hcbs.
  unfold notify_channelJoined. destruct Hcbs as (_ & _ & _ & _ & H).
  destruct (_channelJoinedCallback cbs) as [f |]; silence.
Qed.

Lemma silent_bind_topic topic msgRef : silent_when_disconnected (bind_topic topic msgRef).
Proof. unfold bind_topic. silence. Qed.

Hint Resolve silent_notify_disconnected silent_notify_channelJoined
  silent_bind_topic : silence.

Lemma silent_status_branch topic event jsonPayload msgRef :
  silent_when_disconnected (status_branch cbs topic event jsonPayload msgRef).
Proof using Hcbs. unfold status_branch. silence. Qed.

Lemma silent_broadcast_branch callback topic event jsonPayload :
  (forall t e p, silent_when_disconnected (callback t e p)) ->
  silent_when_disconnected (broadcast_branch callback topic event jsonPayload).
Proof. intros H. unfold broadcast_branch, as_String. silence. Qed.

Lemma silent_dispatch_branch topic event jsonPayload msgRef :
  silent_when_disconnected (dispatch_branch cbs topic event jsonPayload msgRef).
Proof using Hcbs.
  unfold dispatch_branch, join_failure_reason, as_String.
  destruct Hcbs as (_ & _ & _ & Hb & _).
  silence. apply silent_broadcast_branch. eauto.
Qed.

Hint Resolve silent_status_branch silent_dispatch_branch : silence.

Lemma silent_on_text payloadArg : silent_when_disconnected (on_text cbs payloadArg).
Proof using Hcbs. unfold on_text. silence. Qed.

Lemma silent_webSocketEvent type payloadArg :
  type <> WStype_CONNECTED ->
  silent_when_disconnected (webSocketEvent cbs type payloadArg).
Proof using Hcbs.
  intros Ht. destruct type; try contradiction; cbn [webSocketEvent]; silence.
  apply silent_on_text.
Qed.

Lemma silent_heartbeat_check : silent_when_disconnected (heartbeat_check cbs).
Proof using Hcbs. unfold heartbeat_check, isConnected. silence. Qed.

Lemma silent_connect : silent_when_disconnected (connect (_errorCallback cbs)).
Proof using Hcbs. unfold connect, isConnected. silence. Qed.

Lemma silent_perform s :
  keeps_disconnected s -> silent_when_disconnected (perform cbs s).
Proof using Hcbs.
  destruct s; cbn [keeps_disconnected perform]; intros Hs.
  - apply silent_webSocketEvent, Hs.
  - apply silent_heartbeat_check.
  - apply silent_connect.
  - silence.
  - silence.
  - exact Hs.
Qed.

Lemma silent_perform_all steps :
  Forall keeps_disconnected steps -> silent_when_disconnected (perform_all cbs steps).
Proof using Hcbs.
  induction 1 as [| s steps Hs _ IH]; cbn [perform_all].
  - apply silent_ret.
  - apply silent_bind; [apply silent_perform, Hs | intros _; exact IH].
Qed.

End SilentCallbacks.

Lemma dewab_onError_silent :
  forall f, dewab_onError = Some f -> forall m, silent_when_disconnected (f m).
Proof. intros f Hf m. injection Hf as <-. apply silent_ret. Qed.

#[local] Hint Resolve dewab_onError_silent : silence.

Lemma silent_broadcastCurrentState d reason :
  silent_when_disconnected (broadcastCurrentState d reason).
Proof.
  intros w Hc. unfold broadcastCurrentState, exec. rewrite bind_run.
  unfold isConnected. cbn [gets fst snd]. rewrite Hc. repeat split; assumption.
Qed.

Lemma silent_handleSupabaseChannelJoined d topic joinRef :
  silent_when_disconnected (handleSupabaseChannelJoined d topic joinRef).
Proof.
  unfold handleSupabaseChannelJoined. silence.
  apply silent_broadcastCurrentState.
Qed.

Lemma silent_handleBroadcastCommand d topic event payload :
  handlers_silent d ->
  silent_when_disconnected (handleBroadcastCommand d topic event payload).
Proof.
  intros [Hh _].
  unfold handleBroadcastCommand, actualCommandType, as_String, execute_command,
    send_reply.
  silence.
Qed.

Lemma dewab_callbacks_silent d :
  handlers_silent d -> callbacks_silent (dewab_callbacks d).
Proof.
  intros Hd. unfold callbacks_silent, dewab_callbacks. cbn.
  split; [| split; [| split; [| split]]];
    intros g Hg; injection Hg as <-; intros.
  - unfold handleSupabaseConnected. silence.
  - apply silent_ret.
  - apply silent_ret.
  - apply silent_handleBroadcastCommand, Hd.
  - apply silent_handleSupabaseChannelJoined.
Qed.

Lemma esp32_1_handlers_silent : handlers_silent esp32_1.
Proof.
  split.
  - intros commandType handler H payload doc.
    unfold esp32_1, registerCommand in H. cbn in H.
    apply lookup_insert_Some in H.
    destruct H as [[_ <-] | [_ H]]; [apply silent_ret |].
    rewrite lookup_empty in H. discriminate.
  - intros provider H. discriminate.
Qed.

(** ** Heartbeats *)

(** Claim C8.  No heartbeat leaves a client that is not connected:
    [sendHeartbeat] and the keep-alive check of [loop] then do nothing at
    all, and from a client that is not connected no sequence of events,
    keep-alive checks and calls, short of the connection event, builds an
    envelope or hands a frame to the transport.  On a connected client the check reads the clock and, exactly
    when at least [_heartbeatInterval] (25000 ms, in wrapping
    [unsigned long] arithmetic) has passed since [_lastHeartbeatSent],
    runs [sendHeartbeat], which builds the envelope
    [{topic:"phoenix", event:"heartbeat", payload:{}, ref:<next ref>}],
    hands that one frame to the transport and, when the transport takes
    it, restarts the interval at the current clock reading. *)
Theorem heartbeat_only_while_connected :
  (forall onError w,
      _connected (client w) = false -> sendHeartbeat onError w = (tt, w))
  /\ (forall cbs w,
        _connected (client w) = false -> heartbeat_check cbs w = (tt, w))
  /\ (forall cbs steps w,
        callbacks_silent cbs -> Forall keeps_disconnected steps ->
        _connected (client w) = false ->
        let w' := exec (perform_all cbs steps) w in
        _connected (client w') = false
        /\ envelopes (trace w') = envelopes (trace w)
        /\ handed_over (trace w') = handed_over (trace w))
  /\ (forall cbs delivered,
        loop cbs delivered = (webSocket_loop cbs delivered;; heartbeat_check cbs))
  /\ (forall cbs w,
        _connected (client w) = true ->
        heartbeat_check cbs w
        = if (_heartbeatInterval
              <=? wrap32 (result millis w - _lastHeartbeatSent (client w)))%Z
          then sendHeartbeat (_errorCallback cbs) (exec millis w)
          else (tt, exec millis w))
  /\ (forall onError w,
        _connected (client w) = true -> serialize_next w = true ->
        let w' := exec (sendHeartbeat onError) w in
        let envelope :=
          JObj [("topic", JStr "phoenix"); ("event", JStr "heartbeat");
                ("payload", JObj []);
                ("ref", JStr (String_of_uint (counter w)))] in
        (accept_next w = true ->
           trace w' = trace w ++ [EvSerialize envelope true; EvSendTXT envelope true]
           /\ _lastHeartbeatSent (client w')
              = wrap32 (millis_reading (ext w) (millis_calls w))
           /\ _connected (client w') = true)
        /\ (accept_next w = false ->
              w' = exec (report_error onError
                           "WebSocket sendTXT failed for heartbeat.")
                        (after_draw w [EvSerialize envelope true;
                                       EvSendTXT envelope false] 1 1))).
Proof.
  split; [| split; [| split; [| split; [| split]]]].
  - intros onError w Hc. apply sendHeartbeat_not_connected, Hc.
  - intros cbs w Hc. unfold heartbeat_check. rewrite bind_run. unfold isConnected.
    cbn [gets fst snd]. rewrite Hc. reflexivity.
  - intros cbs steps w Hcbs Hsteps Hc. apply silent_perform_all; assumption.
  - reflexivity.
  - intros cbs w Hc. unfold heartbeat_check. rewrite bind_run. unfold isConnected.
    cbn [gets fst snd]. rewrite Hc. rewrite !bind_run.
    unfold result, exec. cbn [gets millis fst snd client].
    destruct (_heartbeatInterval <=? _)%Z; reflexivity.
  - intros onError w Hc Hs w' envelope. split; intros Ha; subst w'; unfold exec.
    + rewrite (sendHeartbeat_sent onError w Hc Hs Ha). repeat split; exact Hc.
    + rewrite (sendHeartbeat_send_fails onError w Hc Hs Ha). reflexivity.
Qed.

Lemma heartbeat_only_while_connected_witness :
  let next := exec (webSocketEvent observers WStype_DISCONNECTED EmptyString) in
  let w1 := exec (webSocketEvent observers WStype_CONNECTED "/") fresh_world in
  let idle := exec (perform_all (dewab_callbacks esp32_1)
                      [StepHeartbeatCheck; StepEvent WStype_TEXT "command";
                       StepApplication (broadcastCurrentState esp32_1 "manual")])
                   session_start in
  _connected (client (next w1)) = false
  /\ heartbeat_check observers (next w1) = (tt, next w1)
  /\ sendHeartbeat None (next w1) = (tt, next w1)
  /\ handed_over (trace idle) = []
  /\ trace (exec (sendHeartbeat None) w1)
     = trace w1
       ++ [EvSerialize (heartbeat_doc "2") true; EvSendTXT (heartbeat_doc "2") true].
Proof.
  intros next w1 idle.
  assert (Hd : _connected (client (next w1)) = false) by reflexivity.
  assert (Hc : _connected (client w1) = true) by reflexivity.
  destruct heartbeat_only_while_connected as (H1 & H2 & H3 & _ & _ & H5).
  split; [exact Hd |]. split; [exact (H2 observers _ Hd) |].
  split; [exact (H1 None _ Hd) |]. split.
  - refine (proj2 (proj2 (H3 (dewab_callbacks esp32_1) _ session_start
                            (dewab_callbacks_silent _ esp32_1_handlers_silent)
                            _ eq_refl))).
    constructor; [exact I |]. constructor; [discriminate |].
    constructor; [apply silent_broadcastCurrentState | constructor].
  - destruct (H5 None w1 Hc eq_refl) as [Hsent _].
    destruct (Hsent eq_refl) as (Ht & _). exact Ht.
Defined.

(** The keep-alive schedule on a concrete clock.  The connection opens
    at 0 ms and its heartbeat is taken at 0 ms; a check at 24999 ms sends
    nothing, the check at 25000 ms sends the second heartbeat, and the
    check 5 s later sends nothing. *)
Example heartbeat_every_interval :
  let w0 := mkWorld (SupabaseRealtimeClient "project" "key")
                    (ticking [0; 0; 24999; 25000; 25000; 30000]%Z) 0 0 0 [] in
  let w1 := exec (webSocketEvent observers WStype_CONNECTED "/") w0 in
  let w2 := exec (loop observers []) w1 in
  let w3 := exec (loop observers []) w2 in
  let w4 := exec (loop observers []) w3 in
  transmitted (trace w1) = [heartbeat_doc "1"]
  /\ transmitted (trace w2) = [heartbeat_doc "1"]
  /\ transmitted (trace w3) = [heartbeat_doc "1"; heartbeat_doc "2"]
  /\ transmitted (trace w4) = [heartbeat_doc "1"; heartbeat_doc "2"].
Proof. vm_compute. repeat split; reflexivity. Qed.

(** The interval is measured in wrapping arithmetic: a heartbeat taken
    1000 ms before the clock rolls over is followed by the next one
    24000 ms after the roll-over. *)
Example heartbeat_across_clock_rollover :
  let w0 := mkWorld (SupabaseRealtimeClient "project" "key")
                    (ticking [4294966296; 4294966296; 23999; 24000; 24000]%Z)
                    0 0 0 [] in
  let w1 := exec (webSocketEvent observers WStype_CONNECTED "/") w0 in
  let w2 := exec (loop observers []) w1 in
  let w3 := exec (loop observers []) w2 in
  transmitted (trace w2) = [heartbeat_doc "1"]
  /\ transmitted (trace w3) = [heartbeat_doc "1"; heartbeat_doc "2"].
Proof. vm_compute. repeat split; reflexivity. Qed.

(** ** Replies to a join *)

Lemma realtime_is_not_phoenix topic :
  has_realtime_prefix topic = true -> String.eqb topic "phoenix" = false.
Proof.
  intros H. destruct (String.eqb topic "phoenix") eqn:E; [| reflexivity].
  apply String.eqb_eq in E. subst topic. discriminate H.
Qed.

Lemma eq_str_ok_payload jsonPayload :
  Json.eq_str (Json.member jsonPayload "status") "ok" = true ->
  Json.truthy jsonPayload = true.
Proof. destruct jsonPayload as [members |]; cbn; [reflexivity | discriminate]. Qed.

(** The first pass over a frame never acts: its test for the [status]
    member is false for every payload. *)
Lemma status_branch_never_acts cbs topic event jsonPayload msgRef w :
  status_branch cbs topic event jsonPayload msgRef w = (tt, w).
Proof. unfold status_branch. destruct (Json.truthy jsonPayload); reflexivity. Qed.

Lemma dispatch_branch_join_ok cbs topic jsonPayload msgRef w :
  has_realtime_prefix topic = true ->
  Json.eq_str (Json.member jsonPayload "status") "ok" = true ->
  dispatch_branch cbs (Some topic) (Some "phx_reply") jsonPayload msgRef w
  = match msgRef with
    | Some r => (bind_topic topic r;; notify_channelJoined cbs topic r) w
    | None => (tt, w)
    end.
Proof.
  intros Hp Hok. pose proof (eq_str_ok_payload _ Hok) as Ht.
  unfold dispatch_branch.
  rewrite (realtime_is_not_phoenix _ Hp), Ht, Hp, Hok. cbn [cstr_is andb].
  destruct msgRef; reflexivity.
Qed.

Lemma on_text_parsed cbs payloadArg doc w :
  deserializeJson (ext w) payloadArg = inr doc ->
  webSocketEvent cbs WStype_TEXT payloadArg w
  = (status_branch cbs (Json.as_cstr (Json.doc_get doc "topic"))
       (Json.as_cstr (Json.doc_get doc "event"))
       (Json.as_object (Json.doc_get doc "payload"))
       (Json.as_cstr (Json.doc_get doc "ref"));;
     dispatch_branch cbs (Json.as_cstr (Json.doc_get doc "topic"))
       (Json.as_cstr (Json.doc_get doc "event"))
       (Json.as_object (Json.doc_get doc "payload"))
       (Json.as_cstr (Json.doc_get doc "ref"))) w.
Proof.
  intros Hd. cbn [webSocketEvent]. unfold on_text. rewrite bind_run.
  cbn [gets fst snd]. rewrite Hd. reflexivity.
Qed.

(** A text frame is handled by the second pass alone. *)
Lemma on_text_dispatched cbs payloadArg doc w :
  deserializeJson (ext w) payloadArg = inr doc ->
  webSocketEvent cbs WStype_TEXT payloadArg w
  = dispatch_branch cbs (Json.as_cstr (Json.doc_get doc "topic"))
      (Json.as_cstr (Json.doc_get doc "event"))
      (Json.as_object (Json.doc_get doc "payload"))
      (Json.as_cstr (Json.doc_get doc "ref")) w.
Proof.
  intros Hd. rewrite (on_text_parsed _ _ _ _ Hd), bind_run.
  rewrite status_branch_never_acts. reflexivity.
Qed.

Lemma unit_run_eta (m : M unit) w : (tt, snd (m w)) = m w.
Proof. destruct (m w) as [[] w']. reflexivity. Qed.

Lemma join_reply_with_ref cbs payloadArg doc topic r w :
  deserializeJson (ext w) payloadArg = inr doc ->
  is_join_ok_reply doc topic ->
  Json.as_cstr (Json.doc_get doc "ref") = Some r ->
  webSocketEvent cbs WStype_TEXT payloadArg w
  = (bind_topic topic r;; notify_channelJoined cbs topic r) w.
Proof.
  intros Hd (Ht & Hp & He & Hok) Hr.
  rewrite (on_text_dispatched _ _ _ _ Hd), Ht, He, Hr.
  apply (dispatch_branch_join_ok cbs topic _ (Some r)); assumption.
Qed.

Lemma join_reply_without_ref_run cbs payloadArg doc topic w :
  deserializeJson (ext w) payloadArg = inr doc ->
  is_join_ok_reply doc topic ->
  Json.as_cstr (Json.doc_get doc "ref") = None ->
  webSocketEvent cbs WStype_TEXT payloadArg w = (tt, w).
Proof.
  intros Hd (Ht & Hp & He & Hok) Hr.
  rewrite (on_text_dispatched _ _ _ _ Hd), Ht, He, Hr.
  apply (dispatch_branch_join_ok cbs topic _ None); assumption.
Qed.

Lemma notify_channelJoined_bindings cbs topic joinRef w :
  callback_keeps_bindings cbs ->
  _topicJoinRefs (client (exec (notify_channelJoined cbs topic joinRef) w))
  = _topicJoinRefs (client w).
Proof.
  intros Hk. unfold notify_channelJoined.
  destruct (_channelJoinedCallback cbs) as [f |] eqn:Hf; [| reflexivity].
  rewrite exec_bind. rewrite (Hk f Hf). reflexivity.
Qed.

Lemma notify_channelJoined_calls cbs f topic joinRef w :
  _channelJoinedCallback cbs = Some f ->
  callback_not_reentrant cbs ->
  joined_calls (trace (exec (notify_channelJoined cbs topic joinRef) w))
  = joined_calls (trace w) ++ [(topic, joinRef)].
Proof.
  intros Hf Hq. unfold notify_channelJoined. rewrite Hf, exec_bind.
  rewrite (Hq f Hf). cbn [exec emit snd trace]. rewrite joined_calls_app.
  reflexivity.
Qed.

Lemma join_reply_bindings cbs topic r w :
  callback_keeps_bindings cbs ->
  _topicJoinRefs
    (client (exec (bind_topic topic r;; notify_channelJoined cbs topic r) w))
  = <[topic := r]> (_topicJoinRefs (client w)).
Proof.
  intros Hk. rewrite exec_bind, notify_channelJoined_bindings by exact Hk.
  reflexivity.
Qed.

(** Claim C3, as the code has it.  For an inbound [phx_reply] on a topic
    that starts with "realtime:" and whose payload has status "ok":
    when the envelope carries a [ref], the client stores it as the
    topic's join reference and calls the channel-joined callback with
    (topic, ref); when it carries none, the client stores nothing, so
    the topic's entry in [_topicJoinRefs] stays as it was. *)
Theorem join_reply_binds_the_ref_it_carries cbs payloadArg doc topic w :
  deserializeJson (ext w) payloadArg = inr doc ->
  is_join_ok_reply doc topic ->
  let w' := exec (webSocketEvent cbs WStype_TEXT payloadArg) w in
  match Json.as_cstr (Json.doc_get doc "ref") with
  | Some r =>
      webSocketEvent cbs WStype_TEXT payloadArg w
      = (bind_topic topic r;; notify_channelJoined cbs topic r) w
      /\ (callback_keeps_bindings cbs ->
          _topicJoinRefs (client w') = <[topic := r]> (_topicJoinRefs (client w)))
      /\ (forall f, _channelJoinedCallback cbs = Some f ->
            callback_not_reentrant cbs ->
            joined_calls (trace w') = joined_calls (trace w) ++ [(topic, r)])
  | None =>
      _topicJoinRefs (client w') = _topicJoinRefs (client w)
  end.
Proof.
  intros Hd Hj w'. subst w'.
  destruct (Json.as_cstr (Json.doc_get doc "ref")) as [r |] eqn:Hr.
  - split; [apply (join_reply_with_ref _ _ _ _ _ _ Hd Hj Hr) |]. split.
    + intros Hk. unfold exec at 1.
      rewrite (join_reply_with_ref _ _ _ _ _ _ Hd Hj Hr).
      apply join_reply_bindings, Hk.
    + intros f Hf Hq. unfold exec.
      rewrite (join_reply_with_ref _ _ _ _ _ _ Hd Hj Hr).
      change (((bind_topic topic r;; notify_channelJoined cbs topic r) w).2)
        with (exec (notify_channelJoined cbs topic r) (exec (bind_topic topic r) w)).
      rewrite (notify_channelJoined_calls cbs f) by assumption.
      reflexivity.
  - unfold exec. rewrite (join_reply_without_ref_run _ _ _ _ _ Hd Hj Hr).
    reflexivity.
Qed.

Lemma observers_keep_bindings : callback_keeps_bindings observers.
Proof. intros f Hf t r w. injection Hf as <-. reflexivity. Qed.

Lemma observers_not_reentrant : callback_not_reentrant observers.
Proof. intros f Hf t r w. injection Hf as <-. reflexivity. Qed.

Lemma join_reply_with_ref_7_ok : is_join_ok_reply join_reply_with_ref_7 "realtime:cmds".
Proof. repeat split. Qed.

Lemma join_reply_binds_the_ref_it_carries_witness :
  let w := receiving "frame" join_reply_with_ref_7 in
  let w' := exec (webSocketEvent observers WStype_TEXT "frame") w in
  is_join_ok_reply join_reply_with_ref_7 "realtime:cmds"
  /\ _topicJoinRefs (client w')
     = <["realtime:cmds" := "7"]> (_topicJoinRefs (client w))
  /\ joined_calls (trace w') = joined_calls (trace w) ++ [("realtime:cmds", "7")].
Proof.
  intros w w'. split; [exact join_reply_with_ref_7_ok |].
  pose proof (join_reply_binds_the_ref_it_carries observers "frame"
                join_reply_with_ref_7 "realtime:cmds" w eq_refl
                join_reply_with_ref_7_ok) as H.
  cbn [join_reply_with_ref_7 Json.as_cstr Json.doc_get Json.at_key Json.member
       Json.as_object Json.get String.eqb Ascii.eqb Bool.eqb] in H.
  destruct H as (_ & Hbound & Hcalls).
  split; [exact (Hbound observers_keep_bindings) |].
  exact (Hcalls _ eq_refl observers_not_reentrant).
Defined.

(** The example of the specification: the reply with ref "7". *)
Example join_reply_7_is_bound :
  let w' := exec (webSocketEvent observers WStype_TEXT "frame")
                 (receiving "frame" join_reply_with_ref_7) in
  _topicJoinRefs (client w') !! "realtime:cmds" = Some "7"
  /\ trace w' = [EvCallback (OnChannelJoined "realtime:cmds" "7")].
Proof. vm_compute. split; reflexivity. Qed.

(** Claim C3 fails for a reply without [ref]: no join reference is
    stored for the topic, neither the empty string nor anything else. *)
Lemma join_reply_without_ref_binds_nothing :
  let w' := exec (webSocketEvent observers WStype_TEXT "frame")
                 (receiving "frame" join_reply_without_ref) in
  _topicJoinRefs (client w') !! "realtime:cmds" = None
  /\ _topicJoinRefs (client w') !! "realtime:cmds" <> Some EmptyString.
Proof. vm_compute. split; [reflexivity | discriminate]. Qed.

(** Claim C9 on the code.  The reply with ref "7" of the specification
    is acted on once.  The first pass over the frame (lines 277-296) is
    written to store the reference and call the channel-joined callback
    as well, but it tests for the [status] member with
    [is<JsonVariant>()] on the read-only payload, which is false for
    every payload; on mutable documents (lines 505, 552, 555) the same
    test tells whether the member is there.  So the first pass does
    nothing, and the second pass (lines 306-313) stores the reference
    and calls the callback: one call, one write. *)
Theorem join_reply_is_handled_once :
  let w := receiving "frame" join_reply_with_ref_7 in
  let jsonPayload := Json.as_object (Json.doc_get join_reply_with_ref_7 "payload") in
  let w' := exec (webSocketEvent observers WStype_TEXT "frame") w in
  status_branch observers (Some "realtime:cmds") (Some "phx_reply") jsonPayload
    (Some "7") w = (tt, w)
  /\ dispatch_branch observers (Some "realtime:cmds") (Some "phx_reply") jsonPayload
       (Some "7") w
     = (bind_topic "realtime:cmds" "7";;
        notify_channelJoined observers "realtime:cmds" "7") w
  /\ trace w' = [EvCallback (OnChannelJoined "realtime:cmds" "7")]
  /\ joined_calls (trace w') = [("realtime:cmds", "7")]
  /\ _topicJoinRefs (client w') !! "realtime:cmds" = Some "7".
Proof. vm_compute. repeat split; reflexivity. Qed.

(** ** JSON objects *)

Lemma get_set_eq key value o : Json.get key (Json.set key value o) = Some value.
Proof.
  induction o as [| [k v] o IH]; cbn.
  - rewrite String.eqb_refl. reflexivity.
  - destruct (String.eqb k key) eqn:E; cbn; rewrite E; [reflexivity | exact IH].
Qed.

Lemma get_set_ne key key' value o :
  key <> key' -> Json.get key' (Json.set key value o) = Json.get key' o.
Proof.
  intros Hne. induction o as [| [k v] o IH]; cbn.
  - destruct (String.eqb_spec key key'); [contradiction | reflexivity].
  - destruct (String.eqb_spec k key) as [-> | Hk]; cbn.
    + destruct (String.eqb_spec key key'); [contradiction | reflexivity].
    + destruct (String.eqb_spec k key'); [reflexivity | exact IH].
Qed.

Lemma get_absent key (o : JsonObject) :
  ~ In key (map fst o) -> Json.get key o = None.
Proof.
  induction o as [| [k v] o IH]; cbn; intros H; [reflexivity |].
  destruct (String.eqb_spec k key) as [-> | Hk]; [tauto |].
  apply IH. tauto.
Qed.

Lemma get_fold_set members base key :
  distinct_keys members ->
  Json.get key (fold_left (fun reply kvp => Json.set (fst kvp) (snd kvp) reply)
                          members base)
  = match Json.get key members with
    | Some v => Some v
    | None => Json.get key base
    end.
Proof.
  unfold distinct_keys. revert base.
  induction members as [| [k v] members IH]; intros base Hd; cbn; [reflexivity |].
  apply NoDup_cons in Hd. destruct Hd as [Hk Hd].
  rewrite IH by exact Hd.
  destruct (String.eqb_spec k key) as [-> | Hne].
  - rewrite get_absent, get_set_eq; [reflexivity |].
    intros Hin. apply Hk. apply list_elem_of_In. exact Hin.
  - rewrite get_set_ne by exact Hne. reflexivity.
Qed.

Lemma copy_custom_fields_fold custom replyData :
  copy_custom_fields custom replyData
  = fold_left (fun reply kvp => Json.set (fst kvp) (snd kvp) reply)
              (custom_fields custom) replyData.
Proof. destruct custom; reflexivity. Qed.

Lemma append_nonempty s c t : String.eqb (s +:+ String c t) EmptyString = false.
Proof. destruct s; reflexivity. Qed.

(** The reply after a handler ran, member by member. *)
Lemma handler_reply_members commandType success custom :
  let reply := handler_reply commandType success custom in
  fst reply = commandType +:+ (if success then "_ACK" else "_ERROR")
  /\ Json.get "status" (snd reply)
     = Some (JStr (if success then "success" else "error"))
  /\ (distinct_keys (custom_fields custom) ->
      forall key,
        key <> "status" ->
        Json.get key (snd reply)
        = match Json.get key (custom_fields custom) with
          | Some v => Some v
          | None =>
              if String.eqb key "original_command" then Some (JStr commandType)
              else if String.eqb key "message" && negb success
                   then Some (JStr "Command execution failed on device.")
                   else None
          end).
Proof.
  intros reply. subst reply. unfold handler_reply.
  rewrite copy_custom_fields_fold.
  set (copied := fold_left _ (custom_fields custom) _).
  assert (Hcopied : distinct_keys (custom_fields custom) -> forall key,
             Json.get key copied
             = match Json.get key (custom_fields custom) with
               | Some v => Some v
               | None => if String.eqb key "original_command"
                         then Some (JStr commandType) else None
               end).
  { intros Hd key. subst copied. rewrite get_fold_set by exact Hd.
    destruct (Json.get key (custom_fields custom)); [reflexivity |].
    cbn [Json.set Json.get]. rewrite String.eqb_sym. reflexivity. }
  destruct success; cbn [fst snd].
  - split; [reflexivity |]. split; [apply get_set_eq |].
    intros Hd key Hkey. rewrite get_set_ne by congruence.
    rewrite Hcopied by exact Hd. rewrite andb_false_r. reflexivity.
  - split; [reflexivity |]. split.
    + destruct (negb _); [rewrite get_set_ne by discriminate |]; apply get_set_eq.
    + intros Hd key Hkey.
      assert (Hmsg : Json.get "message" (Json.set "status" (JStr "error") copied)
                     = Json.get "message" (custom_fields custom)).
      { rewrite get_set_ne by discriminate. rewrite Hcopied by exact Hd.
        destruct (Json.get "message" (custom_fields custom)); reflexivity. }
      rewrite Hmsg, andb_true_r.
      destruct (String.eqb_spec key "message") as [-> | Hne].
      * destruct (Json.get "message" (custom_fields custom)) as [m |] eqn:Hm;
          cbn [Json.is_variant negb].
        -- rewrite get_set_ne by discriminate. rewrite Hcopied, Hm by exact Hd.
           reflexivity.
        -- rewrite get_set_eq. reflexivity.
      * rewrite <- (Hcopied Hd key).
        destruct (negb _); rewrite ?get_set_ne by congruence; reflexivity.
Qed.

(** ** The dispatcher *)

Lemma actualCommandType_run event payload w :
  actualCommandType event payload w = (command_type_of w event payload, w).
Proof.
  unfold command_type_of, result, actualCommandType, as_String.
  destruct (is_nested_broadcast payload); reflexivity.
Qed.

Lemma handleBroadcastCommand_other_topic d topic event payload w :
  topic <> deviceChannel -> handleBroadcastCommand d topic event payload w = (tt, w).
Proof.
  intros H. unfold handleBroadcastCommand.
  destruct (String.eqb_spec topic deviceChannel); [contradiction | reflexivity].
Qed.

Lemma handleBroadcastCommand_dropped d event payload w :
  targets_other_device d (actualPayload payload) = true ->
  handleBroadcastCommand d deviceChannel event payload w = (tt, w).
Proof.
  intros H. unfold handleBroadcastCommand. cbn [String.eqb negb].
  rewrite String.eqb_refl. cbn [negb].
  rewrite bind_run, actualCommandType_run. cbn [fst snd]. rewrite H. reflexivity.
Qed.

Lemma handleBroadcastCommand_processed d event payload w :
  targets_other_device d (actualPayload payload) = false ->
  handleBroadcastCommand d deviceChannel event payload w
  = execute_command d deviceChannel (command_type_of w event payload)
      (actualPayload payload) w.
Proof.
  intros H. unfold handleBroadcastCommand. rewrite String.eqb_refl. cbn [negb].
  rewrite bind_run, actualCommandType_run. cbn [fst snd]. rewrite H. reflexivity.
Qed.

Lemma send_reply_run topic replyEvent replyData w :
  String.eqb replyEvent EmptyString = false ->
  send_reply topic (replyEvent, replyData) w
  = (tt, exec (broadcast dewab_onError topic replyEvent (JObj replyData)) w).
Proof. intros H. unfold send_reply. cbn [fst snd]. rewrite H. reflexivity. Qed.

Lemma reply_goes_out topic replyEvent replyData joinRef w :
  _connected (client w) = true ->
  _topicJoinRefs (client w) !! topic = Some joinRef ->
  serialize_next w = true -> accept_next w = true ->
  let frame := reply_frame w topic replyEvent replyData joinRef in
  trace (exec (broadcast dewab_onError topic replyEvent (JObj replyData)) w)
  = trace w ++ [EvSerialize frame true; EvSendTXT frame true].
Proof.
  intros Hc Hj Hs Ha frame. unfold exec.
  rewrite (broadcast_sent _ _ _ _ _ _ Hc Hj Hs Ha). reflexivity.
Qed.

(** The dispatcher never unwraps: the tests of lines 463-464 for the
    [event] and [payload] members are false for every payload. *)
Lemma is_nested_broadcast_false payload : is_nested_broadcast payload = false.
Proof.
  unfold is_nested_broadcast, Json.is_variant_const.
  rewrite !andb_false_r. reflexivity.
Qed.

Lemma command_type_of_event w event payload : command_type_of w event payload = event.
Proof.
  unfold command_type_of, result, actualCommandType.
  rewrite is_nested_broadcast_false. reflexivity.
Qed.

Lemma actualPayload_same payload : actualPayload payload = payload.
Proof. unfold actualPayload. rewrite is_nested_broadcast_false. reflexivity. Qed.

Lemma handleBroadcastCommand_run d event payload w :
  handleBroadcastCommand d deviceChannel event payload w
  = if targets_other_device d payload then (tt, w)
    else execute_command d deviceChannel event payload w.
Proof.
  destruct (targets_other_device d payload) eqn:H.
  - apply handleBroadcastCommand_dropped. rewrite actualPayload_same. exact H.
  - rewrite handleBroadcastCommand_processed by (rewrite actualPayload_same; exact H).
    rewrite command_type_of_event, actualPayload_same. reflexivity.
Qed.

(** A payload passes the filter of lines 473-478 unless it names, in a
    string, another device. *)
Lemma passes_filter d payload :
  (forall name, Json.member payload "target_device_name" = Some (JStr name) ->
                name = _deviceName d) ->
  targets_other_device d payload = false.
Proof.
  intros H. unfold targets_other_device.
  destruct (Json.member payload "target_device_name") as [[| | | | name | |] |];
    cbn; rewrite ?andb_false_r; try reflexivity.
  rewrite (H name eq_refl), String.eqb_refl. cbn. apply andb_false_r.
Qed.

(** Claim C4 fails for a command addressed to another device: "SET_LED"
    has a registered handler on the board named "esp32-2", but the command
    names "esp32-1", so the board neither calls the handler nor replies.
    It also fails for a handler that writes [original_command] and
    [status] itself: its fields are copied over the [original_command]
    of the reply, and its [status] is overwritten. *)
Lemma registered_command_counterexamples :
  (let w' := exec (handleBroadcastCommand esp32_2 deviceChannel "SET_LED"
                     set_led_payload) joined_world in
   is_Some (_registeredCommands esp32_2 !! "SET_LED")
   /\ trace w' = []
   /\ w' = joined_world)
  /\ (let w' := exec (handleBroadcastCommand esp32_own_fields deviceChannel "SET_LED"
                        set_led_payload) joined_world in
      handed_over (trace w')
      = [JObj [("topic", JStr deviceChannel); ("event", JStr "broadcast");
               ("payload",
                 JObj [("type", JStr "broadcast"); ("event", JStr "SET_LED_ACK");
                       ("payload",
                         JObj [("original_command", JStr "LED");
                               ("status", JStr "success")])]);
               ("ref", JStr "1"); ("join_ref", JStr "5")]]).
Proof.
  vm_compute. split; [| reflexivity].
  split; [eexists; reflexivity |]. split; reflexivity.
Qed.

(** Claim C4, as the code has it.  A command on the device channel that
    reaches the dispatcher without a second broadcast envelope around
    it, that passes the device filter and whose type has a registered
    handler: the dispatcher calls the handler with the payload and then
    calls [broadcast] exactly once, on the same topic, with event
    [<type>_ACK] when the handler returned success and [<type>_ERROR]
    otherwise.  The reply payload has [status] "success" or "error"
    accordingly; every other member the handler supplied, with the
    handler's value; [original_command] = [<type>] unless the handler
    supplied a member of that name itself; on error, [message] =
    "Command execution failed on device." when the handler supplied no
    [message]; and nothing else.  On a connected client that has joined
    the topic, with working collaborators, that call puts exactly one
    frame on the transport, the broadcast envelope of the reply. *)
Theorem registered_command_is_answered (d : Dewab) (commandType : string)
    (payload : JsonObjectConst) (handler : SpecificCommandHandler) (w : World) :
  let topic := deviceChannel in
  wrapped_again payload = false ->
  (forall name, Json.member payload "target_device_name" = Some (JStr name) ->
                name = _deviceName d) ->
  _registeredCommands d !! commandType = Some handler ->
  let called := exec (emit (EvCommandHandler commandType payload)) w in
  let success := fst (result (handler payload JNull) called) in
  let custom := snd (result (handler payload JNull) called) in
  let handled := exec (handler payload JNull) called in
  let replyEvent := commandType +:+ (if success then "_ACK" else "_ERROR") in
  exists replyData,
    handleBroadcastCommand d topic commandType payload w
    = (tt, exec (broadcast dewab_onError topic replyEvent (JObj replyData)) handled)
    /\ Json.get "status" replyData
       = Some (JStr (if success then "success" else "error"))
    /\ (distinct_keys (custom_fields custom) ->
        forall key, key <> "status" ->
        Json.get key replyData
        = match Json.get key (custom_fields custom) with
          | Some v => Some v
          | None =>
              if String.eqb key "original_command" then Some (JStr commandType)
              else if String.eqb key "message" && negb success
                   then Some (JStr "Command execution failed on device.")
                   else None
          end)
    /\ (forall joinRef,
          _connected (client handled) = true ->
          _topicJoinRefs (client handled) !! topic = Some joinRef ->
          serialize_next handled = true -> accept_next handled = true ->
          let frame :=
            JObj [("topic", JStr topic); ("event", JStr "broadcast");
                  ("payload",
                    JObj [("type", JStr "broadcast"); ("event", JStr replyEvent);
                          ("payload", JObj replyData)]);
                  ("ref", JStr (String_of_uint (counter handled)));
                  ("join_ref", JStr joinRef)] in
          trace (exec (handleBroadcastCommand d topic commandType payload) w)
          = trace handled ++ [EvSerialize frame true; EvSendTXT frame true]).
Proof.
  cbv zeta. intros _ Hfilter Hlookup.
  apply passes_filter in Hfilter.
  set (called := exec (emit (EvCommandHandler commandType payload)) w).
  set (out := result (handler payload JNull) called).
  set (handled := exec (handler payload JNull) called).
  pose proof (handler_reply_members commandType (fst out) (snd out))
    as (Hev & Hst & Hmem).
  exists (snd (handler_reply commandType (fst out) (snd out))).
  assert (E : handleBroadcastCommand d deviceChannel commandType payload w
              = (tt, exec (broadcast dewab_onError deviceChannel
                             (commandType +:+ (if fst out then "_ACK" else "_ERROR"))
                             (JObj (snd (handler_reply commandType (fst out) (snd out)))))
                          handled)).
  { rewrite handleBroadcastCommand_run, Hfilter.
    unfold execute_command.
    unfold SpecificCommandHandler in *. rewrite Hlookup.
    rewrite !bind_run.
    rewrite (surjective_pairing (handler_reply _ _ _)).
    rewrite send_reply_run.
    - rewrite <- Hev. reflexivity.
    - change (String.eqb (fst (handler_reply commandType (fst out) (snd out)))
                         EmptyString = false).
      rewrite Hev. destruct (fst out); apply append_nonempty. }
  split; [exact E |]. split; [exact Hst |]. split; [exact Hmem |].
  intros joinRef Hc Hj Hs Ha. unfold exec at 1. rewrite E.
  apply reply_goes_out; assumption.
Qed.

(** The examples of the specification: the inbound broadcast that
    carries "SET_LED" for "esp32-1", from the frame to the reply. *)
Example set_led_is_acknowledged :
  let w' := exec (webSocketEvent (dewab_callbacks esp32_1) WStype_TEXT "command")
                 (joined_receiving "command" (broadcast_frame set_led_command)) in
  let reply := JObj [("original_command", JStr "SET_LED"); ("led", JStr "on");
                     ("status", JStr "success")] in
  let frame := broadcast_doc deviceChannel "SET_LED_ACK" reply "1" "5" in
  trace w'
  = [EvCallback (OnBroadcast deviceChannel "SET_LED" set_led_payload);
     EvCommandHandler "SET_LED" set_led_payload;
     EvSerialize frame true; EvSendTXT frame true].
Proof. vm_compute. reflexivity. Qed.

Lemma registered_command_is_answered_witness :
  let w := joined_world in
  let w' := exec (handleBroadcastCommand esp32_1 deviceChannel "SET_LED"
                    set_led_payload) w in
  exists replyData,
    Json.get "status" replyData = Some (JStr "success")
    /\ Json.get "led" replyData = Some (JStr "on")
    /\ Json.get "original_command" replyData = Some (JStr "SET_LED")
    /\ trace w'
       = [EvCommandHandler "SET_LED" set_led_payload;
          EvSerialize (broadcast_doc deviceChannel "SET_LED_ACK" (JObj replyData)
                         "1" "5") true;
          EvSendTXT (broadcast_doc deviceChannel "SET_LED_ACK" (JObj replyData)
                       "1" "5") true].
Proof.
  intros w w'.
  destruct (registered_command_is_answered esp32_1 "SET_LED" set_led_payload
              led_handler w eq_refl)
    as (replyData & _ & Hst & Hmem & Hframe).
  - intros name [= <-]. reflexivity.
  - reflexivity.
  - exists replyData.
    assert (Hd : distinct_keys [("led", JStr "on")]) by apply NoDup_singleton.
    split; [exact Hst |].
    split; [exact (Hmem Hd "led" ltac:(discriminate)) |].
    split; [exact (Hmem Hd "original_command" ltac:(discriminate)) |].
    exact (Hframe "5" eq_refl eq_refl eq_refl eq_refl).
Defined.

(** Claim C5 on the code.  A "PING" command that reaches the dispatcher
    inside a second broadcast envelope is not unwrapped.  Lines 462-468
    are written to unwrap it ("Check if it's a nested broadcast
    payload"), but they test for the [event] and [payload] members with
    [is<JsonVariant>()] on the read-only payload, which is false for
    every payload.  The dispatcher goes on with the outer event: the
    board answers "broadcast_ERROR" with [original_command] "broadcast",
    where the claim has "PING_ERROR" and "PING".  A "PING" that is not
    wrapped again is answered as the claim says. *)
Theorem wrapped_ping_is_not_unwrapped :
  let reply type :=
    JObj [("status", JStr "error");
          ("message", JStr "Unknown command type or no handler registered on device.");
          ("original_command", JStr type)] in
  let frame event type :=
    JObj [("topic", JStr deviceChannel); ("event", JStr "broadcast");
          ("payload",
            JObj [("type", JStr "broadcast"); ("event", JStr event);
                  ("payload", reply type)]);
          ("ref", JStr "1"); ("join_ref", JStr "5")] in
  let twice_wrapped :=
    Some [("type", JStr "broadcast"); ("event", JStr "broadcast");
          ("payload",
            JObj [("type", JStr "broadcast"); ("event", JStr "PING");
                  ("payload", JObj [])])] in
  wrapped_again wrapped_ping = true
  /\ _registeredCommands esp32_1 !! "PING" = None
  /\ handed_over
       (trace (exec (handleBroadcastCommand esp32_1 deviceChannel "broadcast"
                       wrapped_ping) joined_world))
     = [frame "broadcast_ERROR" "broadcast"]
  /\ handed_over
       (trace (exec (webSocketEvent (dewab_callbacks esp32_1) WStype_TEXT "command")
                    (joined_receiving "command" (broadcast_frame twice_wrapped))))
     = [frame "broadcast_ERROR" "broadcast"]
  /\ handed_over
       (trace (exec (handleBroadcastCommand esp32_1 deviceChannel "PING" (Some []))
                    joined_world))
     = [frame "PING_ERROR" "PING"].
Proof. vm_compute. repeat split; reflexivity. Qed.

(** Claim C6, as the code has it.  The filter looks at a
    [target_device_name] member only when its value is a string.  A
    command on the device channel that reaches the dispatcher without a
    second broadcast envelope around it and whose payload names, in a
    string, a device other than this one is dropped: the world is
    unchanged, so no handler ran and nothing was sent.  A command that
    names this device, or whose payload has no [target_device_name] or
    one that is not a string, is processed as usual: the handler of its
    type is looked up and the reply sent. *)
Theorem command_for_other_device_is_dropped (d : Dewab) (commandType : string)
    (payload : JsonObjectConst) (w : World) :
  let topic := deviceChannel in
  let target := Json.member payload "target_device_name" in
  let process := execute_command d topic commandType payload in
  wrapped_again payload = false ->
  (forall name, target = Some (JStr name) -> name <> _deviceName d ->
     handleBroadcastCommand d topic commandType payload w = (tt, w))
  /\ (forall name, target = Some (JStr name) -> name = _deviceName d ->
        handleBroadcastCommand d topic commandType payload w = process w)
  /\ (Json.as_cstr target = None ->
        handleBroadcastCommand d topic commandType payload w = process w).
Proof.
  intros topic target process _. subst topic process.
  split; [| split].
  - intros name Ht Hne. rewrite handleBroadcastCommand_run.
    unfold targets_other_device. fold target. rewrite Ht.
    destruct payload; [| discriminate Ht]. cbn.
    destruct (String.eqb_spec name (_deviceName d)); [contradiction | reflexivity].
  - intros name Ht ->. rewrite handleBroadcastCommand_run.
    unfold targets_other_device. fold target. rewrite Ht.
    cbn. rewrite String.eqb_refl, andb_false_r. reflexivity.
  - intros Ht. rewrite handleBroadcastCommand_run.
    unfold targets_other_device. fold target. rewrite Ht.
    rewrite andb_false_r. reflexivity.
Qed.

Lemma command_for_other_device_is_dropped_witness :
  handleBroadcastCommand esp32_2 deviceChannel "SET_LED" set_led_payload
                         joined_world
  = (tt, joined_world).
Proof.
  exact (proj1 (command_for_other_device_is_dropped esp32_2 "SET_LED"
                  set_led_payload joined_world eq_refl)
               "esp32-1" eq_refl ltac:(discriminate)).
Defined.

(** Claim C6 fails for a [target_device_name] that is not a string: the
    member is there and does not equal the device's name, yet the
    command is processed and answered. *)
Lemma numeric_target_is_not_filtered :
  let payload := Some [("target_device_name", JInt 42)] in
  let w' := exec (handleBroadcastCommand esp32_1 deviceChannel "PING" payload)
                 joined_world in
  Json.member payload "target_device_name" = Some (JInt 42)
  /\ handed_over (trace w')
     = [broadcast_doc deviceChannel "PING_ERROR"
          (JObj [("status", JStr "error");
                 ("message",
                   JStr "Unknown command type or no handler registered on device.");
                 ("original_command", JStr "PING")])
          "1" "5"].
Proof. vm_compute. split; reflexivity. Qed.

(** ** A session of the whole library *)

(** [begin], then one [loop] in which the transport reports the open
    connection, the reply to the join and a command.  The engine sends a
    heartbeat, a join and the command's acknowledgement, with references
    1, 2 and 3. *)
Example session_of_esp32_1 :
  let w := exec (begin esp32_1 true;;
                 Dewab_loop esp32_1 true
                   [(WStype_CONNECTED, "/"); (WStype_TEXT, "join-reply");
                    (WStype_TEXT, "command")]) session_start in
  drawn_refs (trace w) = [Some "1"; Some "2"; Some "3"]
  /\ transmitted_refs (trace w) = [Some "1"; Some "2"; Some "3"]
  /\ _topicJoinRefs (client w) !! deviceChannel = Some "2"
  /\ joined_calls (trace w) = [(deviceChannel, "2")]
  /\ last (transmitted (trace w))
     = Some (broadcast_doc deviceChannel "SET_LED_ACK"
               (JObj [("original_command", JStr "SET_LED"); ("led", JStr "on");
                      ("status", JStr "success")])
               "3" "2").
Proof. vm_compute. repeat split; reflexivity. Qed.

(** * More properties *)

(** ** State construction helpers *)

Lemma set_set_eq key v1 v2 o : Json.set key v2 (Json.set key v1 o) = Json.set key v2 o.
Proof.
  induction o as [| [k v] o IH]; cbn.
  - rewrite String.eqb_refl. reflexivity.
  - destruct (String.eqb k key) eqn:E; cbn; rewrite E; [reflexivity |].
    rewrite IH. reflexivity.
Qed.

Lemma state_add_read category name value doc :
  doc = JNull \/ (exists members, doc = JObj members) ->
  state_get (state_add category name value doc) category name = Some value.
Proof.
  unfold state_get, Json.doc_get, Json.at_key, Json.member, Json.as_object.
  intros [-> | [members ->]]; cbn.
  - rewrite !String.eqb_refl. cbn. rewrite String.eqb_refl. reflexivity.
  - destruct (Json.get category members) as [[| | | | | | cat] |];
      cbn; rewrite get_set_eq; cbn;
      rewrite ?get_set_eq, ?String.eqb_refl; reflexivity.
Qed.

Lemma state_add_other_category category name value doc other :
  category <> other ->
  Json.doc_get (state_add category name value doc) other = Json.doc_get doc other.
Proof.
  intros Hne. unfold Json.doc_get, Json.at_key. destruct doc; cbn; try reflexivity.
  - destruct (String.eqb_spec category other); [contradiction | reflexivity].
  - destruct (Json.get category members) as [[| | | | | | cat] |];
      cbn; rewrite get_set_ne by exact Hne; reflexivity.
Qed.

Lemma state_add_other_name category name value doc other :
  name <> other -> Json.is_object (Json.doc_get doc category) = true ->
  state_get (state_add category name value doc) category other
  = state_get doc category other.
Proof.
  intros Hne Hobj. unfold state_get, Json.doc_get, Json.at_key in *.
  destruct doc; cbn in *; try discriminate.
  destruct (Json.get category members) as [[| | | | | | cat] |];
    cbn in *; try discriminate.
  rewrite get_set_eq. cbn. apply get_set_ne, Hne.
Qed.

(** Property X1.  What a state helper stores can be read back: on an empty
    document or an object, after [stateAddInt], [stateAddBool],
    [stateAddString], [stateAddAnalogPin] or [stateAddDigitalPin],
    [doc[category][name]] is the value given, the pin's reading, or the
    pin's level, inverted when [activeLow] is set. *)
Theorem state_helpers_read_back doc category name :
  doc = JNull \/ (exists members, doc = JObj members) ->
  (forall value,
      state_get (stateAddInt doc category name value) category name
      = Some (JInt value))
  /\ (forall value,
        state_get (stateAddBool doc category name value) category name
        = Some (JBool value))
  /\ (forall value,
        state_get (stateAddString doc category name value) category name
        = Some (JStr value))
  /\ (forall analogRead pin,
        state_get (stateAddAnalogPin analogRead doc category name pin) category name
        = Some (JInt (analogRead pin)))
  /\ (forall digitalRead pin activeLow,
        state_get (stateAddDigitalPin digitalRead doc category name pin activeLow)
                  category name
        = Some (JBool (xorb activeLow (negb (Z.eqb (digitalRead pin) 0))))).
Proof.
  intros Hdoc. repeat split; intros; apply state_add_read; exact Hdoc.
Qed.

Lemma state_helpers_read_back_witness :
  state_get (stateAddInt (stateAddBool JNull "leds" "red" true)
               "sensors" "light" 512%Z) "sensors" "light"
  = Some (JInt 512%Z).
Proof.
  refine (proj1 (state_helpers_read_back
                   (stateAddBool JNull "leds" "red" true) "sensors" "light" _) 512%Z).
  right. eexists. reflexivity.
Defined.

(** Property X2.  A state helper touches one entry only: every other category of
    the document is as before, and so is every other name of the
    category it writes to, provided that category was an object. *)
Theorem state_helpers_keep_other_entries doc category name value :
  (forall other, category <> other ->
     Json.doc_get (state_add category name value doc) other
     = Json.doc_get doc other)
  /\ (forall other, name <> other ->
        Json.is_object (Json.doc_get doc category) = true ->
        state_get (state_add category name value doc) category other
        = state_get doc category other)
  /\ (forall other otherName, category <> other ->
        state_get (state_add category name value doc) other otherName
        = state_get doc other otherName).
Proof.
  split; [| split].
  - intros other. apply state_add_other_category.
  - intros other. apply state_add_other_name.
  - intros other otherName Hne. unfold state_get.
    rewrite state_add_other_category by exact Hne. reflexivity.
Qed.

Lemma state_helpers_keep_other_entries_witness :
  let doc := stateAddInt (stateAddBool JNull "leds" "red" true)
                         "sensors" "light" 512%Z in
  state_get (stateAddInt doc "sensors" "sound" 3%Z) "sensors" "light"
  = Some (JInt 512%Z)
  /\ state_get (stateAddInt doc "sensors" "sound" 3%Z) "leds" "red"
     = Some (JBool true).
Proof.
  intros doc.
  destruct (state_helpers_keep_other_entries doc "sensors" "sound" (JInt 3%Z))
    as (_ & Hname & Hcat).
  split.
  - unfold stateAddInt at 1. rewrite (Hname "light"); [reflexivity | | reflexivity].
    discriminate.
  - unfold stateAddInt at 1. rewrite (Hcat "leds" "red"); [reflexivity |].
    discriminate.
Defined.

(** Property X3.  Where a state helper loses data.  A category that holds
    anything but an object is reset: what it held is gone and the
    category is the object with the one new entry.  A document that
    holds anything but null or an object is returned as it was: the
    value is not stored. *)
Theorem state_helpers_lose_data category name value :
  (forall members old,
      Json.get category members = Some old ->
      Json.is_object (Some old) = false ->
      Json.doc_get (state_add category name value (JObj members)) category
      = Some (JObj [(name, value)]))
  /\ (forall doc,
        doc <> JNull -> Json.is_object (Some doc) = false ->
        state_add category name value doc = doc).
Proof.
  split.
  - intros members old Hget Hobj. cbn. rewrite Hget.
    unfold Json.doc_get, Json.at_key.
    destruct old; cbn in *; try discriminate; apply get_set_eq.
  - intros doc Hnull Hobj. destruct doc; cbn in *; try reflexivity.
    + contradiction.
    + discriminate.
Qed.

Lemma state_helpers_lose_data_witness :
  Json.doc_get (stateAddBool (JObj [("leds", JInt 3%Z)]) "leds" "red" true) "leds"
  = Some (JObj [("red", JBool true)])
  /\ stateAddBool (JArr [JInt 1%Z]) "leds" "red" true = JArr [JInt 1%Z].
Proof.
  destruct (state_helpers_lose_data "leds" "red" (JBool true)) as [Hreset Hlost].
  split.
  - exact (Hreset [("leds", JInt 3%Z)] (JInt 3%Z) eq_refl eq_refl).
  - apply Hlost; [discriminate | reflexivity].
Defined.

(** Property X4.  Writing the same entry twice keeps the last value and adds no
    second member: the document is the one the second write alone would
    have given. *)
Theorem state_helpers_last_write_wins category name first second doc :
  state_add category name second (state_add category name first doc)
  = state_add category name second doc.
Proof.
  destruct doc; cbn; try reflexivity.
  - rewrite !String.eqb_refl. cbn. rewrite String.eqb_refl. reflexivity.
  - destruct (Json.get category members) as [[| | | | | | cat] |] eqn:Hget;
      cbn; rewrite get_set_eq, !set_set_eq; cbn;
      rewrite ?String.eqb_refl, ?set_set_eq; reflexivity.
Qed.

(** ** What the engine leaves alone *)

Section Keeps.

Context {X : Type} (R : relation X) (p : Client -> X).
Context (Rrefl : forall x, R x x).
Context (Rtrans : forall x y z, R x y -> R y z -> R x z).

Lemma keeps_ret {A} (a : A) : keeps R p (ret a).
Proof using Rrefl. intros w. apply Rrefl. Qed.

Lemma keeps_bind {A B} (m : M A) (k : A -> M B) :
  keeps R p m -> (forall a, keeps R p (k a)) -> keeps R p (bind m k).
Proof using Rtrans.
  intros Hm Hk w. unfold exec, bind. eapply Rtrans; [apply Hm | apply Hk].
Qed.

Lemma keeps_gets {A} (f : World -> A) : keeps R p (gets f).
Proof using Rrefl. intros w. apply Rrefl. Qed.

Lemma keeps_emit e : keeps R p (emit e).
Proof using Rrefl. intros w. apply Rrefl. Qed.

Lemma keeps_millis : keeps R p millis.
Proof using Rrefl. intros w. apply Rrefl. Qed.

Lemma keeps_serializeJson doc : keeps R p (serializeJson doc).
Proof using Rrefl. intros w. apply Rrefl. Qed.

Lemma keeps_sendTXT doc : keeps R p (sendTXT doc).
Proof using Rrefl. intros w. apply Rrefl. Qed.

Lemma keeps_as_String v : keeps R p (as_String v).
Proof using Rrefl. intros w. apply Rrefl. Qed.

Lemma keeps_isConnected : keeps R p isConnected.
Proof using Rrefl. intros w. apply Rrefl. Qed.

Lemma keeps_modify_client f :
  (forall c, R (p c) (p (f c))) -> keeps R p (modify_client f).
Proof. intros Hf w. apply Hf. Qed.

(** The members every send operation writes: the counter and the time
    of the last heartbeat. *)
Context (Hcounter : forall n c, R (p c) (p (set_messageRefCounter n c))).
Context (Hlast : forall t c, R (p c) (p (set_lastHeartbeatSent t c))).

Create HintDb keeps.

#[local] Hint Resolve keeps_ret keeps_gets keeps_emit keeps_millis
  keeps_serializeJson keeps_sendTXT keeps_as_String keeps_isConnected
  keeps_modify_client : keeps.

Ltac keeps_step :=
  match goal with
  | |- keeps _ _ _ => solve [eauto with keeps]
  | |- keeps _ _ (bind _ _) => apply keeps_bind; [| intros ?]
  | |- keeps _ _ (if ?b then _ else _) => destruct b
  | |- keeps _ _ (match ?o with _ => _ end) => destruct o eqn:?
  end.

Ltac keeps_all := repeat keeps_step.

Lemma keeps_getNextMessageRef : keeps R p getNextMessageRef.
Proof using Rrefl Rtrans Hcounter. unfold getNextMessageRef. keeps_all. Qed.

#[local] Hint Resolve keeps_getNextMessageRef : keeps.

Section Slot.

Context (onError : option (string -> M unit)).
Context (HonError : forall f, onError = Some f -> forall m, keeps R p (f m)).

Lemma keeps_report_error message : keeps R p (report_error onError message).
Proof using Rrefl Rtrans HonError.
  unfold report_error. destruct onError as [f |] eqn:E; keeps_all.
Qed.

#[local] Hint Resolve keeps_report_error : keeps.

Lemma keeps_connect : keeps R p (connect onError).
Proof using Rrefl Rtrans HonError. unfold connect. keeps_all. Qed.

Lemma keeps_sendHeartbeat : keeps R p (sendHeartbeat onError).
Proof using Rrefl Rtrans HonError Hcounter Hlast. unfold sendHeartbeat. keeps_all. Qed.

Lemma keeps__joinChannel topic : keeps R p (_joinChannel onError topic).
Proof using Rrefl Rtrans HonError Hcounter. unfold _joinChannel. keeps_all. Qed.

#[local] Hint Resolve keeps__joinChannel : keeps.

Lemma keeps_joinChannel topic : keeps R p (joinChannel onError topic).
Proof using Rrefl Rtrans HonError Hcounter. unfold joinChannel. keeps_all. Qed.

Lemma keeps_broadcast topic event payload :
  keeps R p (broadcast onError topic event payload).
Proof using Rrefl Rtrans HonError Hcounter. unfold broadcast. keeps_all. Qed.

End Slot.

#[local] Hint Resolve keeps_report_error keeps_connect keeps_sendHeartbeat
  keeps_joinChannel keeps_broadcast : keeps.

Section Slots.

Context (cbs : Callbacks) (Hcbs : callbacks_keep R p cbs).

Lemma keeps_onError :
  forall f, _errorCallback cbs = Some f -> forall m, keeps R p (f m).
Proof using Hcbs. destruct Hcbs as (_ & _ & He & _). exact He. Qed.

#[local] Hint Resolve keeps_onError : keeps.

Lemma keeps_notify_connected : keeps R p (notify_connected cbs).
Proof using Rrefl Rtrans Hcbs.
  destruct Hcbs as (Hc & _).
  unfold notify_connected. destruct (_connectedCallback cbs) eqn:E; keeps_all.
Qed.

Lemma keeps_notify_disconnected : keeps R p (notify_disconnected cbs).
Proof using Rrefl Rtrans Hcbs.
  destruct Hcbs as (_ & Hd & _).
  unfold notify_disconnected. destruct (_disconnectedCallback cbs) eqn:E; keeps_all.
Qed.

Lemma keeps_notify_channelJoined topic joinRef :
  keeps R p (notify_channelJoined cbs topic joinRef).
Proof using Rrefl Rtrans Hcbs.
  destruct Hcbs as (_ & _ & _ & _ & Hj).
  unfold notify_channelJoined. destruct (_channelJoinedCallback cbs) eqn:E; keeps_all.
Qed.

Lemma keeps_heartbeat_check : keeps R p (heartbeat_check cbs).
Proof using Rrefl Rtrans Hcbs Hcounter Hlast. unfold heartbeat_check. keeps_all. Qed.

#[local] Hint Resolve keeps_notify_connected keeps_notify_disconnected
  keeps_notify_channelJoined keeps_heartbeat_check : keeps.

Lemma keeps_broadcast_branch callback topic event jsonPayload :
  _broadcastCallback cbs = Some callback ->
  keeps R p (broadcast_branch callback topic event jsonPayload).
Proof using Rrefl Rtrans Hcbs.
  destruct Hcbs as (_ & _ & _ & Hb & _).
  intros E. unfold broadcast_branch. keeps_all.
Qed.

Lemma keeps_join_failure_reason jsonPayload :
  keeps R p (join_failure_reason jsonPayload).
Proof using Rrefl. unfold join_failure_reason. keeps_all. Qed.

#[local] Hint Resolve keeps_broadcast_branch keeps_join_failure_reason : keeps.

(** An inbound text frame writes the bindings and nothing else. *)
Lemma keeps_on_text payloadArg :
  (forall t r c, R (p c) (p (set_topicJoinRef t r c))) ->
  keeps R p (on_text cbs payloadArg).
Proof using Rrefl Rtrans Hcbs.
  intros Hbind.
  assert (Hb : forall t r, keeps R p (bind_topic t r)).
  { intros t r. apply keeps_modify_client, Hbind. }
  unfold on_text, status_branch, dispatch_branch. keeps_all.
Qed.

(** The connection events write the connected flag, the counter and the
    time of the last heartbeat. *)
Lemma keeps_webSocketEvent type payloadArg :
  (type = WStype_TEXT -> forall t r c, R (p c) (p (set_topicJoinRef t r c))) ->
  (type = WStype_CONNECTED \/ type = WStype_DISCONNECTED ->
   forall b c, R (p c) (p (set_connected b c))) ->
  keeps R p (webSocketEvent cbs type payloadArg).
Proof using Rrefl Rtrans Hcbs Hcounter Hlast.
  intros Htext Hconn.
  destruct type; cbn [webSocketEvent]; try solve [keeps_all].
  apply keeps_on_text, Htext. reflexivity.
Qed.

(** What [case WStype_CONNECTED] does after it has set the flag. *)
Lemma keeps_connected_tail :
  keeps R p (now <- millis ;;
             modify_client (set_lastHeartbeatSent now);;
             modify_client (set_messageRefCounter 1);;
             sendHeartbeat (_errorCallback cbs);;
             notify_connected cbs).
Proof using Rrefl Rtrans Hcbs Hcounter Hlast. keeps_all. Qed.

Lemma keeps_perform_all (ok : Step -> Prop) steps :
  (forall s, ok s -> keeps R p (perform cbs s)) ->
  Forall ok steps -> keeps R p (perform_all cbs steps).
Proof using Rrefl Rtrans.
  intros Hok Hsteps. induction Hsteps as [| s rest Hs _ IH]; cbn [perform_all].
  - apply keeps_ret.
  - apply keeps_bind; [apply Hok, Hs | intros _; exact IH].
Qed.

Lemma keeps_perform_no_text s :
  (forall b c, R (p c) (p (set_connected b c))) ->
  no_text_frame R p s -> keeps R p (perform cbs s).
Proof using Rrefl Rtrans Hcbs Hcounter Hlast.
  intros Hconn Hs. destruct s; cbn [perform]; try solve [keeps_all].
  apply keeps_webSocketEvent; [| intros _; exact Hconn].
  intros ->. destruct Hs.
Qed.

Lemma keeps_perform_no_connection s :
  (forall t r c, R (p c) (p (set_topicJoinRef t r c))) ->
  no_connection_event R p s -> keeps R p (perform cbs s).
Proof using Rrefl Rtrans Hcbs Hcounter Hlast.
  intros Hbind Hs. destruct s; cbn [perform]; try solve [keeps_all].
  apply keeps_webSocketEvent; [intros _; exact Hbind |].
  intros [-> | ->]; destruct Hs.
Qed.

Lemma keeps_perform_any s :
  (forall t r c, R (p c) (p (set_topicJoinRef t r c))) ->
  (forall b c, R (p c) (p (set_connected b c))) ->
  any_step R p s -> keeps R p (perform cbs s).
Proof using Rrefl Rtrans Hcbs Hcounter Hlast.
  intros Hbind Hconn Hs. destruct s; cbn [perform]; try solve [keeps_all].
  apply keeps_webSocketEvent; intros _; assumption.
Qed.

End Slots.

Lemma observers_keep : callbacks_keep R p observers.
Proof using Rrefl.
  repeat split; cbn; intros f [= <-]; intros; apply keeps_ret.
Qed.

(** The wiring of [Dewab::begin] keeps what the application's handlers
    keep. *)
Lemma dewab_callbacks_keep d :
  handlers_keep R p d -> callbacks_keep R p (dewab_callbacks d).
Proof using Rrefl Rtrans Hcounter.
  intros [Hprovider Hhandlers].
  assert (Herr : forall f, dewab_onError = Some f -> forall m, keeps R p (f m)).
  { intros f [= <-] m. apply keeps_ret. }
  assert (Hstate : forall reason, keeps R p (broadcastCurrentState d reason)).
  { intros reason. unfold broadcastCurrentState.
    destruct (_stateProvider d) as [provider |] eqn:E; keeps_all. }
  assert (Hreply : forall topic reply, keeps R p (send_reply topic reply)).
  { intros topic reply. unfold send_reply. keeps_all. }
  repeat split; cbn; intros f [= <-]; intros.
  - unfold handleSupabaseConnected. keeps_all.
  - apply keeps_ret.
  - apply keeps_ret.
  - unfold handleBroadcastCommand, actualCommandType, execute_command. keeps_all.
  - unfold handleSupabaseChannelJoined. keeps_all.
Qed.

End Keeps.

Lemma never_unbinds_refl m : never_unbinds m m.
Proof. intros topic H. exact H. Qed.

Lemma never_unbinds_trans m1 m2 m3 :
  never_unbinds m1 m2 -> never_unbinds m2 m3 -> never_unbinds m1 m3.
Proof. intros H12 H23 topic H. apply H23, H12, H. Qed.

Lemma never_unbinds_insert topic ref (m : gmap string string) :
  never_unbinds m (<[topic := ref]> m).
Proof.
  intros other H. destruct (decide (topic = other)) as [<- | Hne].
  - rewrite lookup_insert_eq. eexists. reflexivity.
  - rewrite lookup_insert_ne by exact Hne. exact H.
Qed.

Lemma esp32_1_handlers_keep {X} (R : relation X) (p : Client -> X) :
  (forall x, R x x) -> handlers_keep R p esp32_1.
Proof.
  intros Rrefl. split.
  - intros provider H. discriminate.
  - intros commandType handler H payload doc.
    unfold esp32_1, registerCommand in H. cbn in H.
    apply lookup_insert_Some in H.
    destruct H as [[_ <-] | [_ H]]; [apply keeps_ret, Rrefl |].
    rewrite lookup_empty in H. discriminate.
Qed.

(** Property X5.  The join references change on inbound text frames only.
    Connection and disconnection events, transport errors, keep-alive
    checks, [connect], [joinChannel] and [broadcast], in any number and
    order, leave [_topicJoinRefs] as it was, as long as the callbacks
    and the application's own code do: a join request binds nothing, and
    losing the connection unbinds nothing. *)
Theorem bindings_change_on_text_frames_only cbs steps w :
  callbacks_keep eq _topicJoinRefs cbs ->
  Forall (no_text_frame eq _topicJoinRefs) steps ->
  _topicJoinRefs (client (exec (perform_all cbs steps) w))
  = _topicJoinRefs (client w).
Proof.
  intros Hcbs Hsteps. symmetry.
  apply (keeps_perform_all eq _topicJoinRefs) with (ok := no_text_frame eq _topicJoinRefs);
    try assumption; try congruence.
  intros s Hs. apply keeps_perform_no_text; try assumption; try congruence;
    intros; reflexivity.
Qed.

Lemma bindings_change_on_text_frames_only_witness :
  _topicJoinRefs (client (exec (perform_all (dewab_callbacks esp32_1)
      [StepEvent WStype_DISCONNECTED "/"; StepEvent WStype_CONNECTED "/";
       StepHeartbeatCheck; StepJoinChannel "realtime:room";
       StepBroadcast deviceChannel "PING" JNull; StepEvent WStype_ERROR "reset"])
    joined_world))
  = _topicJoinRefs (client joined_world).
Proof.
  apply bindings_change_on_text_frames_only.
  - apply dewab_callbacks_keep; try congruence; try (intros; reflexivity).
    apply esp32_1_handlers_keep. reflexivity.
  - repeat constructor.
Defined.

(** Property X6.  No topic is ever unbound.  Whatever the client goes through,
    text frames and connection events included, a topic that has a join
    reference keeps one: the engine only ever adds to [_topicJoinRefs]
    or overwrites an entry. *)
Theorem topic_is_never_unbound cbs steps w topic :
  callbacks_keep never_unbinds _topicJoinRefs cbs ->
  Forall (any_step never_unbinds _topicJoinRefs) steps ->
  is_Some (_topicJoinRefs (client w) !! topic) ->
  is_Some (_topicJoinRefs (client (exec (perform_all cbs steps) w)) !! topic).
Proof.
  intros Hcbs Hsteps.
  apply (keeps_perform_all never_unbinds _topicJoinRefs)
    with (ok := any_step never_unbinds _topicJoinRefs);
    try assumption;
    try apply never_unbinds_refl; try apply never_unbinds_trans.
  intros s Hs.
  apply keeps_perform_any; try assumption;
    try apply never_unbinds_refl; try apply never_unbinds_trans;
    try (intros; apply never_unbinds_refl).
  intros t r c. apply never_unbinds_insert.
Qed.

Lemma topic_is_never_unbound_witness :
  is_Some (_topicJoinRefs (client (exec (perform_all (dewab_callbacks esp32_1)
      [StepEvent WStype_DISCONNECTED "/"; StepEvent WStype_TEXT "garbage";
       StepEvent WStype_CONNECTED "/"; StepEvent WStype_TEXT "more garbage"])
    joined_world)) !! deviceChannel).
Proof.
  apply topic_is_never_unbound.
  - apply dewab_callbacks_keep;
      try apply never_unbinds_refl; try apply never_unbinds_trans;
      try (intros; apply never_unbinds_refl).
    apply esp32_1_handlers_keep. apply never_unbinds_refl.
  - repeat constructor.
  - eexists. reflexivity.
Defined.

(** Property X7.  The connected flag follows the transport's connection events
    and nothing else.  Text frames, a [WStype_ERROR] event, keep-alive
    checks and the three calls of the interface, whether their sends
    succeed or not, leave [_connected] as it was: a transport that
    refuses every frame does not make the client consider itself
    disconnected. *)
Theorem connected_flag_follows_connection_events cbs steps w :
  callbacks_keep eq _connected cbs ->
  Forall (no_connection_event eq _connected) steps ->
  _connected (client (exec (perform_all cbs steps) w)) = _connected (client w).
Proof.
  intros Hcbs Hsteps. symmetry.
  apply (keeps_perform_all eq _connected) with (ok := no_connection_event eq _connected);
    try assumption; try congruence.
  intros s Hs. apply keeps_perform_no_connection; try assumption; try congruence;
    intros; reflexivity.
Qed.

Lemma connected_flag_follows_connection_events_witness :
  _connected (client (exec (perform_all (dewab_callbacks esp32_1)
      [StepEvent WStype_ERROR "reset"; StepEvent WStype_TEXT "garbage";
       StepHeartbeatCheck; StepBroadcast deviceChannel "PING" JNull])
    joined_world))
  = _connected (client joined_world).
Proof.
  apply connected_flag_follows_connection_events.
  - apply dewab_callbacks_keep; try congruence; try (intros; reflexivity).
    apply esp32_1_handlers_keep. reflexivity.
  - repeat constructor.
Defined.

Lemma connected_event_sets_flag cbs payloadArg w :
  callbacks_keep eq _connected cbs ->
  _connected (client (exec (webSocketEvent cbs WStype_CONNECTED payloadArg) w)) = true.
Proof.
  intros Hcbs. cbn [webSocketEvent]. rewrite exec_bind.
  assert (Htail : keeps eq _connected
                    (now <- millis ;;
                     modify_client (set_lastHeartbeatSent now);;
                     modify_client (set_messageRefCounter 1);;
                     sendHeartbeat (_errorCallback cbs);;
                     notify_connected cbs)).
  { apply keeps_connected_tail; try assumption; try congruence;
      intros; reflexivity. }
  unfold keeps in Htail. rewrite <- Htail. reflexivity.
Qed.

(** Property X8.  A reconnection does not forget the channels.  After the
    transport reported the connection lost and then open again, a
    broadcast on a topic joined during the earlier connection is sent
    right away, without a new join, and carries the join reference of
    the earlier connection. *)
Theorem broadcast_after_reconnect_uses_old_join_ref
    cbs topic joinRef event payload lost opened w :
  callbacks_keep eq _topicJoinRefs cbs ->
  callbacks_keep eq _connected cbs ->
  _topicJoinRefs (client w) !! topic = Some joinRef ->
  let w' := exec (perform_all cbs [StepEvent WStype_DISCONNECTED lost;
                                   StepEvent WStype_CONNECTED opened]) w in
  serialize_next w' = true -> accept_next w' = true ->
  let frame :=
    broadcast_doc topic event payload (String_of_uint (counter w')) joinRef in
  broadcast (_errorCallback cbs) topic event payload w'
  = (true, after_draw w' [EvSerialize frame true; EvSendTXT frame true] 1 1).
Proof.
  intros Hbind Hconn Hj w' Hs Ha frame.
  apply broadcast_sent; try assumption.
  - subst w'. cbn [perform_all perform]. rewrite !exec_bind.
    apply connected_event_sets_flag, Hconn.
  - rewrite <- Hj. f_equal. subst w'. symmetry.
    apply (keeps_perform_all eq _topicJoinRefs)
      with (ok := no_text_frame eq _topicJoinRefs);
      try congruence; [| repeat constructor].
    intros s Hstep. apply keeps_perform_no_text; try assumption; try congruence;
      intros; reflexivity.
Qed.

Lemma broadcast_after_reconnect_uses_old_join_ref_witness :
  let w' := exec (perform_all observers [StepEvent WStype_DISCONNECTED "/";
                                          StepEvent WStype_CONNECTED "/"])
                 joined_world in
  let frame := broadcast_doc deviceChannel "PING" JNull "2" "5" in
  broadcast (_errorCallback observers) deviceChannel "PING" JNull w'
  = (true, after_draw w' [EvSerialize frame true; EvSendTXT frame true] 1 1).
Proof.
  intros w' frame.
  apply (broadcast_after_reconnect_uses_old_join_ref
           observers deviceChannel "5" "PING" JNull "/" "/" joined_world).
  - apply observers_keep. reflexivity.
  - apply observers_keep. reflexivity.
  - reflexivity.
  - reflexivity.
  - reflexivity.
Defined.

(** ** Inbound frames that are not accepted join replies *)

(** The first pass over a frame (lines 277-296) does not act on these
    frames. *)
Lemma status_branch_idle cbs topic event jsonPayload msgRef w :
  cstr_is event "phx_reply" = false
  \/ topic = None
  \/ (exists t, topic = Some t /\ has_realtime_prefix t = false)
  \/ Json.eq_str (Json.member jsonPayload "status") "ok" = false ->
  status_branch cbs topic event jsonPayload msgRef w = (tt, w).
Proof. intros _. apply status_branch_never_acts. Qed.

Lemma cstr_is_same s : cstr_is (Some s) s = true.
Proof. apply String.eqb_refl. Qed.

Lemma phoenix_has_no_realtime_prefix : has_realtime_prefix "phoenix" = false.
Proof. reflexivity. Qed.

(** Property X9.  A join reply whose status is not "ok" binds nothing
    and calls no channel-joined callback: the frame is answered with
    one error report, "Join failed for <topic>: unknown reason".  The
    reason the server gave is never reported: line 315 tests for
    [payload.response] and its [reason] with [is<JsonVariant>()] on the
    read-only payload, and that test is false whatever the reply
    holds. *)
Theorem rejected_join_reply_is_reported cbs payloadArg doc topic w :
  deserializeJson (ext w) payloadArg = inr doc ->
  Json.as_cstr (Json.doc_get doc "topic") = Some topic ->
  has_realtime_prefix topic = true ->
  Json.as_cstr (Json.doc_get doc "event") = Some "phx_reply" ->
  let jsonPayload := Json.as_object (Json.doc_get doc "payload") in
  Json.eq_str (Json.member jsonPayload "status") "ok" = false ->
  webSocketEvent cbs WStype_TEXT payloadArg w
  = report_error (_errorCallback cbs)
      ((("Join failed for " +:+ topic) +:+ ": ") +:+ "unknown reason") w.
Proof.
  intros Hd Ht Hp He jsonPayload Hok.
  rewrite (on_text_parsed _ _ _ _ Hd), Ht, He, bind_run.
  fold jsonPayload.
  rewrite status_branch_idle by (right; right; right; exact Hok).
  cbn [fst snd]. unfold dispatch_branch.
  rewrite (realtime_is_not_phoenix _ Hp), Hp, cstr_is_same, Hok, andb_false_r.
  cbn [andb]. rewrite bind_run. reflexivity.
Qed.

Lemma rejected_join_reply_is_reported_witness :
  let doc :=
    JObj [("topic", JStr "realtime:room"); ("event", JStr "phx_reply");
          ("payload", JObj [("status", JStr "error");
                            ("response", JObj [("reason", JStr "unauthorized")])]);
          ("ref", JStr "2")] in
  let w := receiving "reply" doc in
  webSocketEvent observers WStype_TEXT "reply" w
  = report_error (_errorCallback observers)
      "Join failed for realtime:room: unknown reason" w.
Proof.
  intros doc w.
  apply (rejected_join_reply_is_reported observers "reply" doc "realtime:room" w);
    reflexivity.
Defined.

(** Property X10.  The server's reply to a heartbeat changes nothing.  With
    status "ok" the frame leaves the client and the trace as they were;
    with any other status, or without a payload, the one thing that
    happens is the error report "Phoenix reply not OK.".  In neither
    case is the time of the last heartbeat, the connected flag or a
    binding written by the engine. *)
Theorem heartbeat_reply_changes_nothing cbs payloadArg doc w :
  deserializeJson (ext w) payloadArg = inr doc ->
  Json.as_cstr (Json.doc_get doc "topic") = Some "phoenix" ->
  Json.as_cstr (Json.doc_get doc "event") = Some "phx_reply" ->
  let jsonPayload := Json.as_object (Json.doc_get doc "payload") in
  webSocketEvent cbs WStype_TEXT payloadArg w
  = if Json.eq_str (Json.member jsonPayload "status") "ok"
    then (tt, w)
    else report_error (_errorCallback cbs) "Phoenix reply not OK." w.
Proof.
  intros Hd Ht He jsonPayload.
  rewrite (on_text_parsed _ _ _ _ Hd), Ht, He, bind_run.
  fold jsonPayload.
  rewrite status_branch_idle
    by (right; right; left; eexists; split;
        [reflexivity | exact phoenix_has_no_realtime_prefix]).
  cbn [fst snd]. unfold dispatch_branch.
  rewrite String.eqb_refl, cstr_is_same. cbn [andb].
  destruct jsonPayload as [members |]; cbn [Json.truthy andb];
    [destruct (Json.eq_str _ _) |]; reflexivity.
Qed.

Lemma heartbeat_reply_changes_nothing_witness :
  let doc :=
    JObj [("topic", JStr "phoenix"); ("event", JStr "phx_reply");
          ("payload", JObj [("status", JStr "ok"); ("response", JObj [])]);
          ("ref", JStr "1")] in
  let w := receiving "reply" doc in
  webSocketEvent observers WStype_TEXT "reply" w = (tt, w).
Proof.
  intros doc w.
  apply (heartbeat_reply_changes_nothing observers "reply" doc w); reflexivity.
Defined.

(** Property X11.  The frames and events the engine drops.  Transport events
    other than the four handled ones do nothing.  A text frame does
    nothing at all, no callback and no error report, when it has no
    string topic; when its event is missing or is neither "phx_reply"
    nor "broadcast" (a "phx_close" or "phx_error" from the server, for
    one, leaves the topic bound); when it is a "phx_reply" on a topic
    that is neither "phoenix" nor starts with "realtime:"; and when it
    is a broadcast while no broadcast callback is registered.  A frame
    that does not parse gives the error report and nothing else. *)
Theorem dropped_frames cbs w :
  (forall type payloadArg,
      type <> WStype_DISCONNECTED -> type <> WStype_CONNECTED ->
      type <> WStype_TEXT -> type <> WStype_ERROR ->
      webSocketEvent cbs type payloadArg w = (tt, w))
  /\ (forall payloadArg error,
        deserializeJson (ext w) payloadArg = inl error ->
        webSocketEvent cbs WStype_TEXT payloadArg w
        = report_error (_errorCallback cbs)
            ("JSON Deserialization failed: " +:+ error) w)
  /\ (forall payloadArg doc,
        deserializeJson (ext w) payloadArg = inr doc ->
        let topic := Json.as_cstr (Json.doc_get doc "topic") in
        let event := Json.as_cstr (Json.doc_get doc "event") in
        topic = None
        \/ (cstr_is event "phx_reply" = false /\ cstr_is event "broadcast" = false)
        \/ (event = Some "phx_reply" /\ topic <> Some "phoenix"
            /\ forall t, topic = Some t -> has_realtime_prefix t = false)
        \/ (event = Some "broadcast" /\ _broadcastCallback cbs = None) ->
        webSocketEvent cbs WStype_TEXT payloadArg w = (tt, w)).
Proof.
  split; [| split].
  - intros type payloadArg H1 H2 H3 H4. destruct type; try reflexivity; contradiction.
  - intros payloadArg error Hd. cbn [webSocketEvent]. unfold on_text.
    rewrite bind_run. cbn [gets fst snd]. rewrite Hd. reflexivity.
  - intros payloadArg doc Hd topic event H.
    rewrite (on_text_parsed _ _ _ _ Hd), bind_run. fold topic event.
    destruct H as [Ht | [[Hr Hb] | [(He & Hph & Hrt) | [He Hcb]]]].
    + rewrite Ht. rewrite status_branch_idle by (right; left; reflexivity).
      reflexivity.
    + rewrite status_branch_idle by (left; exact Hr).
      cbn [fst snd]. unfold dispatch_branch.
      destruct topic as [t |]; [| reflexivity].
      rewrite Hr, !andb_false_r.
      destruct event as [e |]; [| reflexivity].
      cbn [cstr_is] in Hb. rewrite Hb.
      destruct (_broadcastCallback cbs); reflexivity.
    + destruct topic as [t |] eqn:Et.
      * rewrite status_branch_idle
          by (right; right; left; eexists; split; [reflexivity | apply Hrt; reflexivity]).
        cbn [fst snd]. unfold dispatch_branch.
        rewrite (Hrt t eq_refl), He.
        destruct (String.eqb_spec t "phoenix") as [-> | Hne]; [contradiction |].
        cbn [andb].
        change (String.eqb "phx_reply" "broadcast") with false.
        destruct (_broadcastCallback cbs); reflexivity.
      * rewrite status_branch_idle by (right; left; reflexivity). reflexivity.
    + rewrite status_branch_idle by (left; rewrite He; reflexivity).
      cbn [fst snd]. unfold dispatch_branch.
      destruct topic as [t |]; [| reflexivity].
      rewrite He, Hcb.
      change (cstr_is (Some "broadcast") "phx_reply") with false.
      rewrite !andb_false_r. reflexivity.
Qed.

Lemma dropped_frames_witness :
  let doc :=
    JObj [("topic", JStr deviceChannel); ("event", JStr "phx_close");
          ("payload", JObj []); ("ref", JStr "5")] in
  let w := receiving "closed" doc in
  webSocketEvent observers WStype_TEXT "closed" w = (tt, w).
Proof.
  intros doc w.
  refine (proj2 (proj2 (dropped_frames observers w)) "closed" doc eq_refl _).
  right. left. split; reflexivity.
Defined.

Lemma on_text_broadcast cbs callback payloadArg doc topic w :
  deserializeJson (ext w) payloadArg = inr doc ->
  Json.as_cstr (Json.doc_get doc "topic") = Some topic ->
  Json.as_cstr (Json.doc_get doc "event") = Some "broadcast" ->
  _broadcastCallback cbs = Some callback ->
  webSocketEvent cbs WStype_TEXT payloadArg w
  = broadcast_branch callback topic "broadcast"
      (Json.as_object (Json.doc_get doc "payload")) w.
Proof.
  intros Hd Ht He Hcb.
  rewrite (on_text_parsed _ _ _ _ Hd), Ht, He, bind_run.
  rewrite status_branch_idle by (left; reflexivity).
  cbn [fst snd]. unfold dispatch_branch.
  change (cstr_is (Some "broadcast") "phx_reply") with false.
  rewrite !andb_false_r, Hcb. reflexivity.
Qed.

(** Property X12.  An inbound broadcast is delivered once, after one unwrapping
    at most.  When the payload is itself a broadcast envelope, with
    type "broadcast", a string event and an object payload, the
    callback gets the inner event and the inner payload; when the
    payload is missing, its event is not a string, its payload is not
    an object or its type is another string, the callback gets the
    outer event name "broadcast" and the payload as it came.  The topic
    is not looked at: any topic is delivered, joined or not. *)
Theorem inbound_broadcast_is_delivered cbs callback payloadArg doc topic w :
  deserializeJson (ext w) payloadArg = inr doc ->
  Json.as_cstr (Json.doc_get doc "topic") = Some topic ->
  Json.as_cstr (Json.doc_get doc "event") = Some "broadcast" ->
  _broadcastCallback cbs = Some callback ->
  let jsonPayload := Json.as_object (Json.doc_get doc "payload") in
  let deliver event payload :=
    (emit (EvCallback (OnBroadcast topic event payload));;
     callback topic event payload) w in
  (forall userEvent userPayload,
      Json.member jsonPayload "type" = Some (JStr "broadcast") ->
      Json.member jsonPayload "event" = Some (JStr userEvent) ->
      Json.member jsonPayload "payload" = Some (JObj userPayload) ->
      webSocketEvent cbs WStype_TEXT payloadArg w
      = deliver userEvent (Some userPayload))
  /\ (Json.is_cstr (Json.member jsonPayload "event") = false
      \/ Json.is_object (Json.member jsonPayload "payload") = false
      \/ (exists type, Json.member jsonPayload "type" = Some (JStr type)
                       /\ type <> "broadcast") ->
      webSocketEvent cbs WStype_TEXT payloadArg w
      = deliver "broadcast" jsonPayload).
Proof.
  intros Hd Ht He Hcb jsonPayload deliver.
  rewrite (on_text_broadcast cbs callback payloadArg doc topic w Hd Ht He Hcb).
  fold jsonPayload. unfold broadcast_branch, deliver. split.
  - intros userEvent userPayload Hty Hev Hpl.
    rewrite bind_run, Hty, Hev, Hpl.
    destruct jsonPayload as [members |]; [| discriminate].
    reflexivity.
  - intros H. rewrite bind_run.
    destruct H as [H | [H | (type & Hty & Hne)]].
    + rewrite H, andb_false_r. reflexivity.
    + rewrite H, andb_false_r. reflexivity.
    + rewrite Hty. cbn [as_String gets fst snd].
      destruct (String.eqb_spec type "broadcast") as [-> | _]; [contradiction |].
      rewrite andb_false_r. reflexivity.
Qed.

Lemma inbound_broadcast_is_delivered_witness :
  let doc :=
    JObj [("topic", JStr "realtime:room"); ("event", JStr "broadcast");
          ("payload", JObj [("type", JStr "broadcast"); ("event", JStr "SET_LED");
                            ("payload", JObj [("on", JBool true)])]);
          ("ref", JNull)] in
  let w := receiving "message" doc in
  webSocketEvent observers WStype_TEXT "message" w
  = (emit (EvCallback (OnBroadcast "realtime:room" "SET_LED"
                         (Some [("on", JBool true)])));;
     ret tt) w.
Proof.
  intros doc w.
  refine (proj1 (inbound_broadcast_is_delivered
                   observers (fun _ _ _ => ret tt) "message" doc "realtime:room" w
                   eq_refl eq_refl eq_refl eq_refl)
            "SET_LED" [("on", JBool true)] eq_refl eq_refl eq_refl).
Defined.

(** ** Registration and dispatch of commands *)

(** Property X13.  What [registerCommand] leaves in the handler table.  A
    registration with a non-empty type replaces whatever handler the
    type had, so a command of that type then runs the handler given
    last; every other type keeps its handler.  A registration with the
    empty type or a null handler changes nothing.  The empty type
    therefore never gets a handler, and a command whose type is empty
    is answered as an unknown command. *)
Theorem registerCommand_table d commandType handler :
  (forall h topic payload,
      handler = Some h -> commandType <> EmptyString ->
      execute_command (registerCommand commandType handler d) topic commandType payload
      = (emit (EvCommandHandler commandType payload);;
         outcome <- h payload JNull ;;
         send_reply topic (handler_reply commandType (fst outcome) (snd outcome))))
  /\ (forall other,
        other <> commandType ->
        _registeredCommands (registerCommand commandType handler d) !! other
        = _registeredCommands d !! other)
  /\ (handler = None \/ commandType = EmptyString ->
      registerCommand commandType handler d = d)
  /\ (_registeredCommands d !! EmptyString = None ->
      forall topic payload,
        execute_command (registerCommand commandType handler d) topic EmptyString payload
        = send_reply topic (unknown_command_reply EmptyString)).
Proof.
  split; [| split; [| split]].
  - intros h topic payload -> Hne. unfold registerCommand, execute_command.
    destruct (String.eqb_spec commandType EmptyString); [contradiction |].
    cbn [_registeredCommands]. rewrite lookup_insert_eq. reflexivity.
  - intros other Hne. unfold registerCommand.
    destruct handler as [h |]; [| reflexivity].
    destruct (String.eqb commandType EmptyString); [reflexivity |].
    cbn [_registeredCommands]. apply lookup_insert_ne. congruence.
  - intros [-> | ->]; [reflexivity |]. unfold registerCommand.
    destruct handler; reflexivity.
  - intros Hempty topic payload. unfold registerCommand, execute_command.
    unfold SpecificCommandHandler in *.
    destruct handler as [h |]; [| rewrite Hempty; reflexivity].
    destruct (String.eqb_spec commandType EmptyString) as [-> | Hne].
    + rewrite Hempty. reflexivity.
    + cbn [_registeredCommands]. rewrite lookup_insert_ne by exact Hne.
      rewrite Hempty. reflexivity.
Qed.

Lemma registerCommand_table_witness :
  execute_command (registerCommand "SET_LED" (Some led_handler) esp32_1)
                  deviceChannel "SET_LED" None
  = (emit (EvCommandHandler "SET_LED" None);;
     outcome <- led_handler None JNull ;;
     send_reply deviceChannel (handler_reply "SET_LED" (fst outcome) (snd outcome))).
Proof.
  refine (proj1 (registerCommand_table esp32_1 "SET_LED" (Some led_handler))
            led_handler deviceChannel None eq_refl _).
  discriminate.
Defined.

(** Property X14.  The dispatcher never unwraps a second envelope.
    Lines 463-464 test for the [event] and [payload] members of the
    payload with [is<JsonVariant>()] on a read-only handle, which is
    false for every payload, so lines 465-467 never run: the command
    type is always the event handed over, and the filter, the handler
    and the reply always go by the payload handed over, also when that
    payload is a broadcast envelope once more. *)
Theorem second_envelope_is_never_unwrapped d topic event payload w :
  actualCommandType event payload w = (event, w)
  /\ actualPayload payload = payload
  /\ handleBroadcastCommand d topic event payload w
     = if negb (String.eqb topic deviceChannel) then (tt, w)
       else if targets_other_device d payload then (tt, w)
       else execute_command d topic event payload w.
Proof.
  split; [| split].
  - rewrite actualCommandType_run, command_type_of_event. reflexivity.
  - apply actualPayload_same.
  - destruct (String.eqb_spec topic deviceChannel) as [-> | Hne]; cbn [negb].
    + apply handleBroadcastCommand_run.
    + apply handleBroadcastCommand_other_topic, Hne.
Qed.

(** ** State reports *)

Lemma doc_get_doc_set key value doc other :
  doc = JNull \/ (exists members, doc = JObj members) ->
  Json.doc_get (Json.doc_set key value doc) other
  = if String.eqb key other then Some value else Json.doc_get doc other.
Proof.
  unfold Json.doc_get, Json.at_key, Json.member, Json.as_object.
  intros [-> | [members ->]]; cbn [Json.doc_set].
  - cbn. destruct (String.eqb key other); reflexivity.
  - destruct (String.eqb_spec key other) as [<- | Hne].
    + apply get_set_eq.
    + apply get_set_ne, Hne.
Qed.

Lemma doc_set_shape key value doc :
  doc = JNull \/ (exists members, doc = JObj members) ->
  exists members, Json.doc_set key value doc = JObj members.
Proof. intros [-> | [members ->]]; eexists; reflexivity. Qed.

(** Property X15.  [broadcastCurrentState] asks the provider only when it can
    send.  On a client that is not connected, or without a provider, it
    does nothing and the provider is not called.  Otherwise the
    provider fills an empty document, and one broadcast of
    "ARDUINO_STATE_UPDATE" goes to the device channel.  In its payload
    every member the provider wrote is as the provider wrote it;
    [device_name] and [reason] are added only where the provider left
    them out.  A provider that leaves an array or a scalar in the
    document gets no defaults added. *)
Theorem state_report d reason :
  (forall w, _connected (client w) = false \/ _stateProvider d = None ->
             broadcastCurrentState d reason w = (tt, w))
  /\ (forall w provider,
        _connected (client w) = true -> _stateProvider d = Some provider ->
        let asked := exec (emit EvStateProvider) w in
        let stateDoc := result (provider JNull) asked in
        broadcastCurrentState d reason w
        = (tt, exec (broadcast dewab_onError deviceChannel "ARDUINO_STATE_UPDATE"
                       (state_with_defaults d reason stateDoc))
                    (exec (provider JNull) asked)))
  /\ (forall stateDoc key,
        stateDoc = JNull \/ (exists members, stateDoc = JObj members) ->
        Json.doc_get (state_with_defaults d reason stateDoc) key
        = match Json.doc_get stateDoc key with
          | Some value => Some value
          | None =>
              if String.eqb key "device_name" then Some (JStr (_deviceName d))
              else if String.eqb key "reason" then Some (JStr reason)
              else None
          end)
  /\ (forall stateDoc,
        stateDoc <> JNull -> Json.is_object (Some stateDoc) = false ->
        state_with_defaults d reason stateDoc = stateDoc).
Proof.
  split; [| split; [| split]].
  - intros w [Hc | Hp]; unfold broadcastCurrentState; rewrite bind_run;
      unfold isConnected; cbn [gets fst snd].
    + rewrite Hc. reflexivity.
    + rewrite Hp. destruct (_connected (client w)); reflexivity.
  - intros w provider Hc Hp asked stateDoc.
    unfold broadcastCurrentState. rewrite bind_run.
    unfold isConnected. cbn [gets fst snd]. rewrite Hc, Hp. cbn [negb].
    reflexivity.
  - intros stateDoc key Hshape. unfold state_with_defaults.
    destruct (Json.doc_get stateDoc "device_name") as [name |] eqn:Hname;
      cbn [Json.is_variant negb].
    + destruct (Json.doc_get stateDoc "reason") as [r |] eqn:Hreason;
        cbn [Json.is_variant negb].
      * destruct (Json.doc_get stateDoc key) eqn:Hkey; [reflexivity |].
        destruct (String.eqb_spec key "device_name") as [-> | _]; [congruence |].
        destruct (String.eqb_spec key "reason") as [-> | _]; [congruence |].
        reflexivity.
      * rewrite doc_get_doc_set by exact Hshape.
        destruct (String.eqb_spec "reason" key) as [<- | Hne].
        -- rewrite Hreason. reflexivity.
        -- destruct (Json.doc_get stateDoc key) eqn:Hkey; [reflexivity |].
           destruct (String.eqb_spec key "device_name") as [-> | _]; [congruence |].
           destruct (String.eqb_spec key "reason") as [-> | _]; [congruence |].
           reflexivity.
    + destruct (doc_set_shape "device_name" (JStr (_deviceName d)) stateDoc Hshape)
        as [members Hset].
      rewrite (doc_get_doc_set "device_name" _ stateDoc "reason" Hshape).
      change (String.eqb "device_name" "reason") with false. cbn iota.
      destruct (Json.doc_get stateDoc "reason") as [r |] eqn:Hreason;
        cbn [Json.is_variant negb].
      * rewrite doc_get_doc_set by exact Hshape.
        destruct (String.eqb_spec "device_name" key) as [<- | Hne].
        -- rewrite Hname. reflexivity.
        -- destruct (Json.doc_get stateDoc key) eqn:Hkey; [reflexivity |].
           destruct (String.eqb_spec key "device_name") as [-> | _]; [congruence |].
           destruct (String.eqb_spec key "reason") as [-> | _]; [congruence |].
           reflexivity.
      * rewrite doc_get_doc_set by (right; exists members; exact Hset).
        rewrite doc_get_doc_set by exact Hshape.
        destruct (String.eqb_spec "reason" key) as [<- | Hne].
        -- change (String.eqb "device_name" "reason") with false. cbn iota.
           rewrite Hreason. reflexivity.
        -- destruct (String.eqb_spec "device_name" key) as [<- | Hne'].
           ++ rewrite Hname. reflexivity.
           ++ destruct (Json.doc_get stateDoc key) eqn:Hkey; [reflexivity |].
              destruct (String.eqb_spec key "device_name") as [-> | _]; [congruence |].
              destruct (String.eqb_spec key "reason") as [-> | _]; [congruence |].
              reflexivity.
  - intros stateDoc Hnull Hobj. destruct stateDoc; cbn in *; try reflexivity.
    + contradiction.
    + discriminate.
Qed.

Lemma state_report_witness :
  Json.doc_get (state_with_defaults esp32_1 "periodic"
                  (stateAddString JNull "device" "reason" "inner"))
               "device_name"
  = Some (JStr "esp32-1")
  /\ broadcastCurrentState esp32_1 "periodic" fresh_world = (tt, fresh_world).
Proof.
  destruct (state_report esp32_1 "periodic") as (Hidle & _ & Hdefaults & _).
  split.
  - rewrite Hdefaults; [reflexivity |]. right. eexists. reflexivity.
  - apply Hidle. left. reflexivity.
Defined.

Lemma broadcastCurrentState_sent d reason provider state r w :
  _stateProvider d = Some provider ->
  (forall w0, provider JNull w0 = (state, w0)) ->
  _connected (client w) = true ->
  _topicJoinRefs (client w) !! deviceChannel = Some r ->
  serialize_next w = true -> accept_next w = true ->
  let report :=
    broadcast_doc deviceChannel "ARDUINO_STATE_UPDATE"
      (state_with_defaults d reason state) (String_of_uint (counter w)) r in
  broadcastCurrentState d reason w
  = (tt, after_draw (exec (emit EvStateProvider) w)
           [EvSerialize report true; EvSendTXT report true] 1 1).
Proof.
  intros Hp Hpure Hc Hj Hs Ha report.
  unfold broadcastCurrentState. rewrite bind_run.
  unfold isConnected. cbn [gets fst snd]. rewrite Hc, Hp. cbn [negb].
  rewrite bind_run, bind_run, Hpure. cbn [fst snd].
  rewrite bind_run.
  rewrite (broadcast_sent dewab_onError deviceChannel "ARDUINO_STATE_UPDATE" _ r
             (snd (emit EvStateProvider w)) Hc Hj Hs Ha).
  reflexivity.
Qed.

Lemma notify_channelJoined_reports d provider state r w :
  _stateProvider d = Some provider ->
  (forall w0, provider JNull w0 = (state, w0)) ->
  _connected (client w) = true ->
  _topicJoinRefs (client w) !! deviceChannel = Some r ->
  serialize_next w = true -> accept_next w = true ->
  let report :=
    broadcast_doc deviceChannel "ARDUINO_STATE_UPDATE"
      (state_with_defaults d "dewab_channel_joined" state)
      (String_of_uint (counter w)) r in
  notify_channelJoined (dewab_callbacks d) deviceChannel r w
  = (tt, after_draw
           (exec (emit EvStateProvider)
                 (exec (emit (EvCallback (OnChannelJoined deviceChannel r))) w))
           [EvSerialize report true; EvSendTXT report true] 1 1).
Proof.
  intros Hp Hpure Hc Hj Hs Ha report.
  unfold notify_channelJoined. cbn [_channelJoinedCallback dewab_callbacks].
  rewrite bind_run. unfold handleSupabaseChannelJoined.
  rewrite String.eqb_refl, Hp.
  rewrite (broadcastCurrentState_sent d "dewab_channel_joined" provider state r
             (snd (emit (EvCallback (OnChannelJoined deviceChannel r)) w))
             Hp Hpure Hc Hj Hs Ha).
  reflexivity.
Qed.

(** Property X16.  An accepted join reply sets off one state report.
    On a board with a state provider, the reply that confirms the join
    of the device channel stores the join reference and calls the
    channel-joined handler once; the handler asks the provider and
    broadcasts the state.  One "ARDUINO_STATE_UPDATE" frame leaves the
    board, with the next reference and, as join reference, the one the
    reply has just brought. *)
Theorem join_reply_reports_state d provider state payloadArg doc r w :
  _stateProvider d = Some provider ->
  (forall w0, provider JNull w0 = (state, w0)) ->
  deserializeJson (ext w) payloadArg = inr doc ->
  is_join_ok_reply doc deviceChannel ->
  Json.as_cstr (Json.doc_get doc "ref") = Some r ->
  _connected (client w) = true ->
  serialize_next w = true -> accept_next w = true ->
  let w' := exec (webSocketEvent (dewab_callbacks d) WStype_TEXT payloadArg) w in
  let report :=
    broadcast_doc deviceChannel "ARDUINO_STATE_UPDATE"
      (state_with_defaults d "dewab_channel_joined" state)
      (String_of_uint (counter w)) r in
  events_since w w'
  = [EvCallback (OnChannelJoined deviceChannel r); EvStateProvider;
     EvSerialize report true; EvSendTXT report true]
  /\ _topicJoinRefs (client w') = <[deviceChannel := r]> (_topicJoinRefs (client w))
  /\ counter w' = wrap32 (counter w + 1).
Proof.
  intros Hp Hpure Hd Hjoin Hr Hc Hs Ha w' report.
  assert (Hrun : webSocketEvent (dewab_callbacks d) WStype_TEXT payloadArg w
                 = (tt, w')) by (symmetry; apply unit_run_eta).
  rewrite (join_reply_with_ref _ _ _ _ _ _ Hd Hjoin Hr), bind_run in Hrun.
  set (w1 := snd (bind_topic deviceChannel r w)) in Hrun.
  assert (Hj1 : _topicJoinRefs (client w1) !! deviceChannel = Some r)
    by apply lookup_insert_eq.
  rewrite (notify_channelJoined_reports d provider state r w1 Hp Hpure Hc Hj1 Hs Ha)
    in Hrun.
  injection Hrun as <-.
  split; [| split; reflexivity].
  apply events_since_app.
  cbn -[String_of_uint wrap32 state_with_defaults deviceChannel].
  rewrite <- !app_assoc. reflexivity.
Qed.

Lemma join_reply_reports_state_witness :
  let provider : StateProviderCallback :=
    fun doc => ret (stateAddBool doc "leds" "red" true) in
  let d := onStateUpdateRequest (Some provider) esp32_1 in
  let doc :=
    JObj [("topic", JStr deviceChannel); ("event", JStr "phx_reply");
          ("payload", JObj [("status", JStr "ok"); ("response", JObj [])]);
          ("ref", JStr "2")] in
  let w := receiving "join-reply" doc in
  let w' := exec (webSocketEvent (dewab_callbacks d) WStype_TEXT "join-reply") w in
  let state :=
    JObj [("leds", JObj [("red", JBool true)]);
          ("device_name", JStr "esp32-1"); ("reason", JStr "dewab_channel_joined")] in
  let report := broadcast_doc deviceChannel "ARDUINO_STATE_UPDATE" state "1" "2" in
  events_since w w'
  = [EvCallback (OnChannelJoined deviceChannel "2"); EvStateProvider;
     EvSerialize report true; EvSendTXT report true].
Proof.
  intros provider d doc w w' state report.
  refine (proj1 (join_reply_reports_state
                   d provider (stateAddBool JNull "leds" "red" true)
                   "join-reply" doc "2" w _ _ _ _ _ _ _ _)).
  - reflexivity.
  - reflexivity.
  - reflexivity.
  - repeat split.
  - reflexivity.
  - reflexivity.
  - reflexivity.
  - reflexivity.
Defined.

(** Property X17.  What opening the connection sets off on a board.  The
    connection event resets the counter, sends the heartbeat with
    reference "1", and the connected handler of [Dewab] then asks to
    join the device channel with reference "2", which is also the join
    reference of the request.  The join changes no binding; the time of
    the last heartbeat is the clock reading taken after the heartbeat
    was sent. *)
Theorem connection_opens_with_heartbeat_and_join d opened w :
  next_sends_succeed 2 w ->
  let w' := exec (webSocketEvent (dewab_callbacks d) WStype_CONNECTED opened) w in
  let heartbeat := heartbeat_doc "1" in
  let join := join_doc deviceChannel "2" (_apiKey (client w)) in
  events_since w w'
  = [EvSerialize heartbeat true; EvSendTXT heartbeat true;
     EvCallback OnConnected;
     EvSerialize join true; EvSendTXT join true]
  /\ counter w' = 3%Z
  /\ _connected (client w') = true
  /\ _topicJoinRefs (client w') = _topicJoinRefs (client w)
  /\ _lastHeartbeatSent (client w')
     = wrap32 (millis_reading (ext w) (S (millis_calls w))).
Proof.
  intros Hsends w' heartbeat join.
  destruct (Hsends 0%nat ltac:(lia)) as [Hs0 Ha0].
  destruct (Hsends 1%nat ltac:(lia)) as [Hs1 Ha1].
  assert (Hrun : webSocketEvent (dewab_callbacks d) WStype_CONNECTED opened w
                 = (tt, w')) by (symmetry; apply unit_run_eta).
  cbn [webSocketEvent] in Hrun.
  rewrite !bind_run in Hrun.
  match type of Hrun with
  | context [sendHeartbeat ?e ?w0] =>
      rewrite (sendHeartbeat_sent e w0 eq_refl Hs0 Ha0) in Hrun
  end.
  rewrite !bind_run in Hrun.
  unfold notify_connected in Hrun.
  cbn [_connectedCallback dewab_callbacks] in Hrun.
  rewrite bind_run in Hrun. unfold handleSupabaseConnected in Hrun.
  match type of Hrun with
  | context [joinChannel ?e ?t ?w0] =>
      rewrite (joinChannel_connected e t w0 eq_refl),
              (_joinChannel_sent e t w0 eq_refl Hs1 Ha1) in Hrun
  end.
  injection Hrun as <-.
  split; [apply events_since_app; cbn; rewrite <- !app_assoc; reflexivity |].
  repeat split.
Qed.

Lemma connection_opens_with_heartbeat_and_join_witness :
  let w' := exec (webSocketEvent (dewab_callbacks esp32_1) WStype_CONNECTED "/")
                 fresh_world in
  transmitted (events_since fresh_world w')
  = [heartbeat_doc "1"; join_doc deviceChannel "2" "key"]
  /\ counter w' = 3%Z.
Proof.
  intros w'.
  destruct (connection_opens_with_heartbeat_and_join esp32_1 "/" fresh_world)
    as (Hevents & Hcounter & _).
  - intros k Hk. split; reflexivity.
  - split; [| exact Hcounter].
    fold w' in Hevents. rewrite Hevents. reflexivity.
Defined.

(** Property X18.  A join request and what it leaves behind.  On a connected
    client [joinChannel] builds the "phx_join" envelope of the topic,
    with the next reference as [ref] and as [join_ref], the API key as
    access token, and hands that one frame to the transport.  The
    request consumes one reference and binds nothing: the topic gets its
    join reference from the reply only, so a broadcast that follows the
    request directly is refused as not joined. *)
Theorem join_request_binds_nothing onError topic event payload w :
  _connected (client w) = true ->
  serialize_next w = true -> accept_next w = true ->
  _topicJoinRefs (client w) !! topic = None ->
  let r := String_of_uint (counter w) in
  let request :=
    JObj [("topic", JStr topic); ("event", JStr "phx_join");
          ("ref", JStr r); ("join_ref", JStr r);
          ("payload",
            JObj [("access_token", JStr (_apiKey (client w)));
                  ("config",
                    JObj [("broadcast", JObj [("self", JBool false)]);
                          ("presence", JObj [("key", JStr EmptyString)]);
                          ("private", JBool false)])])] in
  let w' := exec (joinChannel onError topic) w in
  events_since w w' = [EvSerialize request true; EvSendTXT request true]
  /\ counter w' = wrap32 (counter w + 1)
  /\ _topicJoinRefs (client w') = _topicJoinRefs (client w)
  /\ broadcast onError topic event payload w'
     = (report_error onError ("Cannot broadcast: Not joined to topic " +:+ topic);;
        ret false) w'.
Proof.
  intros Hc Hs Ha Hj r request w'.
  assert (Hrun : joinChannel onError topic w
                 = (tt, after_draw w [EvSerialize request true;
                                      EvSendTXT request true] 1 1)).
  { rewrite joinChannel_connected by exact Hc.
    apply _joinChannel_sent; assumption. }
  assert (Hw' : w' = after_draw w [EvSerialize request true;
                                   EvSendTXT request true] 1 1).
  { subst w'. unfold exec. rewrite Hrun. reflexivity. }
  rewrite Hw'. split; [apply events_since_app; reflexivity |].
  split; [reflexivity |]. split; [reflexivity |].
  apply broadcast_not_joined; [exact Hc | exact Hj].
Qed.

Lemma join_request_binds_nothing_witness :
  let w := exec (modify_client (set_connected true)) fresh_world in
  let w' := exec (joinChannel None "realtime:room") w in
  events_since w w'
  = [EvSerialize (join_doc "realtime:room" "1" "key") true;
     EvSendTXT (join_doc "realtime:room" "1" "key") true]
  /\ broadcast None "realtime:room" "PING" JNull w' = (false, w').
Proof.
  intros w w'.
  destruct (join_request_binds_nothing None "realtime:room" "PING" JNull w)
    as (Hevents & _ & _ & Hrefused); try reflexivity.
  split; [exact Hevents | exact Hrefused].
Defined.

(** ** Boards that share the device channel *)

Lemma unknown_command_reply_is_a_command d commandType :
  let replyData := snd (unknown_command_reply commandType) in
  targets_other_device d (Some replyData) = false
  /\ is_nested_broadcast (Some replyData) = false.
Proof. split; reflexivity. Qed.

(** The payload of a frame built by [broadcast], read back by the
    engine. *)
Lemma broadcast_branch_round_trip callback topic event members w :
  broadcast_branch callback topic "broadcast"
    (Some [("type", JStr "broadcast"); ("event", JStr event);
           ("payload", JObj members)]) w
  = (emit (EvCallback (OnBroadcast topic event (Some members)));;
     callback topic event (Some members)) w.
Proof. reflexivity. Qed.

(** Property X19.  A board answers the replies of other boards.  The frame in
    which a board reports an unknown command has the shape of a
    command: it names no target device and its event is the command
    type followed by "_ERROR".  A board on the device channel that
    receives such a frame, or any broadcast with an untargeted object
    payload for whose event it has no handler, broadcasts an
    unknown-command reply in turn, whose event is that event followed by
    "_ERROR" once more, and which is again a frame of this kind. *)
Theorem reply_is_answered_by_another_board
    d payloadArg event members messageRef senderJoinRef joinRef w :
  deserializeJson (ext w) payloadArg
  = inr (broadcast_doc deviceChannel event (JObj members) messageRef senderJoinRef) ->
  targets_other_device d (Some members) = false ->
  is_nested_broadcast (Some members) = false ->
  _registeredCommands d !! event = None ->
  _connected (client w) = true ->
  _topicJoinRefs (client w) !! deviceChannel = Some joinRef ->
  serialize_next w = true -> accept_next w = true ->
  let w' := exec (webSocketEvent (dewab_callbacks d) WStype_TEXT payloadArg) w in
  let replyData := snd (unknown_command_reply event) in
  let reply :=
    broadcast_doc deviceChannel (event +:+ "_ERROR") (JObj replyData)
                  (String_of_uint (counter w)) joinRef in
  events_since w w'
  = [EvCallback (OnBroadcast deviceChannel event (Some members));
     EvSerialize reply true; EvSendTXT reply true]
  /\ forall other,
       targets_other_device other (Some replyData) = false
       /\ is_nested_broadcast (Some replyData) = false.
Proof.
  intros Hd Htarget Hnested Hlookup Hc Hj Hs Ha w' replyData reply.
  split; [| intros other; apply unknown_command_reply_is_a_command].
  apply events_since_app. subst w'. unfold exec.
  rewrite (on_text_broadcast (dewab_callbacks d) (handleBroadcastCommand d)
             payloadArg _ deviceChannel w Hd eq_refl eq_refl eq_refl).
  change (Json.as_object (Json.doc_get (broadcast_doc _ _ _ _ _) "payload"))
    with (Some [("type", JStr "broadcast"); ("event", JStr event);
                ("payload", JObj members)]).
  rewrite broadcast_branch_round_trip, bind_run.
  set (w1 := snd (emit (EvCallback (OnBroadcast deviceChannel event (Some members))) w)).
  assert (Hrun : handleBroadcastCommand d deviceChannel event (Some members) w1
                 = send_reply deviceChannel (unknown_command_reply event) w1).
  { rewrite handleBroadcastCommand_processed
      by (unfold actualPayload; rewrite Hnested; exact Htarget).
    unfold command_type_of, result, actualCommandType, actualPayload.
    rewrite Hnested. cbn [ret fst]. unfold execute_command.
    unfold SpecificCommandHandler in *. rewrite Hlookup. reflexivity. }
  rewrite Hrun.
  unfold unknown_command_reply at 1.
  rewrite send_reply_run by apply append_nonempty.
  unfold exec.
  rewrite (broadcast_sent dewab_onError deviceChannel (event +:+ "_ERROR") _
             joinRef w1 Hc Hj Hs Ha).
  cbn [snd after_draw trace]. subst w1. cbn [emit snd trace].
  rewrite <- app_assoc. reflexivity.
Qed.

Lemma reply_is_answered_by_another_board_witness :
  let received :=
    broadcast_doc deviceChannel "PING_ERROR"
      (JObj (snd (unknown_command_reply "PING"))) "9" "4" in
  let w := mkWorld (client joined_world) (parsing [("frame", received)]) 0 0 0 [] in
  let w' := exec (webSocketEvent (dewab_callbacks esp32_1) WStype_TEXT "frame") w in
  let reply :=
    broadcast_doc deviceChannel "PING_ERROR_ERROR"
      (JObj (snd (unknown_command_reply "PING_ERROR"))) "1" "5" in
  events_since w w'
  = [EvCallback (OnBroadcast deviceChannel "PING_ERROR"
                   (Some (snd (unknown_command_reply "PING"))));
     EvSerialize reply true; EvSendTXT reply true].
Proof.
  intros received w w' reply.
  refine (proj1 (reply_is_answered_by_another_board
                   esp32_1 "frame" "PING_ERROR" (snd (unknown_command_reply "PING"))
                   "9" "4" "5" w _ _ _ _ _ _ _ _));
    reflexivity.
Defined.

(** ** The time of the last heartbeat *)

(** Property X20.  The keep-alive check restarts the interval only when a
    heartbeat was taken by the transport.  After a check on a connected
    client the time of the last heartbeat is the clock reading taken
    after the send, when the heartbeat was due, serialized and accepted;
    in every other case it is what it was, so a heartbeat that failed is
    due again at the next check.  The time compared with the interval
    and the time stored are two readings of the clock. *)
Theorem heartbeat_time_restarts_on_success_only cbs w :
  (forall f, _errorCallback cbs = Some f ->
             forall m, keeps eq _lastHeartbeatSent (f m)) ->
  _connected (client w) = true ->
  let currentTime := wrap32 (millis_reading (ext w) (millis_calls w)) in
  let due :=
    (_heartbeatInterval <=? wrap32 (currentTime - _lastHeartbeatSent (client w)))%Z in
  let w' := exec (heartbeat_check cbs) w in
  _lastHeartbeatSent (client w')
  = if due && serialize_next w && accept_next w
    then wrap32 (millis_reading (ext w) (S (millis_calls w)))
    else _lastHeartbeatSent (client w).
Proof.
  intros Herr Hc currentTime due w'.
  assert (Hreport : forall m w0,
             _lastHeartbeatSent (client (exec (report_error (_errorCallback cbs) m) w0))
             = _lastHeartbeatSent (client w0)).
  { intros m w0. symmetry.
    apply (keeps_report_error eq _lastHeartbeatSent); try congruence.
    exact Herr. }
  unfold exec in Hreport.
  subst w'. unfold exec, heartbeat_check.
  rewrite bind_run. unfold isConnected. cbn [gets fst snd]. rewrite Hc.
  rewrite !bind_run. cbn [gets millis fst snd client].
  fold currentTime. fold due.
  destruct due; cbn [andb]; [| reflexivity].
  set (w1 := mkWorld _ _ _ _ _ _).
  destruct (serialize_next w) eqn:Hs; cbn [andb].
  - destruct (accept_next w) eqn:Ha.
    + rewrite (sendHeartbeat_sent _ w1 Hc Hs Ha). reflexivity.
    + rewrite (sendHeartbeat_send_fails _ w1 Hc Hs Ha).
      etransitivity; [apply Hreport | reflexivity].
  - rewrite (sendHeartbeat_serialize_fails _ w1 Hc Hs).
    etransitivity; [apply Hreport | reflexivity].
Qed.

Lemma heartbeat_time_restarts_on_success_only_witness :
  let refusing :=
    mkExtern (fun k => nth k [30000; 30010] 0)%Z (fun _ => true) (fun _ => false)
             (fun _ => inl "InvalidInput") (fun _ => "null") in
  let w := mkWorld (client joined_world) refusing 0 0 0 [] in
  _lastHeartbeatSent (client (exec (heartbeat_check observers) w)) = 0%Z.
Proof.
  intros refusing w.
  apply (heartbeat_time_restarts_on_success_only observers w).
  - intros f [= <-] m w0. reflexivity.
  - reflexivity.
Defined.

(** ** WifiManager *)

Lemma wrap32_sub a b : wrap32 (wrap32 a - wrap32 b) = wrap32 (a - b).
Proof. unfold wrap32, UINT_MODULUS. symmetry. apply Zminus_mod. Qed.

Lemma connect_wait_returns n :
  forall w s,
    clock_advances_from (wifi_millis_calls w) (wifi_ext w) ->
    (1 <= n)%nat ->
    let next := wifi_millis_reading (wifi_ext w) (wifi_millis_calls w) in
    (0 <= next - s <= 70000)%Z ->
    (10000 < next - s + 500 * (Z.of_nat n - 1))%Z ->
    exists w' k,
      connect_wait n (wrap32 s) w = Some w'
      /\ (k <= n)%nat
      /\ (k = 0%nat <-> status_is_connected (wifi_ext w) (status_calls w) = true)
      /\ wifi_trace w' = wifi_trace w ++ replicate k (EvDelay 500)
      /\ wifi w' = wifi w
      /\ wifi_ext w' = wifi_ext w.
Proof.
  induction n as [| m IH]; intros w s Hclock Hn next Hrange Hbound; [lia |].
  cbn [connect_wait WiFi_status_connected fst snd].
  destruct (status_is_connected (wifi_ext w) (status_calls w)) eqn:Hpoll.
  - exists (mkWifiWorld (wifi w) (wifi_ext w) (S (status_calls w))
                        (wifi_millis_calls w) (wifi_trace w)), 0%nat.
    cbn. rewrite app_nil_r. repeat split; auto; lia.
  - cbn [wifi_millis wifi_emit fst snd wifi_ext wifi_millis_calls wifi status_calls
         wifi_trace].
    fold next. rewrite wrap32_sub.
    rewrite (wrap32_small (next - s)) by (unfold UINT_MODULUS; lia).
    destruct (10000 <? next - s)%Z eqn:Hexit.
    + eexists _, 1%nat. split; [reflexivity |].
      cbn. repeat split; auto; try lia; try discriminate.
    + apply Z.ltb_ge in Hexit.
      set (w2 := mkWifiWorld _ _ _ _ _).
      assert (Hm : (1 <= m)%nat) by lia.
      pose proof (Hclock (wifi_millis_calls w) (Nat.le_refl _)) as Hstep.
      fold next in Hstep.
      destruct (IH w2 s) as (w' & k & Hrun & Hk & _ & Htrace & Hwifi & Hext).
      * subst w2. cbn. intros j Hj. apply Hclock. lia.
      * exact Hm.
      * subst w2. cbn. lia.
      * subst w2. cbn. lia.
      * exists w', (S k). rewrite Hrun. split; [reflexivity |].
        split; [lia |]. split; [split; [lia | discriminate] |].
        split; [| split; assumption].
        rewrite Htrace. subst w2. cbn. rewrite <- app_assoc. reflexivity.
Qed.

Lemma connect_wait_more_fuel n :
  forall m start w w',
    connect_wait n start w = Some w' -> (n <= m)%nat ->
    connect_wait m start w = Some w'.
Proof.
  induction n as [| n IH]; intros m start w w' Hrun Hm; [discriminate |].
  destruct m as [| m]; [lia |].
  cbn [connect_wait] in *.
  destruct (fst (WiFi_status_connected w)); [exact Hrun |].
  destruct (10000 <? _)%Z; [exact Hrun |].
  apply IH; [exact Hrun | lia].
Qed.

Lemma WifiManager_connect_returns w fuel :
  clock_advances_from (wifi_millis_calls w) (wifi_ext w) -> (21 <= fuel)%nat ->
  exists w' k,
    WifiManager_connect fuel w = Some w'
    /\ (k <= 21)%nat
    /\ (k = 0%nat <-> status_is_connected (wifi_ext w) (status_calls w) = true)
    /\ wifi_trace w'
       = wifi_trace w
         ++ EvWiFiBegin (_ssid (wifi w)) (_password (wifi w))
            :: replicate k (EvDelay 500)
    /\ wifi w' = wifi w
    /\ wifi_ext w' = wifi_ext w.
Proof.
  intros Hclock Hfuel. unfold WifiManager_connect.
  cbn [wifi_millis wifi_emit fst snd wifi_ext wifi_millis_calls wifi status_calls
       wifi_trace].
  set (w1 := mkWifiWorld _ _ _ _ _).
  pose proof (Hclock (wifi_millis_calls w) (Nat.le_refl _)) as Hstep.
  destruct (connect_wait_returns 21 w1 (wifi_millis_reading (wifi_ext w)
                                                            (wifi_millis_calls w)))
    as (w' & k & Hrun & Hk & Hzero & Htrace & Hwifi & Hext);
    try (subst w1; cbn; lia);
    [subst w1; cbn; intros j Hj; apply Hclock; lia |].
  exists w', k. split; [apply (connect_wait_more_fuel 21); assumption |].
  split; [exact Hk |]. split; [exact Hzero |].
  split; [| split; assumption].
  rewrite Htrace. subst w1. cbn. rewrite <- app_assoc. reflexivity.
Qed.

(** Property X21.  [WifiManager::connect] comes back.  It calls [WiFi.begin]
    once, whether the board is attached already or not, and then polls;
    on a clock on which each round of 500 ms lasts at least that and at
    most a minute, the wait ends after at most 21 rounds, by the poll
    that finds the board attached or by the timeout of 10 seconds.  No
    round is waited when the first poll finds the board attached. *)
Theorem wifi_connect_returns w fuel :
  clock_advances (wifi_ext w) -> (21 <= fuel)%nat ->
  exists w' rounds,
    WifiManager_connect fuel w = Some w'
    /\ (rounds <= 21)%nat
    /\ (rounds = 0%nat <-> status_is_connected (wifi_ext w) (status_calls w) = true)
    /\ wifi_trace w'
       = wifi_trace w
         ++ EvWiFiBegin (_ssid (wifi w)) (_password (wifi w))
            :: replicate rounds (EvDelay 500)
    /\ wifi w' = wifi w.
Proof.
  intros Hclock Hfuel.
  destruct (WifiManager_connect_returns w fuel (fun k _ => Hclock k) Hfuel)
    as (w' & k & Hrun & Hk & Hzero & Htrace & Hwifi & _).
  exists w', k. repeat split; try assumption; apply Hzero.
Qed.

Lemma wifi_connect_returns_witness :
  let never_attached :=
    mkWifiExtern (fun _ => false) (fun k => 500 * Z.of_nat k)%Z in
  let w := mkWifiWorld (WifiManager_new "lab" "secret") never_attached 0 0 [] in
  exists w' rounds,
    WifiManager_connect 21 w = Some w'
    /\ (rounds <= 21)%nat
    /\ (rounds = 0%nat <-> status_is_connected (wifi_ext w) (status_calls w) = true)
    /\ wifi_trace w'
       = wifi_trace w
         ++ EvWiFiBegin (_ssid (wifi w)) (_password (wifi w))
            :: replicate rounds (EvDelay 500)
    /\ wifi w' = wifi w.
Proof.
  intros never_attached w.
  apply (wifi_connect_returns w 21).
  - intros k. cbn [wifi_ext w never_attached wifi_millis_reading]. lia.
  - lia.
Defined.

(** Property X22.  [WifiManager::loop] reconnects at most once per
    interval.  While the board is attached it only polls the status.
    Otherwise it reads the clock and, when more than 30 seconds in
    wrapping [unsigned long] arithmetic have passed since the last
    attempt, runs [connect] and records the time read before the
    attempt, not the time at which the attempt ended; when less has
    passed it does nothing more.  It always comes back, on a clock on
    which each round of the wait loop of [connect] lasts at least its
    500 ms and at most a minute; the reading of [loop] and the first
    reading of [connect], which follow one another at once, may be
    equal. *)
Theorem wifi_loop_reconnects_when_due w fuel :
  clock_advances_from (S (wifi_millis_calls w)) (wifi_ext w) -> (21 <= fuel)%nat ->
  let currentTime :=
    wrap32 (wifi_millis_reading (wifi_ext w) (wifi_millis_calls w)) in
  exists w' rounds,
    WifiManager_loop fuel w = Some w'
    /\ (rounds <= 21)%nat
    /\ wifi_trace w'
       = wifi_trace w
         ++ (if reconnect_due w
             then EvWiFiBegin (_ssid (wifi w)) (_password (wifi w))
                  :: replicate rounds (EvDelay 500)
             else [])
    /\ _lastReconnectAttempt (wifi w')
       = (if reconnect_due w then currentTime else _lastReconnectAttempt (wifi w))
    /\ _ssid (wifi w') = _ssid (wifi w)
    /\ _password (wifi w') = _password (wifi w).
Proof.
  intros Hclock Hfuel currentTime.
  unfold WifiManager_loop, reconnect_due, WifiManager_isConnected.
  cbn [WiFi_status_connected fst snd].
  destruct (status_is_connected (wifi_ext w) (status_calls w)) eqn:Hpoll;
    cbn [negb andb].
  - eexists _, 0%nat. split; [reflexivity |]. cbn. rewrite app_nil_r.
    repeat split; lia.
  - cbn [wifi_millis fst snd wifi wifi_ext wifi_millis_calls status_calls wifi_trace].
    fold currentTime.
    destruct (_reconnectInterval <? wrap32 (currentTime - _lastReconnectAttempt (wifi w)))%Z.
    + set (w1 := mkWifiWorld _ _ _ _ _).
      destruct (WifiManager_connect_returns w1 fuel Hclock Hfuel)
        as (w' & k & Hrun & Hk & _ & Htrace & Hwifi & _).
      rewrite Hrun. eexists _, k. split; [reflexivity |].
      split; [exact Hk |]. cbn. rewrite Hwifi. repeat split. exact Htrace.
    + eexists _, 0%nat. split; [reflexivity |]. cbn. rewrite app_nil_r.
      repeat split; lia.
Qed.

Lemma wifi_loop_reconnects_when_due_witness :
  let never_attached :=
    mkWifiExtern (fun _ => false)
                 (fun k => 40000 + 500 * Z.of_nat (k - 1))%Z in
  let w := mkWifiWorld (WifiManager_new "lab" "secret") never_attached 0 0 [] in
  wifi_millis_reading (wifi_ext w) 0 = wifi_millis_reading (wifi_ext w) 1
  /\ exists w' rounds,
    WifiManager_loop 21 w = Some w'
    /\ (rounds <= 21)%nat
    /\ wifi_trace w'
       = wifi_trace w
         ++ (if reconnect_due w
             then EvWiFiBegin (_ssid (wifi w)) (_password (wifi w))
                  :: replicate rounds (EvDelay 500)
             else [])
    /\ _lastReconnectAttempt (wifi w')
       = (if reconnect_due w
          then wrap32 (wifi_millis_reading (wifi_ext w) (wifi_millis_calls w))
          else _lastReconnectAttempt (wifi w))
    /\ _ssid (wifi w') = _ssid (wifi w)
    /\ _password (wifi w') = _password (wifi w).
Proof.
  intros never_attached w. split; [reflexivity |].
  apply (wifi_loop_reconnects_when_due w 21).
  - intros k Hk. cbn [wifi_ext w never_attached wifi_millis_reading wifi_millis_calls] in *.
    lia.
  - lia.
Defined.

(** The bound of 21 rounds is reached: on a board that never attaches,
    with a clock that advances by exactly 500 ms a round, [connect]
    waits 21 rounds, and 20 rounds are not enough for it to return. *)
Example connect_gives_up_after_21_rounds :
  let never_attached :=
    mkWifiExtern (fun _ => false) (fun k => 500 * Z.of_nat k)%Z in
  let w := mkWifiWorld (WifiManager_new "lab" "secret") never_attached 0 0 [] in
  WifiManager_connect 20 w = None
  /\ option_map (fun w' => delays (wifi_trace w')) (WifiManager_connect 21 w)
     = Some 21%nat
  /\ option_map (fun w' => begins (wifi_trace w')) (WifiManager_connect 21 w)
     = Some 1%nat.
Proof. repeat split; vm_compute; reflexivity. Qed.

(** ** Commands on a channel that is not bound *)

(** Property X23.  A command is carried out even when it cannot be answered.
    The dispatcher does not look at the bindings: on a client whose
    device channel has no join reference, as after a join reply that
    carried none, a command with a registered handler still runs the
    handler; the reply is then refused by [broadcast], the failure goes
    to the error handler of [Dewab], which prints it, and no frame is
    built or sent. *)
Theorem command_runs_without_reply (d : Dewab) (event : string)
    (payload : JsonObjectConst) (handler : SpecificCommandHandler)
    (outcome : bool * Json) (w : World) :
  let commandType := command_type_of w event payload in
  let commandPayload := actualPayload payload in
  targets_other_device d commandPayload = false ->
  _registeredCommands d !! commandType = Some handler ->
  (forall w0, handler commandPayload JNull w0 = (outcome, w0)) ->
  _connected (client w) = true ->
  _topicJoinRefs (client w) !! deviceChannel = None ->
  let w' := exec (handleBroadcastCommand d deviceChannel event payload) w in
  events_since w w'
  = [EvCommandHandler commandType commandPayload;
     EvCallback (OnError ("Cannot broadcast: Not joined to topic " +:+ deviceChannel))]
  /\ client w' = client w.
Proof.
  intros commandType commandPayload Htarget Hlookup Hpure Hc Hj w'.
  assert (Hrun : handleBroadcastCommand d deviceChannel event payload w
                 = (tt, exec (emit (EvCallback
                                      (OnError ("Cannot broadcast: Not joined to topic "
                                                +:+ deviceChannel))))
                             (exec (emit (EvCommandHandler commandType commandPayload)) w))).
  { rewrite handleBroadcastCommand_processed by exact Htarget.
    unfold execute_command. fold commandType commandPayload.
    unfold SpecificCommandHandler in *. rewrite Hlookup.
    rewrite bind_run, bind_run, Hpure. cbn [fst snd].
    destruct (handler_reply_members commandType (fst outcome) (snd outcome))
      as (Hevent & _).
    destruct (handler_reply commandType (fst outcome) (snd outcome))
      as [replyEvent replyData] eqn:Hreply.
    cbn [fst] in Hevent.
    rewrite send_reply_run
      by (rewrite Hevent; destruct (fst outcome); apply append_nonempty).
    unfold exec at 1.
    match goal with
    | |- context [broadcast ?e ?t ?ev ?p ?w0] =>
        rewrite (broadcast_not_joined e t ev p w0 Hc Hj)
    end.
    reflexivity. }
  assert (Hw' : w' = snd (handleBroadcastCommand d deviceChannel event payload w))
    by reflexivity.
  rewrite Hrun in Hw'. cbn [snd] in Hw'. rewrite Hw'.
  split; [| reflexivity].
  apply events_since_app. cbn. rewrite <- app_assoc. reflexivity.
Qed.

Lemma command_runs_without_reply_witness :
  let w := exec (modify_client (set_connected true)) fresh_world in
  let w' := exec (handleBroadcastCommand esp32_1 deviceChannel "SET_LED" None) w in
  events_since w w'
  = [EvCommandHandler "SET_LED" None;
     EvCallback (OnError ("Cannot broadcast: Not joined to topic " +:+ deviceChannel))]
  /\ client w' = client w.
Proof.
  intros w w'.
  apply (command_runs_without_reply esp32_1 "SET_LED" None led_handler
           (true, Json.doc_set "led" (JStr "on") JNull) w);
    try reflexivity.
Defined.
